(** * CardENV: the page/state engine of src/main.cpp

    The sketch is a single translation unit of global variables and
    [void] functions that mutate them and talk to the display.  It is
    embedded here as it is written:

    - every global variable is a field of the record [Globals], under its
      source name;
    - a function is a computation in the monad [M]: it reads and writes the
      globals, appends to the list of display operations it issued, and
      fails ([None]) where the C++ program would index an array outside
      its bounds;
    - [int] values are [Z] (the invariants proved below keep the indices,
      counts and settings within a few units of 0..100), [/] and [%] on
      them are [Z.quot] and [Z.rem]; [unsigned long] times are [Z] with
      the subtraction wrapping modulo 2^32, as on the 32-bit target;
    - [float] arithmetic is kept abstract: the type [F] of samples and the
      operations the source applies to it form the interface [FloatOps],
      and the theorems stated for every [F] do not depend on how the
      operations round.  There are two instances.  [Binary32_FloatOps] is
      the arithmetic of the target: IEEE 754 binary32 variables, the
      literals of the source being [double]s, with Rocq's [SpecFloat] as
      the definition of rounding; it decides what the code does where
      rounding matters.  Exact rational arithmetic ([Q_FloatOps]) is the
      arithmetic the specification reasons in; it satisfies [ExactArith],
      which binary32 does not, and it is used where a run only exercises
      the integer and control part of the sketch;
    - [sprintf] is the [fformat] of that interface (the sizes of the
      character buffers are not modelled: a formatted value too long for
      its buffer is outside this model, and so is a cast [(int)x] of a
      value that is not finite or not in the range of [int]);
    - what the hardware supplies in one pass of [loop] (keyboard state,
      sensor registers, battery, and the value returned by each call of
      [millis()]) is the record [Input]; [SetupInput] is the same for
      [setup];
    - [Serial] traffic and [delay] are not part of the state or of the
      display and are left out.

    Three functions are cut into their consecutive blocks, each named
    after what it does and marked with its source lines: [setup]
    ([setupScreen], [setupReadings]), [drawGraphPageStatic]
    ([graphMinMax], [graphScale], [drawGraphLine]) and [loop] ([render]);
    [historyAppend] is the body of the [if] of [updateHistory] and
    [handleKey] the body of the loop over the pressed keys. *)

From Stdlib Require Import ZArith QArith Qabs Lqa Lia List Bool Ascii String.
From Stdlib Require Floats.SpecFloat.
From stdpp Require Import base list pretty.

Local Open Scope Z_scope.
Declare Scope sketch_scope.

(* ================================================================== *)
(** ** Floating-point interface *)

Class FloatOps (F : Type) : Type := {
  flit : Q -> F;                 (* a decimal literal, e.g. 0.05 *)
  fadd : F -> F -> F;
  fsub : F -> F -> F;
  fmul : F -> F -> F;
  fdiv : F -> F -> F;
  fneg : F -> F;
  fltb : F -> F -> bool;         (* a < b *)
  fofint : Z -> F;               (* int operand promoted to float *)
  ftoint : F -> Z;               (* the cast (int)x *)
  fformat : string -> F -> string (* sprintf(buf, format, x) *)
}.

(** The laws of [<] that the min/max scan relies on: a strict order.  IEEE
    comparison satisfies both, NaN included (NaN is below nothing and
    nothing is below it). *)
Class FloatOrder (F : Type) `{FloatOps F} : Prop := {
  fltb_irrefl : forall a : F, fltb a a = false;
  fltb_trans : forall a b c : F, fltb a b = true -> fltb b c = true -> fltb a c = true
}.

(** A reading [val] of the floats as rationals under which the operations
    are exact: the arithmetic in which the specification states distances
    and spans.  The instance [Q] has it; binary32 has no such reading. *)
Class ExactArith (F : Type) `{FloatOps F} (val : F -> Q) : Prop := {
  val_flit : forall q : Q, (val (flit q) == q)%Q;
  val_fadd : forall a b : F, (val (fadd a b) == val a + val b)%Q;
  val_fsub : forall a b : F, (val (fsub a b) == val a - val b)%Q;
  val_fmul : forall a b : F, (val (fmul a b) == val a * val b)%Q;
  val_fdiv : forall a b : F, ~ (val b == 0)%Q -> (val (fdiv a b) == val a / val b)%Q;
  val_fneg : forall a : F, (val (fneg a) == - val a)%Q;
  val_fltb : forall a b : F, fltb a b = true <-> (val a < val b)%Q
}.

(* ================================================================== *)
(** ** The display surface *)

Inductive Color : Type :=
| TFT_BLACK | TFT_WHITE | TFT_GREEN | TFT_YELLOW | TFT_RED | TFT_DARKGREY | TFT_CYAN
| RGB565 (v : Z).

Definition COLOR_TEMP : Color := RGB565 0xFD20.
Definition COLOR_HUMIDITY : Color := RGB565 0x07FF.
Definition COLOR_PRESSURE : Color := RGB565 0xD01F.

(** One constructor per method of [M5Cardputer.Display] the sketch calls. *)
Inductive DisplayOp : Type :=
| setRotation (r : Z)
| setBrightness (b : Z)
| fillScreen (c : Color)
| fillRect (x y w h : Z) (c : Color)
| drawRect (x y w h : Z) (c : Color)
| fillRoundRect (x y w h r : Z) (c : Color)
| drawRoundRect (x y w h r : Z) (c : Color)
| fillCircle (x y r : Z) (c : Color)
| fillTriangle (x0 y0 x1 y1 x2 y2 : Z) (c : Color)
| drawLine (x0 y0 x1 y1 : Z) (c : Color)
| setTextSize (n : Z)
| setTextColor (c : Color)
| setCursor (x y : Z)
| print (s : string).

Definition is_setBrightness (op : DisplayOp) : bool :=
  match op with setBrightness _ => true | _ => false end.

(* ================================================================== *)
(** ** Constants of the sketch *)

Inductive ScreenState : Type := SCREEN_ON | SCREEN_OFF.

Definition ScreenState_eqb (a b : ScreenState) : bool :=
  match a, b with
  | SCREEN_ON, SCREEN_ON | SCREEN_OFF, SCREEN_OFF => true
  | _, _ => false
  end.

Definition historySize : Z := 60.
Definition historyInterval : Z := 60000.
Definition displayInterval : Z := 1000.
Definition flashInterval : Z := 500.
Definition boxWidth : Z := 72.
Definition boxHeight : Z := 85.
Definition boxMargin : Z := 6.
Definition boxRadius : Z := 8.
Definition boxBorderWidth : Z := 2.
Definition topMargin : Z := 22.

(** [const unsigned long screenTimeoutValues[] = {10000, 30000, 0}]. *)
Definition screenTimeoutValues : list Z := [10000; 30000; 0].

(** [a - b] on [unsigned long]. *)
Definition usub (a b : Z) : Z := (a - b) mod 2 ^ 32.

(** Reading and writing [a[i]] for an [int] index: defined only inside the
    array. *)
Definition aget {A} (a : list A) (i : Z) : option A :=
  if (0 <=? i) && (i <? Z.of_nat (length a)) then a !! Z.to_nat i else None.

Definition aset {A} (a : list A) (i : Z) (v : A) : option (list A) :=
  if (0 <=? i) && (i <? Z.of_nat (length a)) then Some (<[Z.to_nat i := v]> a) else None.

(* ================================================================== *)
(** ** The global variables *)

Section CardENV.

Context {F : Type} `{FloatOps F}.

Record Globals : Type := {
  (* current readings *)
  temperature : F;
  humidity : F;
  pressure : F;
  (* previous displayed values *)
  dispTemp : F;
  dispHumidity : F;
  dispPressure : F;
  (* history for graphs *)
  tempHistory : list F;
  humidityHistory : list F;
  pressureHistory : list F;
  historyIndex : Z;
  historyCount : Z;
  lastHistoryUpdate : Z;
  screenW : Z;
  screenH : Z;
  (* 0 = main, 1 = temp graph, 2 = humidity graph, 3 = pressure graph, 4 = settings *)
  currentPage : Z;
  lastActivityTime : Z;
  normalBrightness : Z;
  screenState : ScreenState;
  lastDisplayUpdate : Z;
  batteryFlashOn : bool;
  lastFlashTime : Z;
  prevBatteryLevel : Z;
  prevCharging : bool;
  tempBoxX : Z;
  humidBoxX : Z;
  pressBoxX : Z;
  boxY : Z;
  needsFullRedraw : bool;
  graphDispValue : F;
  (* settings; timeout options: 0 = 10s, 1 = 30s, 2 = Always On *)
  useFahrenheit : bool;
  screenTimeoutOption : Z;
  settingsSelection : Z
}.

(** The values the globals have when [setup] starts: their initialisers,
    and zero for those that have none. *)
Definition initialGlobals : Globals := {|
  temperature := flit 0; humidity := flit 0; pressure := flit 0;
  dispTemp := flit (-999); dispHumidity := flit (-999); dispPressure := flit (-999);
  tempHistory := replicate (Z.to_nat historySize) (flit 0);
  humidityHistory := replicate (Z.to_nat historySize) (flit 0);
  pressureHistory := replicate (Z.to_nat historySize) (flit 0);
  historyIndex := 0; historyCount := 0; lastHistoryUpdate := 0;
  screenW := 0; screenH := 0;
  currentPage := 0;
  lastActivityTime := 0; normalBrightness := 80; screenState := SCREEN_ON;
  lastDisplayUpdate := 0;
  batteryFlashOn := true; lastFlashTime := 0; prevBatteryLevel := -1; prevCharging := false;
  tempBoxX := 0; humidBoxX := 0; pressBoxX := 0; boxY := 0;
  needsFullRedraw := true;
  graphDispValue := flit (-999);
  useFahrenheit := false; screenTimeoutOption := 2; settingsSelection := 0
|}.

(** Assignment to one global: the record rebuilt with that field replaced.
    [setter p] builds the term from the eta-expansion below. *)
Definition etaGlobals (g : Globals) : Globals :=
  Build_Globals
    (temperature g) (humidity g) (pressure g)
    (dispTemp g) (dispHumidity g) (dispPressure g)
    (tempHistory g) (humidityHistory g) (pressureHistory g)
    (historyIndex g) (historyCount g) (lastHistoryUpdate g)
    (screenW g) (screenH g) (currentPage g)
    (lastActivityTime g) (normalBrightness g) (screenState g) (lastDisplayUpdate g)
    (batteryFlashOn g) (lastFlashTime g) (prevBatteryLevel g) (prevCharging g)
    (tempBoxX g) (humidBoxX g) (pressBoxX g) (boxY g)
    (needsFullRedraw g) (graphDispValue g)
    (useFahrenheit g) (screenTimeoutOption g) (settingsSelection g).

Ltac setter proj :=
  intros v g;
  let e := eval cbv beta delta [etaGlobals] in (etaGlobals g) in
  match e with
  | context C [proj g] => let r := context C [v] in exact r
  end.

Definition set_temperature : F -> Globals -> Globals.
Proof. setter temperature. Defined.
Definition set_humidity : F -> Globals -> Globals.
Proof. setter humidity. Defined.
Definition set_pressure : F -> Globals -> Globals.
Proof. setter pressure. Defined.
Definition set_dispTemp : F -> Globals -> Globals.
Proof. setter dispTemp. Defined.
Definition set_dispHumidity : F -> Globals -> Globals.
Proof. setter dispHumidity. Defined.
Definition set_dispPressure : F -> Globals -> Globals.
Proof. setter dispPressure. Defined.
Definition set_tempHistory : list F -> Globals -> Globals.
Proof. setter tempHistory. Defined.
Definition set_humidityHistory : list F -> Globals -> Globals.
Proof. setter humidityHistory. Defined.
Definition set_pressureHistory : list F -> Globals -> Globals.
Proof. setter pressureHistory. Defined.
Definition set_historyIndex : Z -> Globals -> Globals.
Proof. setter historyIndex. Defined.
Definition set_historyCount : Z -> Globals -> Globals.
Proof. setter historyCount. Defined.
Definition set_lastHistoryUpdate : Z -> Globals -> Globals.
Proof. setter lastHistoryUpdate. Defined.
Definition set_screenW : Z -> Globals -> Globals.
Proof. setter screenW. Defined.
Definition set_screenH : Z -> Globals -> Globals.
Proof. setter screenH. Defined.
Definition set_currentPage : Z -> Globals -> Globals.
Proof. setter currentPage. Defined.
Definition set_lastActivityTime : Z -> Globals -> Globals.
Proof. setter lastActivityTime. Defined.
Definition set_normalBrightness : Z -> Globals -> Globals.
Proof. setter normalBrightness. Defined.
Definition set_screenState : ScreenState -> Globals -> Globals.
Proof. setter screenState. Defined.
Definition set_lastDisplayUpdate : Z -> Globals -> Globals.
Proof. setter lastDisplayUpdate. Defined.
Definition set_batteryFlashOn : bool -> Globals -> Globals.
Proof. setter batteryFlashOn. Defined.
Definition set_lastFlashTime : Z -> Globals -> Globals.
Proof. setter lastFlashTime. Defined.
Definition set_prevBatteryLevel : Z -> Globals -> Globals.
Proof. setter prevBatteryLevel. Defined.
Definition set_prevCharging : bool -> Globals -> Globals.
Proof. setter prevCharging. Defined.
Definition set_tempBoxX : Z -> Globals -> Globals.
Proof. setter tempBoxX. Defined.
Definition set_humidBoxX : Z -> Globals -> Globals.
Proof. setter humidBoxX. Defined.
Definition set_pressBoxX : Z -> Globals -> Globals.
Proof. setter pressBoxX. Defined.
Definition set_boxY : Z -> Globals -> Globals.
Proof. setter boxY. Defined.
Definition set_needsFullRedraw : bool -> Globals -> Globals.
Proof. setter needsFullRedraw. Defined.
Definition set_graphDispValue : F -> Globals -> Globals.
Proof. setter graphDispValue. Defined.
Definition set_useFahrenheit : bool -> Globals -> Globals.
Proof. setter useFahrenheit. Defined.
Definition set_screenTimeoutOption : Z -> Globals -> Globals.
Proof. setter screenTimeoutOption. Defined.
Definition set_settingsSelection : Z -> Globals -> Globals.
Proof. setter settingsSelection. Defined.

(* ================================================================== *)
(** ** The monad of the sketch's functions

    A computation takes the globals and returns its result, the globals it
    leaves and the display operations it issued, in order; [None] is
    undefined behaviour (an array indexed outside its bounds). *)

Definition M (A : Type) : Type := Globals -> option (A * Globals * list DisplayOp).

Definition ret {A} (a : A) : M A := fun g => Some (a, g, []).

Definition bind {A B} (m : M A) (k : A -> M B) : M B := fun g =>
  match m g with
  | Some (a, g1, o1) =>
      match k a g1 with
      | Some (b, g2, o2) => Some (b, g2, o1 ++ o2)
      | None => None
      end
  | None => None
  end.

Definition gets {A} (f : Globals -> A) : M A := fun g => Some (f g, g, []).
Definition modify (f : Globals -> Globals) : M unit := fun g => Some (tt, f g, []).
Definition emit (op : DisplayOp) : M unit := fun g => Some (tt, g, [op]).
Definition undefined {A} : M A := fun _ => None.
Definition lift {A} (o : option A) : M A :=
  match o with Some a => ret a | None => undefined end.

Fixpoint forM_ {A} (l : list A) (f : A -> M unit) : M unit :=
  match l with
  | [] => ret tt
  | a :: l' => bind (f a) (fun _ => forM_ l' f)
  end.

Fixpoint foldM {A B} (f : B -> A -> M B) (b : B) (l : list A) : M B :=
  match l with
  | [] => ret b
  | a :: l' => bind (f b a) (fun b' => foldM f b' l')
  end.

(** The values [i] takes in [for (int i = 0; i < n; i++)]. *)
Definition upto (n : Z) : list Z := map Z.of_nat (seq 0 (Z.to_nat n)).

Notation "x <- c1 ;; c2" := (bind c1 (fun x => c2))
  (at level 100, c1 at next level, c2 at level 200, right associativity) : sketch_scope.
Notation "c1 ;; c2" := (bind c1 (fun _ => c2))
  (at level 100, c2 at level 200, right associativity) : sketch_scope.
Local Open Scope sketch_scope.

(* ================================================================== *)
(** ** What the hardware supplies *)

(** One call of [drawBattery]: [Power.getBatteryLevel()],
    [Power.isCharging()] and the [millis()] it may read. *)
Record PowerRead : Type := {
  pw_level : Z;
  pw_charging : bool;
  pw_millis : Z
}.

(** One pass of [loop]. *)
Record Input : Type := {
  (* M5Cardputer.Keyboard after M5Cardputer.update() *)
  in_isChange : bool;
  in_isPressed : bool;
  in_word : list ascii;
  (* sensor registers after update() *)
  in_cTemp : F;
  in_humidity : F;
  in_qmpPressure : F;
  (* millis() as read in wakeScreen, updateScreenTimeout, updateHistory, loop *)
  in_millisWake : Z;
  in_millisTimeout : Z;
  in_millisHistory : Z;
  in_millisLoop : Z;
  (* the first and the second call of drawBattery in the pass *)
  in_power1 : PowerRead;
  in_power2 : PowerRead
}.

(** What [setup] reads. *)
Record SetupInput : Type := {
  su_width : Z;
  su_height : Z;
  su_sht30 : bool;
  su_qmp6988 : bool;
  su_qmp6988_alt : bool;
  su_cTemp : F;
  su_humidity : F;
  su_qmpPressure : F;
  su_millisActivity : Z;
  su_millisDisplay : Z
}.

(* ================================================================== *)
(** ** Utility functions *)

Definition getTextWidth (text : string) (textSize : Z) : Z :=
  Z.of_nat (String.length text) * 6 * textSize.

Definition drawCenteredText (text : string) (y textSize : Z) (color : Color) : M unit :=
  emit (setTextSize textSize) ;;
  emit (setTextColor color) ;;
  sw <- gets screenW ;;
  let textW := getTextWidth text textSize in
  let x := Z.quot (sw - textW) 2 in
  emit (setCursor x y) ;;
  emit (print text).

Definition drawCenteredTextInBox (text : string) (boxX boxW y textSize : Z) (color : Color)
  : M unit :=
  emit (setTextSize textSize) ;;
  emit (setTextColor color) ;;
  let textW := getTextWidth text textSize in
  let x := boxX + Z.quot (boxW - textW) 2 in
  emit (setCursor x y) ;;
  emit (print text).

Definition drawThickRoundRect (x y w h radius thickness : Z) (color : Color) : M unit :=
  forM_ (upto thickness) (fun i =>
    emit (drawRoundRect (x + i) (y + i) (w - i * 2) (h - i * 2) radius color)).

(* ================================================================== *)
(** ** Temperature conversion *)

(** [(x * 9.0 / 5.0) + 32.0]. *)
Definition toFahrenheit (x : F) : F := fadd (fdiv (fmul x (flit 9)) (flit 5)) (flit 32).

Definition getDisplayTemp (tempC : F) : M F :=
  uf <- gets useFahrenheit ;;
  if uf then ret (toFahrenheit tempC) else ret tempC.

Definition getTempUnit : M string :=
  uf <- gets useFahrenheit ;;
  ret (if uf then "F" else "C")%string.

(* ================================================================== *)
(** ** Icons *)

Definition drawThermometerIcon (cx cy : Z) (color : Color) : M unit :=
  emit (fillCircle cx (cy + 8) 6 color) ;;
  emit (fillRoundRect (cx - 3) (cy - 10) 6 18 2 color) ;;
  emit (fillCircle cx (cy + 8) 3 TFT_BLACK) ;;
  emit (fillRect (cx - 1) (cy - 6) 2 12 TFT_BLACK) ;;
  emit (fillCircle cx (cy + 8) 2 color) ;;
  emit (fillRect (cx - 1) (cy - 2) 2 10 color).

Definition drawDropletIcon (cx cy : Z) (color : Color) : M unit :=
  emit (fillCircle cx (cy + 4) 7 color) ;;
  emit (fillTriangle cx (cy - 12) (cx - 7) (cy + 2) (cx + 7) (cy + 2) color) ;;
  emit (fillCircle (cx - 2) (cy + 2) 2 TFT_WHITE).

Definition drawBarometerIcon (cx cy : Z) (color : Color) : M unit :=
  emit (fillCircle cx cy 10 color) ;;
  emit (fillCircle cx cy 7 TFT_BLACK) ;;
  emit (drawLine (cx - 6) cy (cx - 4) cy color) ;;
  emit (drawLine (cx + 4) cy (cx + 6) cy color) ;;
  emit (drawLine cx (cy - 6) cx (cy - 4) color) ;;
  emit (drawLine cx cy (cx + 4) (cy - 4) color) ;;
  emit (drawLine cx cy (cx + 5) (cy - 3) color) ;;
  emit (fillCircle cx cy 2 color).

(* ================================================================== *)
(** ** Battery display *)

Definition getBatteryColor (level : Z) (isCharging : bool) : Color :=
  if isCharging then TFT_GREEN
  else if 70 <? level then TFT_GREEN
  else if 30 <? level then TFT_YELLOW
  else TFT_RED.

Definition drawLightningBolt (x y : Z) (color : Color) : M unit :=
  emit (drawLine (x + 4) y (x + 1) (y + 4) color) ;;
  emit (drawLine (x + 1) (y + 4) (x + 3) (y + 4) color) ;;
  emit (drawLine (x + 3) (y + 4) x (y + 8) color) ;;
  emit (drawLine (x + 5) y (x + 2) (y + 4) color) ;;
  emit (drawLine (x + 4) (y + 4) (x + 1) (y + 8) color).

(** Arduino's [map(x, in_min, in_max, out_min, out_max)] on [long]. *)
Definition map_range (x in_min in_max out_min out_max : Z) : Z :=
  Z.quot ((x - in_min) * (out_max - out_min)) (in_max - in_min) + out_min.

Definition drawBattery (forceRedraw : bool) (pw : PowerRead) : M unit :=
  let batteryLevel := pw_level pw in
  let isCharging := pw_charging pw in
  forceRedraw <-
    (if (batteryLevel <=? 10) && negb isCharging then
       let now := pw_millis pw in
       lastFlash <- gets lastFlashTime ;;
       if flashInterval <=? usub now lastFlash then
         modify (set_lastFlashTime now) ;;
         on <- gets batteryFlashOn ;;
         modify (set_batteryFlashOn (negb on)) ;;
         ret true
       else ret forceRedraw
     else
       modify (set_batteryFlashOn true) ;;
       ret forceRedraw) ;;
  prevLevel <- gets prevBatteryLevel ;;
  prevChg <- gets prevCharging ;;
  if negb forceRedraw && (batteryLevel =? prevLevel) && Bool.eqb isCharging prevChg then
    ret tt
  else
    modify (set_prevBatteryLevel batteryLevel) ;;
    modify (set_prevCharging isCharging) ;;
    sw <- gets screenW ;;
    let battX := sw - 55 in
    let battY := 3 in
    emit (fillRect (battX - 3) (battY - 1) 58 14 TFT_BLACK) ;;
    on <- gets batteryFlashOn ;;
    if negb on then ret tt
    else
      let battColor := getBatteryColor batteryLevel isCharging in
      let battW := 22 in
      let battH := 10 in
      emit (drawRect battX battY battW battH battColor) ;;
      emit (fillRect (battX + battW) (battY + 2) 2 6 battColor) ;;
      let fillW := map_range batteryLevel 0 100 0 (battW - 4) in
      (if 0 <? fillW then
         emit (fillRect (battX + 2) (battY + 2) fillW (battH - 4) battColor)
       else ret tt) ;;
      (if isCharging then drawLightningBolt (battX + 6) (battY + 1) TFT_BLACK
       else ret tt) ;;
      emit (setTextSize 1) ;;
      emit (setTextColor battColor) ;;
      emit (setCursor (battX + 26) (battY + 1)) ;;
      emit (print (pretty batteryLevel +:+ "%")).

(* ================================================================== *)
(** ** Screen timeout management *)

(** [now] is the value of [millis()] (read only when a timeout is set). *)
Definition updateScreenTimeout (now : Z) : M unit :=
  opt <- gets screenTimeoutOption ;;
  timeoutDuration <- lift (aget screenTimeoutValues opt) ;;
  if timeoutDuration =? 0 then ret tt
  else
    lastActivity <- gets lastActivityTime ;;
    let elapsed := usub now lastActivity in
    st <- gets screenState ;;
    if ScreenState_eqb st SCREEN_ON && (timeoutDuration <=? elapsed) then
      emit (setBrightness 0) ;;
      modify (set_screenState SCREEN_OFF)
    else ret tt.

Definition wakeScreen (now : Z) : M unit :=
  modify (set_lastActivityTime now) ;;
  st <- gets screenState ;;
  if negb (ScreenState_eqb st SCREEN_ON) then
    nb <- gets normalBrightness ;;
    emit (setBrightness nb) ;;
    modify (set_screenState SCREEN_ON) ;;
    modify (set_needsFullRedraw true)
  else ret tt.

(* ================================================================== *)
(** ** Main page *)

Definition drawMainPageStatic (pw : PowerRead) : M unit :=
  emit (fillScreen TFT_BLACK) ;;
  drawBattery true pw ;;
  tx <- gets tempBoxX ;;
  hx <- gets humidBoxX ;;
  px <- gets pressBoxX ;;
  by_ <- gets boxY ;;
  drawThickRoundRect tx by_ boxWidth boxHeight boxRadius boxBorderWidth COLOR_TEMP ;;
  drawThermometerIcon (tx + Z.quot boxWidth 2) (by_ + 22) COLOR_TEMP ;;
  drawThickRoundRect hx by_ boxWidth boxHeight boxRadius boxBorderWidth COLOR_HUMIDITY ;;
  drawDropletIcon (hx + Z.quot boxWidth 2) (by_ + 22) COLOR_HUMIDITY ;;
  drawThickRoundRect px by_ boxWidth boxHeight boxRadius boxBorderWidth COLOR_PRESSURE ;;
  drawBarometerIcon (px + Z.quot boxWidth 2) (by_ + 22) COLOR_PRESSURE ;;
  modify (set_dispTemp (flit (-999))) ;;
  modify (set_dispHumidity (flit (-999))) ;;
  modify (set_dispPressure (flit (-999))).

(** The [float &dispValue] argument of [updateSingleBoxValue]: one of the
    three cached values of the main page. *)
Inductive DispRef : Type := ref_dispTemp | ref_dispHumidity | ref_dispPressure.

Definition deref (r : DispRef) (g : Globals) : F :=
  match r with
  | ref_dispTemp => dispTemp g
  | ref_dispHumidity => dispHumidity g
  | ref_dispPressure => dispPressure g
  end.

Definition assign (r : DispRef) (v : F) (g : Globals) : Globals :=
  match r with
  | ref_dispTemp => set_dispTemp v g
  | ref_dispHumidity => set_dispHumidity v g
  | ref_dispPressure => set_dispPressure v g
  end.

(** [float diff = value - dispValue; if (diff < 0) diff = -diff;] *)
Definition absDiff (value dispValue : F) : F :=
  let diff := fsub value dispValue in
  if fltb diff (flit 0) then fneg diff else diff.

Definition updateSingleBoxValue (boxX : Z) (value : F) (dispValue : DispRef)
    (color : Color) (format unit_ : string) : M unit :=
  cached <- gets (deref dispValue) ;;
  let diff := absDiff value cached in
  if fltb diff (flit (5 # 100)) then ret tt
  else
    modify (assign dispValue value) ;;
    by_ <- gets boxY ;;
    let valueY := by_ + 45 in
    let unitY := by_ + 68 in
    let clearX := boxX + boxBorderWidth + 2 in
    let clearW := boxWidth - (boxBorderWidth * 2) - 4 in
    emit (fillRect clearX (valueY - 2) clearW 35 TFT_BLACK) ;;
    let buf := fformat format value in
    drawCenteredTextInBox buf boxX boxWidth valueY 2 color ;;
    drawCenteredTextInBox unit_ boxX boxWidth unitY 1 color.

Definition updateMainPageValues (pw : PowerRead) : M unit :=
  tx <- gets tempBoxX ;;
  hx <- gets humidBoxX ;;
  px <- gets pressBoxX ;;
  t <- gets temperature ;;
  shown <- getDisplayTemp t ;;
  tempUnit <- getTempUnit ;;
  updateSingleBoxValue tx shown ref_dispTemp COLOR_TEMP "%.1f" tempUnit ;;
  h <- gets humidity ;;
  updateSingleBoxValue hx h ref_dispHumidity COLOR_HUMIDITY "%.0f" "%" ;;
  p <- gets pressure ;;
  updateSingleBoxValue px p ref_dispPressure COLOR_PRESSURE "%.0f" "hPa" ;;
  drawBattery false pw.

(* ================================================================== *)
(** ** Graph page *)

(** [(historyIndex - historyCount + i + historySize) % historySize]: the
    slot of the [i]-th oldest stored sample. *)
Definition readIndex (g : Globals) (i : Z) : Z :=
  Z.rem (historyIndex g - historyCount g + i + historySize) historySize.

(** [float val = history[idx]; if (convertToF) val = (val * 9.0 / 5.0) + 32.0;]
    for the index [idx] of the [i]-th sample. *)
Definition graphSample (history : Globals -> list F) (convertToF : bool) (i : Z) : M F :=
  idx <- gets (fun g => readIndex g i) ;;
  arr <- gets history ;;
  val <- lift (aget arr idx) ;;
  ret (if convertToF then toFahrenheit val else val).

(** Lines 380-391: minimum and maximum of the stored samples. *)
Definition graphMinMax (history : Globals -> list F) (convertToF : bool) : M (F * F) :=
  firstIdx <- gets (fun g =>
    Z.rem (historyIndex g - historyCount g + historySize) historySize) ;;
  arr <- gets history ;;
  firstVal <- lift (aget arr firstIdx) ;;
  let firstVal := if convertToF then toFahrenheit firstVal else firstVal in
  cnt <- gets historyCount ;;
  foldM (fun '(graphMin, graphMax) i =>
           val <- graphSample history convertToF i ;;
           let graphMin := if fltb val graphMin then val else graphMin in
           let graphMax := if fltb graphMax val then val else graphMax in
           ret (graphMin, graphMax))
        (firstVal, firstVal) (upto cnt).

(** Lines 394-405: the axis bounds and the range the samples are scaled by. *)
Definition graphScale (graphMin graphMax : F) : F * F * F :=
  let range := fsub graphMax graphMin in
  if fltb range (flit 2) then
    let mid := fdiv (fadd graphMax graphMin) (flit 2) in
    (fsub mid (flit 1), fadd mid (flit 1), flit 2)
  else
    let padding := fmul range (flit (1 # 10)) in
    let graphMin := fsub graphMin padding in
    let graphMax := fadd graphMax padding in
    (graphMin, graphMax, fsub graphMax graphMin).

(** The graph scaler on its own: what [drawGraphPageStatic] computes before
    it draws, or nothing when it shows the placeholder. *)
Definition graphBounds (history : Globals -> list F) (convertToF : bool)
  : M (option (F * F * F)) :=
  cnt <- gets historyCount ;;
  if 1 <? cnt then
    mm <- graphMinMax history convertToF ;;
    ret (Some (graphScale (fst mm) (snd mm)))
  else ret None.

(** Lines 420-434: the polyline and its markers. *)
Definition drawGraphLine (history : Globals -> list F) (convertToF : bool) (color : Color)
    (graphX graphY graphW graphH : Z) (graphMin range : F) : M unit :=
  cnt <- gets historyCount ;;
  _ <- foldM (fun '(prevPx, prevPy) i =>
           val <- graphSample history convertToF i ;;
           let px := graphX + 2 + Z.quot (i * (graphW - 4)) (historySize - 1) in
           let py := graphY + graphH - 2
                     - ftoint (fmul (fdiv (fsub val graphMin) range) (fofint (graphH - 4))) in
           emit (fillCircle px py 1 color) ;;
           (if 0 <? i then emit (drawLine prevPx prevPy px py color) else ret tt) ;;
           ret (px, py))
        (0, 0) (upto cnt) ;;
  ret tt.

Definition drawGraphPageStatic (title : string) (history : Globals -> list F) (color : Color)
    (unit_ : string) (currentVal : F) (convertToF : bool) (pw : PowerRead) : M unit :=
  emit (fillScreen TFT_BLACK) ;;
  drawBattery true pw ;;
  emit (setTextSize 1) ;;
  emit (setTextColor color) ;;
  emit (setCursor 5 5) ;;
  emit (print title) ;;
  let valBuf := fformat "%.1f" currentVal +:+ " " +:+ unit_ in
  let titleWidth := Z.of_nat (String.length title) * 6 in
  emit (setCursor (5 + titleWidth + 10) 5) ;;
  emit (print valBuf) ;;
  sw <- gets screenW ;;
  sh <- gets screenH ;;
  let graphX := 30 in
  let graphY := 18 in
  let graphW := sw - 35 in
  let graphH := sh - 45 in
  emit (drawRect graphX graphY graphW graphH TFT_DARKGREY) ;;
  emit (setTextSize 1) ;;
  emit (setTextColor TFT_DARKGREY) ;;
  emit (setCursor graphX (graphY + graphH + 3)) ;;
  emit (print "-1hr") ;;
  emit (setCursor (graphX + graphW - 18) (graphY + graphH + 3)) ;;
  emit (print "now") ;;
  emit (setCursor 5 (sh - 10)) ;;
  emit (print "ESC:back") ;;
  bounds <- graphBounds history convertToF ;;
  match bounds with
  | Some (graphMin, graphMax, range) =>
      emit (setTextColor TFT_DARKGREY) ;;
      emit (setTextSize 1) ;;
      emit (setCursor 2 graphY) ;;
      emit (print (fformat "%.0f" graphMax)) ;;
      emit (setCursor 2 (graphY + graphH - 8)) ;;
      emit (print (fformat "%.0f" graphMin)) ;;
      drawGraphLine history convertToF color graphX graphY graphW graphH graphMin range
  | None =>
      drawCenteredText "Collecting..." (graphY + Z.quot graphH 2 - 8) 1 TFT_DARKGREY
  end ;;
  modify (set_graphDispValue (flit (-999))).

Definition updateGraphValue (value : F) (color : Color) (unit_ title : string) : M unit :=
  cached <- gets graphDispValue ;;
  let diff := absDiff value cached in
  if fltb diff (flit (5 # 100)) then ret tt
  else
    modify (set_graphDispValue value) ;;
    let titleWidth := Z.of_nat (String.length title) * 6 in
    let valX := 5 + titleWidth + 10 in
    emit (fillRect valX 3 70 12 TFT_BLACK) ;;
    let valBuf := fformat "%.1f" value +:+ " " +:+ unit_ in
    emit (setTextSize 1) ;;
    emit (setTextColor color) ;;
    emit (setCursor valX 5) ;;
    emit (print valBuf).

(* ================================================================== *)
(** ** Settings page *)

Definition timeoutLabels : list string := ["10s"; "30s"; "Off"]%string.

Definition drawSettingsPageStatic (pw : PowerRead) : M unit :=
  emit (fillScreen TFT_BLACK) ;;
  drawBattery true pw ;;
  drawCenteredText "SETTINGS" 5 2 TFT_WHITE ;;
  sel <- gets settingsSelection ;;
  sw <- gets screenW ;;
  sh <- gets screenH ;;
  let itemY := 35 in
  let itemHeight := 35 in
  (* brightness *)
  let brightColor := if sel =? 0 then TFT_YELLOW else TFT_WHITE in
  (if sel =? 0 then
     emit (fillRoundRect 10 (itemY - 3) (sw - 20) (itemHeight - 2) 5 (RGB565 0x2104))
   else ret tt) ;;
  emit (setTextSize 1) ;;
  emit (setTextColor brightColor) ;;
  emit (setCursor 20 (itemY + 5)) ;;
  emit (print "Brightness:") ;;
  let barX := 90 in
  let barY := itemY + 3 in
  let barW := 100 in
  let barH := 12 in
  emit (drawRect barX barY barW barH brightColor) ;;
  nb <- gets normalBrightness ;;
  let fillW := map_range nb 20 100 0 (barW - 4) in
  emit (fillRect (barX + 2) (barY + 2) fillW (barH - 4) brightColor) ;;
  emit (setCursor (barX + barW + 8) (itemY + 5)) ;;
  emit (print (pretty nb +:+ "%")) ;;
  (* temperature unit *)
  let itemY := itemY + itemHeight in
  let unitColor := if sel =? 1 then TFT_YELLOW else TFT_WHITE in
  (if sel =? 1 then
     emit (fillRoundRect 10 (itemY - 3) (sw - 20) (itemHeight - 2) 5 (RGB565 0x2104))
   else ret tt) ;;
  emit (setTextColor unitColor) ;;
  emit (setCursor 20 (itemY + 5)) ;;
  emit (print "Temp Unit:") ;;
  let toggleX := 90 in
  let toggleY := itemY + 2 in
  uf <- gets useFahrenheit ;;
  (if negb uf then
     emit (fillRoundRect toggleX toggleY 40 14 3 unitColor) ;;
     emit (setTextColor TFT_BLACK)
   else
     emit (drawRoundRect toggleX toggleY 40 14 3 unitColor) ;;
     emit (setTextColor unitColor)) ;;
  emit (setCursor (toggleX + 10) (toggleY + 3)) ;;
  emit (print "C") ;;
  (if uf then
     emit (fillRoundRect (toggleX + 45) toggleY 40 14 3 unitColor) ;;
     emit (setTextColor TFT_BLACK)
   else
     emit (drawRoundRect (toggleX + 45) toggleY 40 14 3 unitColor) ;;
     emit (setTextColor unitColor)) ;;
  emit (setCursor (toggleX + 55) (toggleY + 3)) ;;
  emit (print "F") ;;
  (* screen timeout *)
  let itemY := itemY + itemHeight in
  let timeoutColor := if sel =? 2 then TFT_YELLOW else TFT_WHITE in
  (if sel =? 2 then
     emit (fillRoundRect 10 (itemY - 3) (sw - 20) (itemHeight - 2) 5 (RGB565 0x2104))
   else ret tt) ;;
  emit (setTextColor timeoutColor) ;;
  emit (setCursor 20 (itemY + 5)) ;;
  emit (print "Timeout:") ;;
  let optX := 90 in
  let optY := itemY + 2 in
  opt <- gets screenTimeoutOption ;;
  forM_ (upto 3) (fun i =>
    let btnX := optX + (i * 35) in
    (if opt =? i then
       emit (fillRoundRect btnX optY 32 14 3 timeoutColor) ;;
       emit (setTextColor TFT_BLACK)
     else
       emit (drawRoundRect btnX optY 32 14 3 timeoutColor) ;;
       emit (setTextColor timeoutColor)) ;;
    emit (setCursor (btnX + 6) (optY + 3)) ;;
    label <- lift (aget timeoutLabels i) ;;
    emit (print label)) ;;
  emit (setTextColor TFT_DARKGREY) ;;
  emit (setTextSize 1) ;;
  emit (setCursor 5 (sh - 10)) ;;
  emit (print "ESC:back | < >:change").

(* ================================================================== *)
(** ** Keyboard handling *)

(** [if (upperC >= 'a' && upperC <= 'z') upperC = upperC - 32;] *)
Definition toUpper (c : ascii) : ascii :=
  let n := N_of_ascii c in
  if ((97 <=? n) && (n <=? 122))%N then ascii_of_N (n - 32) else c.

(** [c == '`' || c == '~' || c == 27] *)
Definition isEscape (c : ascii) : bool :=
  Ascii.eqb c "`" || Ascii.eqb c "~" || Ascii.eqb c (ascii_of_N 27).

(** The body of [for (auto key : status.word)]. *)
Definition handleKey (c : ascii) : M unit :=
  let upperC := toUpper c in
  page <- gets currentPage ;;
  if isEscape c then
    if negb (page =? 0) then
      modify (set_currentPage 0) ;;
      modify (set_needsFullRedraw true)
    else ret tt
  else if page =? 0 then
    if Ascii.eqb upperC "T" then
      modify (set_currentPage 1) ;; modify (set_needsFullRedraw true)
    else if Ascii.eqb upperC "H" then
      modify (set_currentPage 2) ;; modify (set_needsFullRedraw true)
    else if Ascii.eqb upperC "P" then
      modify (set_currentPage 3) ;; modify (set_needsFullRedraw true)
    else if Ascii.eqb upperC "S" then
      modify (set_currentPage 4) ;; modify (set_needsFullRedraw true)
    else ret tt
  else if page =? 4 then
    sel <- gets settingsSelection ;;
    if Ascii.eqb c ";" then
      modify (set_settingsSelection (sel - 1)) ;;
      (if sel - 1 <? 0 then modify (set_settingsSelection 0) else ret tt) ;;
      modify (set_needsFullRedraw true)
    else if Ascii.eqb c "." then
      modify (set_settingsSelection (sel + 1)) ;;
      (if 2 <? sel + 1 then modify (set_settingsSelection 2) else ret tt) ;;
      modify (set_needsFullRedraw true)
    else if Ascii.eqb c "," then
      if sel =? 0 then
        nb <- gets normalBrightness ;;
        modify (set_normalBrightness (nb - 20)) ;;
        (if nb - 20 <? 20 then modify (set_normalBrightness 20) else ret tt) ;;
        nb <- gets normalBrightness ;;
        emit (setBrightness nb) ;;
        modify (set_needsFullRedraw true)
      else if sel =? 1 then
        modify (set_useFahrenheit false) ;;
        modify (set_dispTemp (flit (-999))) ;;
        modify (set_needsFullRedraw true)
      else if sel =? 2 then
        opt <- gets screenTimeoutOption ;;
        modify (set_screenTimeoutOption (opt - 1)) ;;
        (if opt - 1 <? 0 then modify (set_screenTimeoutOption 0) else ret tt) ;;
        modify (set_needsFullRedraw true)
      else ret tt
    else if Ascii.eqb c "/" then
      if sel =? 0 then
        nb <- gets normalBrightness ;;
        modify (set_normalBrightness (nb + 20)) ;;
        (if 100 <? nb + 20 then modify (set_normalBrightness 100) else ret tt) ;;
        nb <- gets normalBrightness ;;
        emit (setBrightness nb) ;;
        modify (set_needsFullRedraw true)
      else if sel =? 1 then
        modify (set_useFahrenheit true) ;;
        modify (set_dispTemp (flit (-999))) ;;
        modify (set_needsFullRedraw true)
      else if sel =? 2 then
        opt <- gets screenTimeoutOption ;;
        modify (set_screenTimeoutOption (opt + 1)) ;;
        (if 2 <? opt + 1 then modify (set_screenTimeoutOption 2) else ret tt) ;;
        modify (set_needsFullRedraw true)
      else ret tt
    else ret tt
  else ret tt.

Definition handleKeyboard (inp : Input) : M unit :=
  if in_isChange inp then
    if in_isPressed inp then
      st <- gets screenState ;;
      if negb (ScreenState_eqb st SCREEN_ON) then
        (* any key wakes the screen; return *)
        wakeScreen (in_millisWake inp)
      else
        wakeScreen (in_millisWake inp) ;;
        forM_ (in_word inp) handleKey
    else ret tt
  else ret tt.

(* ================================================================== *)
(** ** Data collection *)

(** Lines 703-707 of [updateHistory]: the three samples are written at
    [historyIndex], the index advances, the count grows up to the capacity. *)
Definition historyAppend : M unit :=
  idx <- gets historyIndex ;;
  t <- gets temperature ;;
  th <- gets tempHistory ;;
  th' <- lift (aset th idx t) ;;
  modify (set_tempHistory th') ;;
  h <- gets humidity ;;
  hh <- gets humidityHistory ;;
  hh' <- lift (aset hh idx h) ;;
  modify (set_humidityHistory hh') ;;
  p <- gets pressure ;;
  ph <- gets pressureHistory ;;
  ph' <- lift (aset ph idx p) ;;
  modify (set_pressureHistory ph') ;;
  modify (set_historyIndex (Z.rem (idx + 1) historySize)) ;;
  cnt <- gets historyCount ;;
  if cnt <? historySize then modify (set_historyCount (cnt + 1)) else ret tt.

(** [now] is the value of [millis()]. *)
Definition updateHistory (now : Z) : M unit :=
  lastUpdate <- gets lastHistoryUpdate ;;
  cnt <- gets historyCount ;;
  if (historyInterval <=? usub now lastUpdate) || (cnt =? 0) then
    modify (set_lastHistoryUpdate now) ;;
    historyAppend
  else ret tt.

(* ================================================================== *)
(** ** Setup *)

(** Lines 717-772 of [setup]: the display is configured, the layout is
    computed and the start-up screen is drawn. *)
Definition setupScreen (su : SetupInput) : M unit :=
  emit (setRotation 1) ;;
  nb <- gets normalBrightness ;;
  emit (setBrightness nb) ;;
  modify (set_screenW (su_width su)) ;;
  modify (set_screenH (su_height su)) ;;
  sw <- gets screenW ;;
  sh <- gets screenH ;;
  let totalWidth := (boxWidth * 3) + (boxMargin * 2) in
  let startX := Z.quot (sw - totalWidth) 2 in
  modify (set_tempBoxX startX) ;;
  modify (set_humidBoxX (startX + boxWidth + boxMargin)) ;;
  modify (set_pressBoxX (startX + (boxWidth + boxMargin) * 2)) ;;
  modify (set_boxY (topMargin + Z.quot (sh - topMargin - boxHeight) 2)) ;;
  emit (fillScreen TFT_BLACK) ;;
  drawCenteredText "CardENV" 40 2 TFT_CYAN ;;
  drawCenteredText "Initializing..." 65 1 TFT_WHITE ;;
  (if su_sht30 su then drawCenteredText "SHT30: OK" 85 1 TFT_GREEN
   else drawCenteredText "SHT30: FAILED" 85 1 TFT_RED) ;;
  (if su_qmp6988 su then drawCenteredText "QMP6988: OK" 100 1 TFT_GREEN
   else if su_qmp6988_alt su then drawCenteredText "QMP6988: OK" 100 1 TFT_GREEN
   else drawCenteredText "QMP6988: FAILED" 100 1 TFT_RED) ;;
  drawCenteredText "T:Temp H:Humid P:Press S:Set" 118 1 TFT_DARKGREY.

(** Lines 774-790 of [setup]: the first readings are taken and stored as
    the first history point. *)
Definition setupReadings (su : SetupInput) : M unit :=
  (* initialize readings *)
  modify (set_temperature (su_cTemp su)) ;;
  modify (set_humidity (su_humidity su)) ;;
  modify (set_pressure (fdiv (su_qmpPressure su) (flit 100))) ;;
  (* store first history point *)
  t <- gets temperature ;;
  th <- gets tempHistory ;;
  th' <- lift (aset th 0 t) ;;
  modify (set_tempHistory th') ;;
  h <- gets humidity ;;
  hh <- gets humidityHistory ;;
  hh' <- lift (aset hh 0 h) ;;
  modify (set_humidityHistory hh') ;;
  p <- gets pressure ;;
  ph <- gets pressureHistory ;;
  ph' <- lift (aset ph 0 p) ;;
  modify (set_pressureHistory ph') ;;
  modify (set_historyCount 1) ;;
  modify (set_historyIndex 1) ;;
  modify (set_lastActivityTime (su_millisActivity su)) ;;
  modify (set_lastDisplayUpdate (su_millisDisplay su)) ;;
  modify (set_needsFullRedraw true).

Definition setup (su : SetupInput) : M unit :=
  setupScreen su ;;
  setupReadings su.

(* ================================================================== *)
(** ** Main loop *)

(** The [if (screenState != SCREEN_OFF) { ... }] block of [loop]. *)
Definition render (inp : Input) (now : Z) (shouldUpdateDisplay : bool) : M unit :=
  full <- gets needsFullRedraw ;;
  page <- gets currentPage ;;
  if full then
    modify (set_needsFullRedraw false) ;;
    modify (set_lastDisplayUpdate now) ;;
    match page with
    | 0 =>
        drawMainPageStatic (in_power1 inp) ;;
        updateMainPageValues (in_power2 inp)
    | 1 =>
        tempUnit <- getTempUnit ;;
        t <- gets temperature ;;
        shown <- getDisplayTemp t ;;
        uf <- gets useFahrenheit ;;
        drawGraphPageStatic "TEMPERATURE" tempHistory COLOR_TEMP tempUnit shown uf
          (in_power1 inp) ;;
        shown <- getDisplayTemp t ;;
        tempUnit <- getTempUnit ;;
        updateGraphValue shown COLOR_TEMP tempUnit "TEMPERATURE"
    | 2 =>
        h <- gets humidity ;;
        drawGraphPageStatic "HUMIDITY" humidityHistory COLOR_HUMIDITY "%" h false
          (in_power1 inp) ;;
        updateGraphValue h COLOR_HUMIDITY "%" "HUMIDITY"
    | 3 =>
        p <- gets pressure ;;
        drawGraphPageStatic "PRESSURE" pressureHistory COLOR_PRESSURE "hPa" p false
          (in_power1 inp) ;;
        updateGraphValue p COLOR_PRESSURE "hPa" "PRESSURE"
    | 4 => drawSettingsPageStatic (in_power1 inp)
    | _ => ret tt
    end
  else if shouldUpdateDisplay then
    modify (set_lastDisplayUpdate now) ;;
    match page with
    | 0 => updateMainPageValues (in_power1 inp)
    | 1 =>
        t <- gets temperature ;;
        shown <- getDisplayTemp t ;;
        tempUnit <- getTempUnit ;;
        updateGraphValue shown COLOR_TEMP tempUnit "TEMPERATURE" ;;
        drawBattery false (in_power1 inp)
    | 2 =>
        h <- gets humidity ;;
        updateGraphValue h COLOR_HUMIDITY "%" "HUMIDITY" ;;
        drawBattery false (in_power1 inp)
    | 3 =>
        p <- gets pressure ;;
        updateGraphValue p COLOR_PRESSURE "hPa" "PRESSURE" ;;
        drawBattery false (in_power1 inp)
    | 4 => drawBattery false (in_power1 inp)
    | _ => ret tt
    end
  else ret tt.

Definition loop (inp : Input) : M unit :=
  handleKeyboard inp ;;
  updateScreenTimeout (in_millisTimeout inp) ;;
  (* read sensors *)
  modify (set_temperature (in_cTemp inp)) ;;
  modify (set_humidity (in_humidity inp)) ;;
  modify (set_pressure (fdiv (in_qmpPressure inp) (flit 100))) ;;
  updateHistory (in_millisHistory inp) ;;
  let now := in_millisLoop inp in
  lastDisplay <- gets lastDisplayUpdate ;;
  let shouldUpdateDisplay := displayInterval <=? usub now lastDisplay in
  st <- gets screenState ;;
  if negb (ScreenState_eqb st SCREEN_OFF) then render inp now shouldUpdateDisplay
  else ret tt.

(* ================================================================== *)
(** ** Notions the properties are stated with *)

(** One reading of the three sensors. *)
Record Sample : Type := { s_temp : F; s_humidity : F; s_pressure : F }.

(** An append of one reading: the readings become the current ones, as
    [loop] assigns them, and [historyAppend] stores them. *)
Definition feed (v : Sample) : M unit :=
  modify (set_temperature (s_temp v)) ;;
  modify (set_humidity (s_humidity v)) ;;
  modify (set_pressure (s_pressure v)) ;;
  historyAppend.

Definition appendAll (vs : list Sample) : M unit := forM_ vs feed.

Fixpoint collect {A B} (l : list A) (f : A -> M B) : M (list B) :=
  match l with
  | [] => ret []
  | a :: l' => bind (f a) (fun b => bind (collect l' f) (fun bs => ret (b :: bs)))
  end.

(** The ordered read: the values [val] that the loops of
    [drawGraphPageStatic] go through, for [i = 0 .. historyCount - 1]. *)
Definition readOrdered (history : Globals -> list F) (convertToF : bool) : M (list F) :=
  cnt <- gets historyCount ;;
  collect (upto cnt) (graphSample history convertToF).

(** The last [n] elements of a list. *)
Definition lastN {A} (n : nat) (l : list A) : list A := drop (length l - n) l.

(** [if (convertToF) val = (val * 9.0 / 5.0) + 32.0;] *)
Definition convert (convertToF : bool) (v : F) : F :=
  if convertToF then toFahrenheit v else v.

(** The globals after the three assignments of [feed]. *)
Definition withReadings (v : Sample) (g : Globals) : Globals :=
  set_pressure (s_pressure v) (set_humidity (s_humidity v) (set_temperature (s_temp v) g)).

(** The globals that [historyAppend] leaves. *)
Definition appendedState (g : Globals) : Globals :=
  let idx := historyIndex g in
  let g1 := set_tempHistory (<[Z.to_nat idx := temperature g]> (tempHistory g)) g in
  let g2 := set_humidityHistory (<[Z.to_nat idx := humidity g]> (humidityHistory g)) g1 in
  let g3 := set_pressureHistory (<[Z.to_nat idx := pressure g]> (pressureHistory g)) g2 in
  let g4 := set_historyIndex (Z.rem (idx + 1) historySize) g3 in
  if historyCount g <? historySize then set_historyCount (historyCount g + 1) g4 else g4.

(** The array [arr], with cursor [idx] and count [cnt], is what the appends
    of [vs], in this order, leave: the [k]-th appended value sits in slot
    [k mod historySize] for the last [cnt] values of [vs]. *)
Definition Stores (vs arr : list F) (idx cnt : Z) : Prop :=
  length arr = Z.to_nat historySize /\
  cnt = Z.min (Z.of_nat (length vs)) historySize /\
  idx = Z.of_nat (length vs) mod historySize /\
  forall k : Z, Z.of_nat (length vs) - cnt <= k < Z.of_nat (length vs) ->
    arr !! Z.to_nat (k mod historySize) = vs !! Z.to_nat k.

Definition Holds (ws : list Sample) (g : Globals) : Prop :=
  Stores (map s_temp ws) (tempHistory g) (historyIndex g) (historyCount g) /\
  Stores (map s_humidity ws) (humidityHistory g) (historyIndex g) (historyCount g) /\
  Stores (map s_pressure ws) (pressureHistory g) (historyIndex g) (historyCount g).

(** One turn of the min/max loop of [drawGraphPageStatic]:
    [if (val < graphMin) graphMin = val; if (val > graphMax) graphMax = val;] *)
Definition minMaxStep (acc : F * F) (val : F) : F * F :=
  (if fltb val (fst acc) then val else fst acc,
   if fltb (snd acc) val then val else snd acc).

(** The value of the [i]-th sample as the loops of the graph read it. *)
Definition sampleAt (history : Globals -> list F) (c : bool) (g : Globals) (i : Z) : F :=
  convert c (default (flit 0) (aget (history g) (readIndex g i))).

(** [a] is [b] or below it. *)
Definition notAbove (a b : F) : Prop := a = b \/ fltb a b = true.

(** [m] is a smallest (largest) element of [xs] for [<]. *)
Definition IsMin (m : F) (xs : list F) : Prop :=
  In m xs /\ forall x, In x xs -> fltb x m = false.

Definition IsMax (m : F) (xs : list F) : Prop :=
  In m xs /\ forall x, In x xs -> fltb m x = false.

(** A key event: the keyboard state changed and a key is down. *)
Definition keyEvent (inp : Input) : bool := in_isChange inp && in_isPressed inp.

(** The threshold test of [updateHistory]. *)
Definition thresholdCrossed (now lastUpdate : Z) : bool :=
  historyInterval <=? usub now lastUpdate.

(** The ring buffer's invariant. *)
Definition RingInv (g : Globals) : Prop :=
  length (tempHistory g) = Z.to_nat historySize /\
  length (humidityHistory g) = Z.to_nat historySize /\
  length (pressureHistory g) = Z.to_nat historySize /\
  0 <= historyIndex g < historySize /\
  0 <= historyCount g <= historySize.

(** The settings' invariant. *)
Definition SettingsInv (g : Globals) : Prop :=
  0 <= settingsSelection g <= 2 /\
  0 <= screenTimeoutOption g <= 2 /\
  20 <= normalBrightness g <= 100.

Definition Inv (g : Globals) : Prop :=
  RingInv g /\ 1 <= historyCount g /\ SettingsInv g.

(** The globals with the variables that the page renderer writes (the
    display caches, the battery cache and the redraw bookkeeping) blanked:
    two states with the same image differ in those variables only. *)
Definition behindDisplay (g : Globals) : Globals :=
  set_dispTemp (flit 0) (set_dispHumidity (flit 0) (set_dispPressure (flit 0)
  (set_graphDispValue (flit 0)
  (set_batteryFlashOn true (set_lastFlashTime 0 (set_prevBatteryLevel 0
  (set_prevCharging false
  (set_needsFullRedraw false (set_lastDisplayUpdate 0 g))))))))).

(** The globals with the variables that key handling writes blanked. *)
Definition behindKeys (g : Globals) : Globals :=
  set_currentPage 0 (set_needsFullRedraw false (set_settingsSelection 0
  (set_normalBrightness 0 (set_useFahrenheit false (set_dispTemp (flit 0)
  (set_screenTimeoutOption 0 g)))))).

(** [updateScreenTimeout] turns the screen off: a timeout is set, the
    screen is on and the idle time has reached the timeout. *)
Definition timedOut (now : Z) (g : Globals) : bool :=
  match aget screenTimeoutValues (screenTimeoutOption g) with
  | Some timeoutDuration =>
      negb (timeoutDuration =? 0) &&
      (ScreenState_eqb (screenState g) SCREEN_ON &&
       (timeoutDuration <=? usub now (lastActivityTime g)))
  | None => false
  end.

(** The globals after the sensor reads of one pass of [loop]. *)
Definition withSensors (inp : Input) (g : Globals) : Globals :=
  set_pressure (fdiv (in_qmpPressure inp) (flit 100))
    (set_humidity (in_humidity inp) (set_temperature (in_cTemp inp) g)).

(** The globals after [updateScreenTimeout]. *)
Definition afterTimeout (now : Z) (g : Globals) : Globals :=
  if timedOut now g then set_screenState SCREEN_OFF g else g.

(** The globals after [updateHistory]. *)
Definition afterHistory (now : Z) (g : Globals) : Globals :=
  if thresholdCrossed now (lastHistoryUpdate g) || (historyCount g =? 0)
  then appendedState (set_lastHistoryUpdate now g)
  else g.

(** The globals at the point where [loop] decides whether to draw, [g1]
    being the globals that [handleKeyboard] left. *)
Definition beforeRender (inp : Input) (g1 : Globals) : Globals :=
  afterHistory (in_millisHistory inp)
    (withSensors inp (afterTimeout (in_millisTimeout inp) g1)).

(** The globals with the variables that [handleKeyboard] writes blanked. *)
Definition behindInput (g : Globals) : Globals :=
  behindKeys (set_lastActivityTime 0 (set_screenState SCREEN_ON g)).

(** A [setBrightness] with a level the settings allow (never 0). *)
Definition setsBrightness (op : DisplayOp) : Prop :=
  exists b, op = setBrightness b /\ 20 <= b <= 100.

(** A display operation that draws: any but [setBrightness]. *)
Definition drawing (op : DisplayOp) : Prop := is_setBrightness op = false.

(** [m], run from [g], returns, changes at most the variables of the page
    renderer and issues drawing operations only. *)
Definition DrawsAt {A} (g : Globals) (m : M A) : Prop :=
  exists a g' ops,
    m g = Some (a, g', ops) /\ behindDisplay g' = behindDisplay g /\ Forall drawing ops.

Definition Draws {A} (m : M A) : Prop := forall g, RingInv g -> DrawsAt g m.

(** The globals with the layout variables, which [setup] computes, blanked. *)
Definition behindLayout (g : Globals) : Globals :=
  set_screenW 0 (set_screenH 0 (set_tempBoxX 0 (set_humidBoxX 0 (set_pressBoxX 0
  (set_boxY 0 g))))).

(** [m] returns from any globals and changes at most the layout variables. *)
Definition LaysOut {A} (m : M A) : Prop :=
  forall g, exists a g' ops, m g = Some (a, g', ops) /\ behindLayout g' = behindLayout g.

(** The globals that [setupReadings] leaves. *)
Definition afterSetupReadings (su : SetupInput) (g : Globals) : Globals :=
  set_needsFullRedraw true (set_lastDisplayUpdate (su_millisDisplay su)
  (set_lastActivityTime (su_millisActivity su) (set_historyIndex 1 (set_historyCount 1
  (set_pressureHistory (<[0%nat := fdiv (su_qmpPressure su) (flit 100)]> (pressureHistory g))
  (set_humidityHistory (<[0%nat := su_humidity su]> (humidityHistory g))
  (set_tempHistory (<[0%nat := su_cTemp su]> (tempHistory g))
  (set_pressure (fdiv (su_qmpPressure su) (flit 100))
  (set_humidity (su_humidity su) (set_temperature (su_cTemp su) g)))))))))).

(** The readings that [setup] and a pass of [loop] take. *)
Definition firstReading (su : SetupInput) : Sample :=
  {| s_temp := su_cTemp su; s_humidity := su_humidity su;
     s_pressure := fdiv (su_qmpPressure su) (flit 100) |}.

Definition readingOf (inp : Input) : Sample :=
  {| s_temp := in_cTemp inp; s_humidity := in_humidity inp;
     s_pressure := fdiv (in_qmpPressure inp) (flit 100) |}.

(** [history] is one of the three history arrays. *)
Definition HistoryOf (history : Globals -> list F) : Prop :=
  forall g, RingInv g -> length (history g) = Z.to_nat historySize.

(** Consecutive times of [ts] are at least [historyInterval] apart, on the
    32-bit clock. *)
Definition Spaced (ts : list Z) : Prop :=
  forall i a b, ts !! i = Some a -> ts !! S i = Some b -> historyInterval <= usub b a.

(** The states of an execution: [setup] from the initial values of the
    globals, then any number of passes of [loop]. *)
Inductive reachable : Globals -> Prop :=
| reach_setup su g ops :
    setup su initialGlobals = Some (tt, g, ops) -> reachable g
| reach_loop inp g g' ops :
    reachable g -> loop inp g = Some (tt, g', ops) -> reachable g'.

(** An execution together with its log: the readings it stored in the
    history, oldest first ([setup] stores the first one), and the times at
    which passes of [loop] stored one.  A pass logs its reading exactly
    when its threshold test succeeds; [Recorded_Holds] below shows that the
    buffers then hold exactly the log. *)
Inductive Recorded : list Sample -> list Z -> Globals -> Prop :=
| rec_setup su g ops :
    setup su initialGlobals = Some (tt, g, ops) -> Recorded [firstReading su] [] g
| rec_pass inp g g' ops ws ts :
    Recorded ws ts g -> loop inp g = Some (tt, g', ops) ->
    Recorded
      (if thresholdCrossed (in_millisHistory inp) (lastHistoryUpdate g)
       then ws ++ [readingOf inp] else ws)
      (if thresholdCrossed (in_millisHistory inp) (lastHistoryUpdate g)
       then ts ++ [in_millisHistory inp] else ts)
      g'.

(* ------------------------------------------------------------------ *)
(** *** Notions for the properties of the drawing and key-handling code *)

(** [m], run from [g], returns, and its result, the globals it leaves and
    the display operations it issued satisfy [Q]. *)
Definition wp {A} (m : M A) (Q : A -> Globals -> list DisplayOp -> Prop) (g : Globals)
  : Prop :=
  exists a g' ops, m g = Some (a, g', ops) /\ Q a g' ops.

(** [if (upperC >= 'a' && upperC <= 'z')]: the test of the case conversion. *)
Definition isLower (c : ascii) : bool :=
  let n := N_of_ascii c in ((97 <=? n) && (n <=? 122))%N.

(** The page is one of the five pages and the brightness one of the five
    levels that the settings page steps through. *)
Definition NavInv (g : Globals) : Prop :=
  0 <= currentPage g <= 4 /\ In (normalBrightness g) [20; 40; 60; 80; 100].

(** The globals with the caches of the drawing functions blanked: the
    cached values of the main page and of the graph page, and the cache and
    the flash state of the battery indicator. *)
Definition behindCaches (g : Globals) : Globals :=
  set_dispTemp (flit 0) (set_dispHumidity (flit 0) (set_dispPressure (flit 0)
  (set_graphDispValue (flit 0)
  (set_batteryFlashOn true (set_lastFlashTime 0 (set_prevBatteryLevel 0
  (set_prevCharging false g))))))).

(** The globals with the variables of [drawBattery] blanked. *)
Definition behindBattery (g : Globals) : Globals :=
  set_batteryFlashOn true (set_lastFlashTime 0 (set_prevBatteryLevel 0
  (set_prevCharging false g))).

(** [m] changes at most the caches of the drawing functions. *)
Definition Caches {A} (m : M A) : Prop :=
  forall g a g' ops, m g = Some (a, g', ops) -> behindCaches g' = behindCaches g.

(** The level of the backlight after the operations [ops], [b] being the
    level before them. *)
Definition backlight (b : Z) (ops : list DisplayOp) : Z :=
  fold_left (fun b op => match op with setBrightness v => v | _ => b end) ops b.

(** The level the backlight should have in [g]. *)
Definition litLevel (g : Globals) : Z :=
  match screenState g with SCREEN_ON => normalBrightness g | SCREEN_OFF => 0 end.

(** An execution together with everything it has sent to the display. *)
Inductive Shown : list DisplayOp -> Globals -> Prop :=
| shown_setup su g ops :
    setup su initialGlobals = Some (tt, g, ops) -> Shown ops g
| shown_pass inp g g' ops ops' :
    Shown ops g -> loop inp g = Some (tt, g', ops') -> Shown (ops ++ ops') g'.

(** The pixel of the [i]-th sample (lines 425-426). *)
Definition graphPoint (history : Globals -> list F) (c : bool)
    (graphX graphY graphW graphH : Z) (graphMin range : F) (g : Globals) (i : Z) : Z * Z :=
  (graphX + 2 + Z.quot (i * (graphW - 4)) (historySize - 1),
   graphY + graphH - 2
   - ftoint (fmul (fdiv (fsub (sampleAt history c g i) graphMin) range)
                  (fofint (graphH - 4)))).

(** A marker on each point of [pts] and a segment from each point to the
    next, [prev] being the point before the first. *)
Fixpoint polyline (color : Color) (prev : option (Z * Z)) (pts : list (Z * Z))
  : list DisplayOp :=
  match pts with
  | [] => []
  | p :: pts' =>
      fillCircle (fst p) (snd p) 1 color ::
      match prev with
      | Some q => [drawLine (fst q) (snd q) (fst p) (snd p) color]
      | None => []
      end ++ polyline color (Some p) pts'
  end.

(** The shape that [op] draws (a rectangle, a circle with its centre and
    radius, a triangle or a line with their end points) lies inside the
    area with corners [(x0, y0)] (included) and [(x1, y1)] (excluded); the
    operations that draw no shape are not constrained. *)
Definition opWithin (x0 y0 x1 y1 : Z) (op : DisplayOp) : Prop :=
  match op with
  | fillRect x y w h _ | drawRect x y w h _
  | fillRoundRect x y w h _ _ | drawRoundRect x y w h _ _ =>
      x0 <= x /\ x + w <= x1 /\ y0 <= y /\ y + h <= y1
  | fillCircle x y r _ =>
      x0 <= x - r /\ x + r < x1 /\ y0 <= y - r /\ y + r < y1
  | fillTriangle xa ya xb yb xc yc _ =>
      x0 <= xa < x1 /\ x0 <= xb < x1 /\ x0 <= xc < x1 /\
      y0 <= ya < y1 /\ y0 <= yb < y1 /\ y0 <= yc < y1
  | drawLine xa ya xb yb _ =>
      x0 <= xa < x1 /\ x0 <= xb < x1 /\ y0 <= ya < y1 /\ y0 <= yb < y1
  | _ => True
  end.

Definition is_fillCircle (op : DisplayOp) : bool :=
  match op with fillCircle _ _ _ _ => true | _ => false end.

Definition is_fillRoundRect (op : DisplayOp) : bool :=
  match op with fillRoundRect _ _ _ _ _ _ => true | _ => false end.

(** The operations that paint a shape other than an outline with rounded
    corners: those an icon is made of. *)
Definition paints (op : DisplayOp) : bool :=
  match op with
  | fillRect _ _ _ _ _ | fillRoundRect _ _ _ _ _ _ | fillCircle _ _ _ _
  | fillTriangle _ _ _ _ _ _ _ | drawLine _ _ _ _ _ => true
  | _ => false
  end.

(** The value that [loop] hands to the graph page [currentPage]: the
    temperature in the selected unit on page 1, the humidity on page 2, the
    pressure on page 3. *)
Definition graphValue (g : Globals) : F :=
  match currentPage g with
  | 1 => convert (useFahrenheit g) (temperature g)
  | 2 => humidity g
  | _ => pressure g
  end.

(** The unit that [loop] hands to the graph page [currentPage]. *)
Definition graphUnit (g : Globals) : string :=
  match currentPage g with
  | 1 => if useFahrenheit g then "F" else "C"
  | 2 => "%"
  | _ => "hPa"
  end.

End CardENV.

Arguments Globals : clear implicits.
Arguments M : clear implicits.
Arguments Input : clear implicits.
Arguments SetupInput : clear implicits.
Arguments Sample : clear implicits.

(* ================================================================== *)
(** ** Exact rational arithmetic as an instance of the interface *)

(** Rounding of a rational that is not negative to the nearest integer,
    halves to the even one, as [printf] rounds the digits it drops. *)
Definition roundHalfEven (q : Q) : Z :=
  let n := Qnum q in
  let d := Zpos (Qden q) in
  let fl := n / d in
  match 2 * (n mod d) ?= d with
  | Lt => fl
  | Gt => fl + 1
  | Eq => if Z.even fl then fl else fl + 1
  end.

(** ["%.1f"] and ["%.0f"] of a value given by its sign and its magnitude:
    the sign is printed whenever the value is negative, also when the
    digits round to zero (["-0.0"]). *)
Definition formatDecimal (format : string) (negative : bool) (magnitude : Q) : string :=
  (if negative then "-" else "") +:+
  (if String.eqb format "%.1f" then
     let t := roundHalfEven (magnitude * 10) in
     pretty (t / 10) +:+ "." +:+ pretty (t mod 10)
   else pretty (roundHalfEven magnitude)).

Definition Qformat (format : string) (q : Q) : string :=
  formatDecimal format (Qnum q <? 0) (Qabs q).

#[export] Instance Q_FloatOps : FloatOps Q := {|
  flit q := q;
  fadd := Qplus;
  fsub := Qminus;
  fmul := Qmult;
  fdiv := Qdiv;
  fneg := Qopp;
  fltb a b := negb (Qle_bool b a);
  fofint := inject_Z;
  ftoint q := Z.quot (Qnum q) (Zpos (Qden q));
  fformat := Qformat
|}.

(* ================================================================== *)
(** ** The arithmetic of the target: binary32 variables, [double] literals *)

(** A [float] of the sketch is a [spec_float] of Rocq's [SpecFloat], which
    defines IEEE 754 rounding to nearest, ties to even, for any precision.
    The literals of the source ([0.05], [0.1], [2.0], ...) have no [f]
    suffix: they are [double]s, so every operation that has one as an
    operand is carried out in binary64 on the promoted operands and its
    result is rounded once more when it is stored in a [float] variable.
    That is how every operation is defined here; for two binary32 operands
    it gives the binary32 result, the second rounding changing nothing for
    [+ - * /] from a precision of 53 bits to one of 24.  One expression of
    the source keeps intermediate results in binary64: the conversion
    [(x * 9.0 / 5.0) + 32.0].  [toFahrenheit] composes [fmul], [fdiv] and
    [fadd], so this instance rounds its two intermediate results to
    binary32 as well; the binary32 runs below are in Celsius. *)

(** The conversion to [float] of an assignment. *)
Definition toFloat (x : SpecFloat.spec_float) : SpecFloat.spec_float :=
  SpecFloat.SFldexp 24 128 x 0.

(** An integer as a [double] (exact below 2^53). *)
Definition intToDouble (z : Z) : SpecFloat.spec_float :=
  SpecFloat.binary_normalize 53 1024 z 0 false.

(** A decimal literal of the source: the [double] nearest to it. *)
Definition doubleLiteral (q : Q) : SpecFloat.spec_float :=
  SpecFloat.SFdiv 53 1024 (intToDouble (Qnum q)) (intToDouble (Zpos (Qden q))).

(** The rational a finite float stands for (0 for the others). *)
Definition SF2Q (x : SpecFloat.spec_float) : Q :=
  match x with
  | SpecFloat.S754_finite s m e =>
      let n := if s then Zneg m else Zpos m in
      match e with
      | Zneg p => n # Pos.pow 2 p
      | _ => inject_Z (n * 2 ^ e)
      end
  | _ => 0%Q
  end.

(** [a < b] on the values: false when either is a NaN. *)
Definition SFless (a b : SpecFloat.spec_float) : bool :=
  match a, b with
  | SpecFloat.S754_nan, _ | _, SpecFloat.S754_nan => false
  | SpecFloat.S754_infinity sa, SpecFloat.S754_infinity sb => sa && negb sb
  | SpecFloat.S754_infinity sa, _ => sa
  | _, SpecFloat.S754_infinity sb => negb sb
  | _, _ => negb (Qle_bool (SF2Q b) (SF2Q a))
  end.

(** The cast [(int)x] of a finite value: truncation towards zero.  The
    cast of the other values is undefined in C++; it is 0 here. *)
Definition SFtruncate (x : SpecFloat.spec_float) : Z :=
  match x with
  | SpecFloat.S754_finite s m e =>
      let t := match e with
               | Zneg p => Zpos m / Zpos (Pos.pow 2 p)
               | _ => Zpos m * 2 ^ e
               end in
      if s then - t else t
  | _ => 0
  end.

(** [sprintf] of a [float] (promoted to [double], which changes no
    value): the decimal expansion of its exact value, rounded. *)
Definition SFformat (format : string) (x : SpecFloat.spec_float) : string :=
  match x with
  | SpecFloat.S754_nan => "nan"
  | SpecFloat.S754_infinity s => (if s then "-" else "") +:+ "inf"
  | SpecFloat.S754_zero s => formatDecimal format s 0
  | SpecFloat.S754_finite s _ _ => formatDecimal format s (Qabs (SF2Q x))
  end.

#[export] Instance Binary32_FloatOps : FloatOps SpecFloat.spec_float := {|
  flit := doubleLiteral;
  fadd a b := toFloat (SpecFloat.SFadd 53 1024 a b);
  fsub a b := toFloat (SpecFloat.SFsub 53 1024 a b);
  fmul a b := toFloat (SpecFloat.SFmul 53 1024 a b);
  fdiv a b := toFloat (SpecFloat.SFdiv 53 1024 a b);
  fneg := SpecFloat.SFopp;
  fltb := SFless;
  fofint z := toFloat (intToDouble z);
  ftoint := SFtruncate;
  fformat := SFformat
|}.

(** A value held in a [float] variable: the binary32 nearest to [q]. *)
Definition float32 (q : Q) : SpecFloat.spec_float := toFloat (doubleLiteral q).

(* ================================================================== *)
(** ** Concrete inputs, for running the model *)

Definition exampleSetup : SetupInput Q := {|
  su_width := 240; su_height := 135;
  su_sht30 := true; su_qmp6988 := true; su_qmp6988_alt := false;
  su_cTemp := 21.5%Q; su_humidity := 40%Q; su_qmpPressure := 101325%Q;
  su_millisActivity := 2600; su_millisDisplay := 2600
|}.

(** The globals and the display operations after [setup]. *)
Definition exampleStart : Globals Q :=
  Eval vm_compute in
  match setup exampleSetup initialGlobals with
  | Some (_, g, _) => g
  | None => initialGlobals
  end.

Definition exampleStartOps : list DisplayOp :=
  Eval vm_compute in
  match setup exampleSetup initialGlobals with
  | Some (_, _, ops) => ops
  | None => []
  end.

Definition examplePower : PowerRead :=
  {| pw_level := 80; pw_charging := false; pw_millis := 5000 |}.

(** A pass in which ['h'] is pressed, 5 s after boot. *)
Definition exampleKeyH : Input Q := {|
  in_isChange := true; in_isPressed := true; in_word := ["h"%char];
  in_cTemp := 22%Q; in_humidity := 41%Q; in_qmpPressure := 101300%Q;
  in_millisWake := 5000; in_millisTimeout := 5000;
  in_millisHistory := 5000; in_millisLoop := 5001;
  in_power1 := examplePower; in_power2 := examplePower
|}.

(** 61 readings, all different. *)
Definition exampleSamples : list (Sample Q) :=
  map (fun n => {| s_temp := inject_Z (Z.of_nat n);
                   s_humidity := inject_Z (Z.of_nat n + 100);
                   s_pressure := inject_Z (Z.of_nat n + 1000) |})
      (seq 1 61).

(** The globals after three appends. *)
Definition exampleFilled : Globals Q :=
  Eval vm_compute in
  match appendAll (take 3 exampleSamples) initialGlobals with
  | Some (_, g, _) => g
  | None => initialGlobals
  end.

(** The globals after [setup] with 21.5 cached for the temperature box and
    for the graph value. *)
Definition exampleCached : Globals Q :=
  set_graphDispValue 21.5%Q (set_dispTemp 21.5%Q exampleStart).

(** A pass with no key event, [now] on the clock at each reading of it. *)
Definition exampleIdle (now : Z) : Input Q := {|
  in_isChange := false; in_isPressed := false; in_word := [];
  in_cTemp := 22%Q; in_humidity := 41%Q; in_qmpPressure := 101300%Q;
  in_millisWake := now; in_millisTimeout := now;
  in_millisHistory := now; in_millisLoop := now;
  in_power1 := examplePower; in_power2 := examplePower
|}.

(** The globals and the display operations after one pass without a key
    event, 3 s after boot: the main page has been drawn. *)
Definition exampleDrawn : Globals Q :=
  Eval vm_compute in
  match loop (exampleIdle 3000) exampleStart with
  | Some (_, g, _) => g
  | None => exampleStart
  end.

Definition exampleDrawnOps : list DisplayOp :=
  Eval vm_compute in
  match loop (exampleIdle 3000) exampleStart with
  | Some (_, _, ops) => ops
  | None => []
  end.

(** A battery at 7 %, not charging. *)
Definition exampleLowPower : PowerRead :=
  {| pw_level := 7; pw_charging := false; pw_millis := 5000 |}.

(** The settings page, the cursor on the brightness row. *)
Definition exampleSettings : Globals Q := set_currentPage 4 exampleStart.

(** The temperature page with three stored samples and a full redraw
    requested. *)
Definition exampleGraphPage : Globals Q :=
  set_currentPage 1 (set_needsFullRedraw true exampleFilled).

(** The clock about to overflow: the last activity 5 s and the last history
    append 30 s before 2^32, the timeout option at 10 s. *)
Definition exampleNearWrap : Globals Q :=
  set_lastHistoryUpdate (2 ^ 32 - 30000)
    (set_lastActivityTime (2 ^ 32 - 5000) (set_screenTimeoutOption 0 exampleDrawn)).

(** A pass in which the settings are opened and the timeout option is
    taken from Always-On to 10 s, 5 s after boot; the pass 10 s later, which
    turns the screen off; and a key pressed 5 s after that. *)
Definition exampleConfigure : Input Q := {|
  in_isChange := true; in_isPressed := true;
  in_word := ["s"; "."; "."; ","; ","]%char;
  in_cTemp := 22%Q; in_humidity := 41%Q; in_qmpPressure := 101300%Q;
  in_millisWake := 5000; in_millisTimeout := 5000;
  in_millisHistory := 5000; in_millisLoop := 5001;
  in_power1 := examplePower; in_power2 := examplePower
|}.

Definition exampleConfigured : Globals Q :=
  Eval vm_compute in
  match loop exampleConfigure exampleStart with
  | Some (_, g, _) => g
  | None => exampleStart
  end.

Definition exampleConfiguredOps : list DisplayOp :=
  Eval vm_compute in
  match loop exampleConfigure exampleStart with
  | Some (_, _, ops) => ops
  | None => []
  end.

Definition exampleDark : Globals Q :=
  Eval vm_compute in
  match loop (exampleIdle 15000) exampleConfigured with
  | Some (_, g, _) => g
  | None => exampleStart
  end.

Definition exampleWake : Input Q := {|
  in_isChange := true; in_isPressed := true; in_word := ["h"%char];
  in_cTemp := 22%Q; in_humidity := 41%Q; in_qmpPressure := 101300%Q;
  in_millisWake := 20000; in_millisTimeout := 20000;
  in_millisHistory := 20000; in_millisLoop := 20001;
  in_power1 := examplePower; in_power2 := examplePower
|}.

(** Binary32 runs.  Two readings of 15.3 degrees stored in the history: a
    flat series. *)
Definition exampleFlat32 : Globals SpecFloat.spec_float :=
  Eval vm_compute in
  let v := {| s_temp := float32 (153 # 10); s_humidity := float32 40;
              s_pressure := float32 1013 |} in
  match appendAll [v; v] initialGlobals with
  | Some (_, g, _) => g
  | None => initialGlobals
  end.

(** The same flat series on the rationals. *)
Definition exampleFlat : Globals Q :=
  Eval vm_compute in
  let v := {| s_temp := 15.3%Q; s_humidity := 40%Q; s_pressure := 1013%Q |} in
  match appendAll [v; v] initialGlobals with
  | Some (_, g, _) => g
  | None => initialGlobals
  end.


(* ================================================================== *)
(** * Properties *)

Section Properties.
Context {F : Type} `{FloatOps F}.

Lemma aget_in {A} (a : list A) (i : Z) :
  0 <= i < Z.of_nat (length a) -> aget a i = a !! Z.to_nat i.
Proof.
  intros Hi. unfold aget.
  destruct (Z.leb_spec 0 i); [|lia]. destruct (Z.ltb_spec i (Z.of_nat (length a))); [|lia].
  reflexivity.
Qed.

Lemma aset_in {A} (a : list A) (i : Z) (v : A) :
  0 <= i < Z.of_nat (length a) -> aset a i v = Some (<[Z.to_nat i := v]> a).
Proof.
  intros Hi. unfold aset.
  destruct (Z.leb_spec 0 i); [|lia]. destruct (Z.ltb_spec i (Z.of_nat (length a))); [|lia].
  reflexivity.
Qed.

(** *** Running a computation step by step *)

Lemma run_eta {A} (r : option (A * Globals F * list DisplayOp)) :
  match r with Some (b, g2, o2) => Some (b, g2, [] ++ o2) | None => None end = r.
Proof. destruct r as [[[b g2] o2]|]; reflexivity. Qed.

Lemma bind_ret {A B} (a : A) (k : A -> M F B) g : bind (ret a) k g = k a g.
Proof. unfold bind, ret. apply run_eta. Qed.

Lemma bind_gets {A B} (f : Globals F -> A) (k : A -> M F B) g :
  bind (gets f) k g = k (f g) g.
Proof. unfold bind, gets. apply run_eta. Qed.

Lemma bind_modify {B} (f : Globals F -> Globals F) (k : unit -> M F B) g :
  bind (modify f) k g = k tt (f g).
Proof. unfold bind, modify. apply run_eta. Qed.

Lemma bind_emit {B} (op : DisplayOp) (k : unit -> M F B) g :
  bind (emit op) k g =
  match k tt g with Some (b, g2, o2) => Some (b, g2, op :: o2) | None => None end.
Proof. reflexivity. Qed.

Lemma bind_lift {A B} (o : option A) (a : A) (k : A -> M F B) g :
  o = Some a -> bind (lift o) k g = k a g.
Proof. intros ->. apply bind_ret. Qed.

Lemma bind_run {A B} (m : M F A) (k : A -> M F B) g a g1 o1 :
  m g = Some (a, g1, o1) ->
  bind m k g = match k a g1 with Some (b, g2, o2) => Some (b, g2, o1 ++ o2) | None => None end.
Proof. intros Hm. unfold bind. rewrite Hm. reflexivity. Qed.

Lemma bind_silent {A B} (m : M F A) (k : A -> M F B) g a g1 :
  m g = Some (a, g1, []) -> bind m k g = k a g1.
Proof. intros Hm. rewrite (bind_run _ _ _ _ _ _ Hm). apply run_eta. Qed.

Lemma bind_pure {A B} (m : M F A) (k : A -> M F B) g a :
  m g = Some (a, g, []) -> bind m k g = k a g.
Proof. intros Hm. rewrite (bind_run _ _ _ _ _ _ Hm). apply run_eta. Qed.

Lemma bind_assoc {A B C} (m : M F A) (k : A -> M F B) (k' : B -> M F C) g :
  bind (bind m k) k' g = bind m (fun a => bind (k a) k') g.
Proof.
  unfold bind. destruct (m g) as [[[a g1] o1]|]; [|reflexivity].
  destruct (k a g1) as [[[b g2] o2]|]; [|reflexivity].
  destruct (k' b g2) as [[[c g3] o3]|]; [|reflexivity].
  rewrite app_assoc. reflexivity.
Qed.

Ltac step :=
  first [ rewrite bind_gets | rewrite bind_modify | rewrite bind_ret | rewrite bind_assoc ];
  cbv beta.


Lemma historyAppend_run (g : Globals F) :
  RingInv g -> historyAppend g = Some (tt, appendedState g, []).
Proof.
  intros (Ht & Hh & Hp & Hi & Hc).
  unfold historyAppend, appendedState.
  assert (Hi' : 0 <= historyIndex g < Z.of_nat (Z.to_nat historySize))
    by (unfold historySize in *; lia).
  do 3 step. rewrite aset_in by (rewrite Ht; exact Hi'). cbn [lift]. step.
  do 3 step. rewrite aset_in by (cbn; rewrite Hh; exact Hi'). cbn [lift]. step.
  do 3 step. rewrite aset_in by (cbn; rewrite Hp; exact Hi'). cbn [lift]. step.
  do 3 step. cbn.
  destruct (historyCount g <? historySize); reflexivity.
Qed.



Lemma Stores_nil (z : F) : Stores [] (replicate (Z.to_nat historySize) z) 0 0.
Proof.
  split; [apply length_replicate|]. split; [reflexivity|]. split; [reflexivity|].
  intros k Hk. cbn in Hk. lia.
Qed.

Lemma Stores_append (vs arr : list F) idx cnt (v : F) :
  Stores vs arr idx cnt ->
  Stores (vs ++ [v]) (<[Z.to_nat idx := v]> arr) (Z.rem (idx + 1) historySize)
         (if cnt <? historySize then cnt + 1 else cnt).
Proof.
  unfold Stores, historySize. intros (Hlen & Hcnt & Hidx & Hget).
  rewrite length_app, length_insert. cbn [length].
  set (n := Z.of_nat (length vs)) in *.
  replace (Z.of_nat (length vs + 1)) with (n + 1) by lia.
  assert (0 <= n) by lia.
  split; [exact Hlen|]. split; [|split].
  - subst cnt. destruct (Z.ltb_spec (Z.min n 60) 60); lia.
  - subst idx. rewrite Z.rem_mod_nonneg by (try apply Z.add_nonneg_nonneg; try lia;
      apply Z.mod_pos_bound; lia).
    rewrite Z.add_mod_idemp_l by lia. reflexivity.
  - intros k Hk.
    destruct (Z.eq_dec k n) as [->|Hne].
    + subst idx. rewrite list_lookup_insert_eq.
      * subst n. rewrite Nat2Z.id. rewrite lookup_app_r by lia.
        rewrite Nat.sub_diag. reflexivity.
      * rewrite Hlen. pose proof (Z.mod_pos_bound n 60). lia.
    + assert (Hk' : n - cnt <= k < n).
      { subst cnt. destruct (Z.ltb_spec (Z.min n 60) 60); lia. }
      rewrite list_lookup_insert_ne.
      * rewrite (Hget k Hk'). rewrite lookup_app_l by lia. reflexivity.
      * subst idx. intros Heq. apply Z2Nat.inj in Heq;
          try (apply Z.mod_pos_bound; lia).
        assert (Hd : 0 < n - k < 60).
        { subst cnt. destruct (Z.ltb_spec (Z.min n 60) 60); lia. }
        assert ((n - k) mod 60 = 0) as Hz.
        { rewrite Zminus_mod, Heq, Z.sub_diag. reflexivity. }
        rewrite Z.mod_small in Hz by lia. lia.
Qed.

Lemma Stores_readIndex (vs arr : list F) idx cnt i :
  Stores vs arr idx cnt -> 0 <= i < cnt ->
  Z.rem (idx - cnt + i + historySize) historySize =
  (Z.of_nat (length vs) - cnt + i) mod historySize.
Proof.
  unfold Stores, historySize. intros (Hlen & Hcnt & Hidx & Hget) Hi.
  set (n := Z.of_nat (length vs)) in *.
  assert (0 <= n) by lia.
  pose proof (Z.mod_pos_bound n 60 ltac:(lia)).
  rewrite Z.rem_mod_nonneg by lia.
  subst idx.
  replace (n mod 60 - cnt + i + 60) with (n mod 60 + (60 - cnt + i)) by lia.
  rewrite Z.add_mod_idemp_l by lia.
  replace (n + (60 - cnt + i)) with (n - cnt + i + 1 * 60) by lia.
  rewrite Z.mod_add by lia. reflexivity.
Qed.


Lemma graphSample_run history c i (g : Globals F) :
  graphSample history c i g =
  match aget (history g) (readIndex g i) with
  | Some v => Some (convert c v, g, [])
  | None => None
  end.
Proof.
  unfold graphSample. do 2 step.
  destruct (aget (history g) (readIndex g i)) as [v|]; [|reflexivity].
  cbn [lift]. step. reflexivity.
Qed.

Lemma collect_pure {A B} (l : list A) (f : A -> M F B) (h : A -> B) g :
  (forall a, In a l -> f a g = Some (h a, g, [])) ->
  collect l f g = Some (map h l, g, []).
Proof.
  induction l as [|a l IH]; intros Hf; [reflexivity|].
  cbn [collect map].
  rewrite (bind_pure _ _ _ _ (Hf a (or_introl eq_refl))).
  rewrite (bind_pure _ _ _ _ (IH (fun b Hb => Hf b (or_intror Hb)))).
  reflexivity.
Qed.

Lemma In_upto n i : In i (upto n) <-> 0 <= i < n.
Proof.
  unfold upto. rewrite in_map_iff. split.
  - intros (k & <- & Hk). apply in_seq in Hk. lia.
  - intros Hi. exists (Z.to_nat i). split; [lia|]. apply in_seq. lia.
Qed.

Lemma lookup_upto n (j : nat) :
  upto n !! j = if decide (Z.of_nat j < n) then Some (Z.of_nat j) else None.
Proof.
  unfold upto. change (map Z.of_nat) with (fmap (M:=list) Z.of_nat).
  rewrite list_lookup_fmap.
  destruct (decide (Z.of_nat j < n)).
  - rewrite lookup_seq_lt by lia. reflexivity.
  - rewrite lookup_seq_ge by lia. reflexivity.
Qed.

Lemma Stores_sample (vs arr : list F) idx cnt i :
  Stores vs arr idx cnt -> 0 <= i < cnt ->
  exists v, vs !! Z.to_nat (Z.of_nat (length vs) - cnt + i) = Some v /\
            aget arr (Z.rem (idx - cnt + i + historySize) historySize) = Some v.
Proof.
  intros HS Hi. pose proof HS as (Hlen & Hcnt & Hidx & Hget).
  assert (Hk : Z.of_nat (length vs) - cnt <= Z.of_nat (length vs) - cnt + i
               < Z.of_nat (length vs)) by (unfold historySize in *; lia).
  destruct (lookup_lt_is_Some_2 vs (Z.to_nat (Z.of_nat (length vs) - cnt + i))) as [v Hv];
    [unfold historySize in *; lia|].
  exists v. split; [exact Hv|].
  rewrite (Stores_readIndex _ _ _ _ _ HS Hi).
  rewrite aget_in.
  - rewrite (Hget _ Hk). exact Hv.
  - rewrite Hlen. unfold historySize.
    pose proof (Z.mod_pos_bound (Z.of_nat (length vs) - cnt + i) 60). lia.
Qed.

Lemma readOrdered_Stores history c (g : Globals F) vs :
  Stores vs (history g) (historyIndex g) (historyCount g) ->
  readOrdered history c g = Some (map (convert c) (lastN 60 vs), g, []).
Proof.
  intros HS. unfold readOrdered. step.
  rewrite (collect_pure _ _
    (fun i => convert c (default (flit 0) (aget (history g) (readIndex g i))))).
  - do 3 f_equal. rewrite <- map_map.
    apply list_eq. intros j. unfold lastN.
    change (map ?f) with (fmap (M:=list) f).
    rewrite !list_lookup_fmap, lookup_upto, lookup_drop.
    pose proof HS as (Hlen & Hcnt & Hidx & Hget).
    destruct (decide (Z.of_nat j < historyCount g)) as [Hj|Hj].
    + destruct (Stores_sample _ _ _ _ (Z.of_nat j) HS ltac:(lia)) as (v & Hv & Hr).
      cbn [fmap option_fmap option_map]. unfold readIndex. rewrite Hr. cbn [default].
      replace (length vs - 60 + j)%nat
        with (Z.to_nat (Z.of_nat (length vs) - historyCount g + Z.of_nat j))
        by (unfold historySize in *; lia).
      rewrite Hv. reflexivity.
    + rewrite (lookup_ge_None_2 vs) by (unfold historySize in *; lia). reflexivity.
  - intros i Hi. apply In_upto in Hi.
    rewrite graphSample_run.
    destruct (Stores_sample _ _ _ _ i HS Hi) as (v & Hv & Hr).
    unfold readIndex. rewrite Hr. reflexivity.
Qed.



Lemma appendedState_fields (g : Globals F) :
  tempHistory (appendedState g) = <[Z.to_nat (historyIndex g) := temperature g]> (tempHistory g) /\
  humidityHistory (appendedState g) = <[Z.to_nat (historyIndex g) := humidity g]> (humidityHistory g) /\
  pressureHistory (appendedState g) = <[Z.to_nat (historyIndex g) := pressure g]> (pressureHistory g) /\
  historyIndex (appendedState g) = Z.rem (historyIndex g + 1) historySize /\
  historyCount (appendedState g) =
    (if historyCount g <? historySize then historyCount g + 1 else historyCount g).
Proof. unfold appendedState. destruct (historyCount g <? historySize); repeat split. Qed.

Lemma RingInv_appendedState (g : Globals F) : RingInv g -> RingInv (appendedState g).
Proof.
  intros (Ht & Hh & Hp & Hi & Hc). unfold RingInv.
  destruct (appendedState_fields g) as (-> & -> & -> & -> & ->).
  rewrite !length_insert.
  repeat (split; [assumption|]). unfold historySize in *.
  split; [|destruct (Z.ltb_spec (historyCount g) 60); lia].
  rewrite Z.rem_mod_nonneg by lia. apply Z.mod_pos_bound. lia.
Qed.

Lemma Holds_RingInv ws (g : Globals F) : Holds ws g -> RingInv g.
Proof.
  intros ((Ht & Hc & Hi & _) & (Hh & _) & (Hp & _)).
  unfold RingInv. repeat (split; [assumption|]).
  unfold historySize in *.
  pose proof (Z.mod_pos_bound (Z.of_nat (length (map s_temp ws))) 60). lia.
Qed.

Lemma feed_run v (g : Globals F) :
  RingInv g -> feed v g = Some (tt, appendedState (withReadings v g), []).
Proof.
  intros HR. unfold feed. do 3 step. apply historyAppend_run, HR.
Qed.

Lemma Holds_feed ws v (g : Globals F) :
  Holds ws g -> Holds (ws ++ [v]) (appendedState (withReadings v g)).
Proof.
  intros (Ht & Hh & Hp). unfold Holds.
  destruct (appendedState_fields (withReadings v g)) as (-> & -> & -> & -> & ->).
  rewrite !map_app. cbn [map].
  split; [|split]; apply Stores_append; assumption.
Qed.

Lemma appendAll_Holds vs : forall ws (g0 : Globals F),
  Holds ws g0 ->
  exists g, appendAll vs g0 = Some (tt, g, []) /\ Holds (ws ++ vs) g.
Proof.
  induction vs as [|v vs IH]; intros ws g0 HH.
  - exists g0. rewrite app_nil_r. split; [reflexivity|assumption].
  - destruct (IH (ws ++ [v]) _ (Holds_feed ws v g0 HH)) as (g & Hrun & Hg).
    exists g. rewrite <- app_assoc in Hg. split; [|exact Hg].
    unfold appendAll. cbn [forM_].
    rewrite (bind_run _ _ _ _ _ _ (feed_run v g0 (Holds_RingInv _ _ HH))).
    fold (appendAll vs). rewrite Hrun. reflexivity.
Qed.

Lemma Holds_initial : Holds [] (initialGlobals (F:=F)).
Proof. repeat split; apply Stores_nil. Qed.

Lemma length_lastN {A} n (l : list A) : length (lastN n l) = Nat.min (length l) n.
Proof. unfold lastN. rewrite length_drop. lia. Qed.

(** C1. Whatever the sequence of appends, starting from the empty buffers:
    the count is min(number of appends, 60), the cursor is the number of
    appends modulo 60, and the ordered read of each metric is the last
    min(number of appends, 60) appended values, oldest first.  One more
    append writes the three values at the cursor (which is inside the
    arrays), advances the cursor modulo 60 and raises the count up to 60. *)
Theorem history_ring_buffer_fifo (vs : list (Sample F)) :
  exists g,
    appendAll vs initialGlobals = Some (tt, g, []) /\
    historyCount g = Z.min (Z.of_nat (length vs)) historySize /\
    historyIndex g = Z.of_nat (length vs) mod historySize /\
    readOrdered tempHistory false g = Some (lastN 60 (map s_temp vs), g, []) /\
    readOrdered humidityHistory false g = Some (lastN 60 (map s_humidity vs), g, []) /\
    readOrdered pressureHistory false g = Some (lastN 60 (map s_pressure vs), g, []) /\
    length (lastN 60 (map s_temp vs)) = Nat.min (length vs) 60 /\
    forall v, exists g',
      feed v g = Some (tt, g', []) /\
      0 <= historyIndex g < Z.of_nat (length (tempHistory g)) /\
      tempHistory g' = <[Z.to_nat (historyIndex g) := s_temp v]> (tempHistory g) /\
      humidityHistory g' = <[Z.to_nat (historyIndex g) := s_humidity v]> (humidityHistory g) /\
      pressureHistory g' = <[Z.to_nat (historyIndex g) := s_pressure v]> (pressureHistory g) /\
      historyIndex g' = (historyIndex g + 1) mod historySize /\
      historyCount g' = Z.min (historyCount g + 1) historySize.
Proof.
  destruct (appendAll_Holds vs [] _ Holds_initial) as (g & Hrun & HH).
  cbn [app] in HH. exists g.
  pose proof (Holds_RingInv _ _ HH) as HR.
  destruct HH as (Ht & Hh & Hp).
  split; [exact Hrun|].
  pose proof Ht as (Hlen & Hcnt & Hidx & _). rewrite length_map in Hcnt, Hidx.
  split; [exact Hcnt|]. split; [exact Hidx|].
  rewrite (readOrdered_Stores _ false _ _ Ht), (readOrdered_Stores _ false _ _ Hh),
    (readOrdered_Stores _ false _ _ Hp).
  unfold convert. rewrite !map_id.
  do 3 (split; [reflexivity|]).
  split; [rewrite length_lastN, length_map; reflexivity|].
  intros v. exists (appendedState (withReadings v g)).
  split; [apply feed_run, HR|].
  destruct (appendedState_fields (withReadings v g)) as (-> & -> & -> & -> & ->).
  cbn. destruct HR as (Hl & _ & _ & Hi & Hc).
  split; [rewrite Hl; unfold historySize in *; lia|].
  do 3 (split; [reflexivity|]). unfold historySize in *.
  split; [apply Z.rem_mod_nonneg; lia|].
  destruct (Z.ltb_spec (historyCount g) 60); lia.
Qed.

Lemma updateHistory_run now (g : Globals F) :
  updateHistory now g =
  if thresholdCrossed now (lastHistoryUpdate g) || (historyCount g =? 0)
  then historyAppend (set_lastHistoryUpdate now g)
  else Some (tt, g, []).
Proof.
  unfold updateHistory, thresholdCrossed. do 2 step.
  destruct (_ || _); [step|]; reflexivity.
Qed.

Lemma RingInv_readIndex (g : Globals F) i :
  RingInv g -> 0 <= i < historyCount g -> 0 <= readIndex g i < historySize.
Proof.
  intros (_ & _ & _ & Hi & Hc) Hr. unfold readIndex, historySize in *.
  rewrite Z.rem_mod_nonneg by lia. apply Z.mod_pos_bound. lia.
Qed.

Lemma RingInv_aget (g : Globals F) i :
  RingInv g -> 0 <= i < historyCount g ->
  is_Some (aget (tempHistory g) (readIndex g i)) /\
  is_Some (aget (humidityHistory g) (readIndex g i)) /\
  is_Some (aget (pressureHistory g) (readIndex g i)).
Proof.
  intros HR Hi. pose proof (RingInv_readIndex g i HR Hi) as Hb.
  destruct HR as (Ht & Hh & Hp & _).
  rewrite !aget_in by (rewrite ?Ht, ?Hh, ?Hp; unfold historySize in *; lia).
  repeat split; apply lookup_lt_is_Some_2; rewrite ?Ht, ?Hh, ?Hp;
    unfold historySize in *; lia.
Qed.

Lemma historyCount_appendedState (g : Globals F) :
  RingInv g -> 1 <= historyCount (appendedState g).
Proof.
  intros (_ & _ & _ & _ & Hc).
  destruct (appendedState_fields g) as (_ & _ & _ & _ & ->).
  unfold historySize in *. destruct (Z.ltb_spec (historyCount g) 60); lia.
Qed.

(** C2. After exactly 61 appends the ordered read of each metric is the
    appended values number 2 to 61, in the order they were appended: the
    sample appended first has been overwritten and the 61st is the newest
    entry. *)
Theorem fifo_overwrite_after_61 (vs : list (Sample F)) :
  length vs = 61%nat ->
  exists g r,
    appendAll vs initialGlobals = Some (tt, g, []) /\
    readOrdered tempHistory false g = Some (r, g, []) /\
    r = map s_temp (drop 1 vs) /\
    length r = 60%nat /\
    last r = s_temp <$> vs !! 60%nat /\
    (forall j, r !! j = s_temp <$> vs !! S j) /\
    (forall x, vs !! 0%nat = Some x ->
       ~ In (s_temp x) (map s_temp (drop 1 vs)) -> ~ In (s_temp x) r) /\
    readOrdered humidityHistory false g = Some (map s_humidity (drop 1 vs), g, []) /\
    readOrdered pressureHistory false g = Some (map s_pressure (drop 1 vs), g, []).
Proof.
  intros Hlen.
  destruct (appendAll_Holds vs [] _ Holds_initial) as (g & Hrun & (Ht & Hh & Hp)).
  cbn [app] in Ht, Hh, Hp.
  apply (readOrdered_Stores _ false) in Ht, Hh, Hp.
  unfold convert in Ht, Hh, Hp. rewrite map_id in Ht, Hh, Hp.
  assert (Hlast : forall (A : Type) (f : Sample F -> A),
             lastN 60 (map f vs) = map f (drop 1 vs)).
  { intros A f. unfold lastN. rewrite length_map, Hlen.
    change (map f) with (fmap (M:=list) f). rewrite fmap_drop. reflexivity. }
  rewrite Hlast in Ht, Hh, Hp.
  exists g, (map s_temp (drop 1 vs)).
  split; [exact Hrun|]. split; [exact Ht|]. split; [reflexivity|].
  split; [rewrite length_map, length_drop, Hlen; reflexivity|].
  split.
  { destruct vs as [|v0 vs']; [discriminate|]. cbn [drop] in *.
    change (map s_temp vs') with (s_temp <$> vs').
    rewrite fmap_last. f_equal. rewrite last_lookup.
    cbn in Hlen. injection Hlen as Hlen. rewrite !drop_0, Hlen. reflexivity. }
  split.
  { intros j. change (map s_temp (drop 1 vs)) with (s_temp <$> drop 1 vs).
    rewrite list_lookup_fmap, lookup_drop. reflexivity. }
  split; [intros x _ Hx; exact Hx|].
  split; assumption.
Qed.

(** C10. Every call of the history append keeps the cursor inside
    [0, historySize) and the count inside [0, historySize], and leaves the
    count at 1 or more; so does [updateHistory], and afterwards every index
    [(historyIndex - historyCount + i + historySize) % historySize] with
    [0 <= i < historyCount] lies inside the three history arrays. *)
Theorem history_append_keeps_ring_invariant (g : Globals F) (now : Z) :
  RingInv g ->
  (exists g1, historyAppend g = Some (tt, g1, []) /\
     RingInv g1 /\ 1 <= historyCount g1) /\
  exists g', updateHistory now g = Some (tt, g', []) /\
    RingInv g' /\ 1 <= historyCount g' /\
    forall i, 0 <= i < historyCount g' ->
      0 <= readIndex g' i < historySize /\
      is_Some (aget (tempHistory g') (readIndex g' i)) /\
      is_Some (aget (humidityHistory g') (readIndex g' i)) /\
      is_Some (aget (pressureHistory g') (readIndex g' i)).
Proof.
  intros HR. split.
  - exists (appendedState g). split; [apply historyAppend_run, HR|].
    split; [apply RingInv_appendedState, HR|apply historyCount_appendedState, HR].
  - rewrite updateHistory_run.
    assert (HR' : RingInv (set_lastHistoryUpdate now g)) by exact HR.
    destruct (thresholdCrossed now (lastHistoryUpdate g)) eqn:Hth; cbn [orb].
    + exists (appendedState (set_lastHistoryUpdate now g)).
      split; [apply historyAppend_run, HR'|].
      pose proof (RingInv_appendedState _ HR') as HR2.
      split; [exact HR2|]. split; [apply historyCount_appendedState, HR'|].
      intros i Hi. split; [apply RingInv_readIndex|apply RingInv_aget]; assumption.
    + destruct (Z.eqb_spec (historyCount g) 0) as [Hz|Hz].
      * exists (appendedState (set_lastHistoryUpdate now g)).
        split; [apply historyAppend_run, HR'|].
        pose proof (RingInv_appendedState _ HR') as HR2.
        split; [exact HR2|]. split; [apply historyCount_appendedState, HR'|].
        intros i Hi. split; [apply RingInv_readIndex|apply RingInv_aget]; assumption.
      * exists g. split; [reflexivity|]. split; [exact HR|].
        split; [destruct HR as (_ & _ & _ & _ & Hc); lia|].
        intros i Hi. split; [apply RingInv_readIndex|apply RingInv_aget]; assumption.
Qed.


(** *** The graph scaler *)

Lemma foldM_pure {A B} (l : list A) (f : B -> A -> M F B) (h : B -> A -> B) g :
  (forall b a, In a l -> f b a g = Some (h b a, g, [])) ->
  forall b, foldM f b l g = Some (fold_left h l b, g, []).
Proof.
  induction l as [|a l IH]; intros Hf b; [reflexivity|].
  cbn [foldM fold_left].
  rewrite (bind_pure _ _ _ _ (Hf b a (or_introl eq_refl))).
  apply IH. intros b' a' Ha'. apply Hf. right. exact Ha'.
Qed.

Lemma fold_left_fmap {A B C} (f : C -> B -> C) (h : A -> B) (l : list A) :
  forall c, fold_left f (map h l) c = fold_left (fun c a => f c (h a)) l c.
Proof. induction l as [|a l IH]; intros c; [reflexivity|apply IH]. Qed.

Lemma graphSample_inv history c (g : Globals F) i :
  RingInv g -> length (history g) = Z.to_nat historySize -> 0 <= i < historyCount g ->
  graphSample history c i g = Some (sampleAt history c g i, g, []).
Proof.
  intros HR Hlen Hi. rewrite graphSample_run. unfold sampleAt.
  pose proof (RingInv_readIndex g i HR Hi) as Hb.
  rewrite aget_in by (rewrite Hlen; unfold historySize in *; lia).
  destruct (lookup_lt_is_Some_2 (history g) (Z.to_nat (readIndex g i))) as [v ->];
    [rewrite Hlen; unfold historySize in *; lia|].
  reflexivity.
Qed.

Lemma readOrdered_inv history c (g : Globals F) :
  RingInv g -> length (history g) = Z.to_nat historySize ->
  readOrdered history c g = Some (map (sampleAt history c g) (upto (historyCount g)), g, []).
Proof.
  intros HR Hlen. unfold readOrdered. step.
  apply collect_pure. intros i Hi. apply In_upto in Hi.
  apply graphSample_inv; assumption.
Qed.

Lemma graphMinMax_inv history c (g : Globals F) :
  RingInv g -> length (history g) = Z.to_nat historySize -> 0 < historyCount g ->
  graphMinMax history c g =
  Some (fold_left minMaxStep (map (sampleAt history c g) (upto (historyCount g)))
          (sampleAt history c g 0, sampleAt history c g 0), g, []).
Proof.
  intros HR Hlen Hc. unfold graphMinMax. do 2 step.
  pose proof (graphSample_inv history c g 0 HR Hlen ltac:(lia)) as H0.
  rewrite graphSample_run in H0. unfold readIndex in H0. rewrite Z.add_0_r in H0.
  destruct (aget (history g) _) as [v|] eqn:Hv; [|discriminate].
  cbn [lift]. step. step.
  injection H0 as H0. unfold convert in H0. rewrite H0.
  rewrite fold_left_fmap.
  apply (foldM_pure _ _ (fun acc i => minMaxStep acc (sampleAt history c g i))).
  intros [mn mx] i Hi. apply In_upto in Hi.
  rewrite (bind_pure _ _ _ _ (graphSample_inv history c g i HR Hlen Hi)).
  reflexivity.
Qed.

(** With fewer than two stored samples the scaler computes nothing: the
    page shows the placeholder. *)
Lemma graphBounds_placeholder history c (g : Globals F) :
  historyCount g <= 1 -> graphBounds history c g = Some (None, g, []).
Proof.
  intros Hc. unfold graphBounds. step.
  destruct (Z.ltb_spec 1 (historyCount g)); [lia|reflexivity].
Qed.

Section MinMax.
Context `{!FloatOrder F}.

Lemma notAbove_trans a b c : notAbove a b -> notAbove b c -> notAbove a c.
Proof.
  intros [->|Hab] [->|Hbc]; unfold notAbove; auto.
  right. eapply fltb_trans; eassumption.
Qed.

Lemma notAbove_bound a b x : notAbove a b -> fltb x b = false -> fltb x a = false.
Proof.
  intros [->|Hab] Hx; [exact Hx|].
  destruct (fltb x a) eqn:Hxa; [|reflexivity].
  rewrite (fltb_trans _ _ _ Hxa Hab) in Hx. discriminate.
Qed.

Lemma notAbove_bound' a b x : notAbove a b -> fltb a x = false -> fltb b x = false.
Proof.
  intros [->|Hab] Hx; [exact Hx|].
  destruct (fltb b x) eqn:Hbx; [|reflexivity].
  rewrite (fltb_trans _ _ _ Hab Hbx) in Hx. discriminate.
Qed.

Lemma minMax_fold (xs : list F) : forall mn mx,
  let r := fold_left minMaxStep xs (mn, mx) in
  (fst r = mn \/ In (fst r) xs) /\ notAbove (fst r) mn /\
  (forall x, In x xs -> fltb x (fst r) = false) /\
  (snd r = mx \/ In (snd r) xs) /\ notAbove mx (snd r) /\
  (forall x, In x xs -> fltb (snd r) x = false).
Proof.
  induction xs as [|v xs IH]; intros mn mx; cbn [fold_left].
  - cbn. repeat split; try (left; reflexivity); intros x [].
  - set (mn1 := if fltb v mn then v else mn).
    set (mx1 := if fltb mx v then v else mx).
    change (minMaxStep (mn, mx) v) with (mn1, mx1).
    destruct (IH mn1 mx1) as (Hin & Hle & Hlow & Hin' & Hge & Hup).
    set (r' := fold_left minMaxStep xs (mn1, mx1)) in *.
    assert (Hmn1 : notAbove mn1 mn).
    { subst mn1. destruct (fltb v mn) eqn:E; [right; exact E|left; reflexivity]. }
    assert (Hmx1 : notAbove mx mx1).
    { subst mx1. destruct (fltb mx v) eqn:E; [right; exact E|left; reflexivity]. }
    assert (Hv : fltb v mn1 = false).
    { subst mn1. destruct (fltb v mn) eqn:E; [apply fltb_irrefl|exact E]. }
    assert (Hv' : fltb mx1 v = false).
    { subst mx1. destruct (fltb mx v) eqn:E; [apply fltb_irrefl|exact E]. }
    cbv zeta. repeat split.
    + destruct Hin as [E|Hin]; [|right; right; exact Hin].
      rewrite E. subst mn1. destruct (fltb v mn); [right; left|left]; reflexivity.
    + eapply notAbove_trans; eassumption.
    + intros x [<-|Hx]; [|apply Hlow, Hx].
      eapply notAbove_bound; eassumption.
    + destruct Hin' as [E|Hin']; [|right; right; exact Hin'].
      rewrite E. subst mx1. destruct (fltb mx v); [right; left|left]; reflexivity.
    + eapply notAbove_trans; eassumption.
    + intros x [<-|Hx]; [|apply Hup, Hx].
      eapply notAbove_bound'; eassumption.
Qed.

(** The scaler in exact arithmetic. *)
Lemma graphScale_exact (val : F -> Q) (mn mx lo hi rg : F) :
  ExactArith F val -> graphScale mn mx = (lo, hi, rg) ->
  ((val mx - val mn < 2)%Q ->
     (val lo == (val mx + val mn) / 2 - 1)%Q /\
     (val hi == (val mx + val mn) / 2 + 1)%Q /\
     (val hi - val lo == 2)%Q /\
     ((val hi + val lo) / 2 == (val mx + val mn) / 2)%Q /\
     (val rg == 2)%Q) /\
  (~ (val mx - val mn < 2)%Q ->
     (val lo == val mn - (val mx - val mn) * (1 # 10))%Q /\
     (val hi == val mx + (val mx - val mn) * (1 # 10))%Q /\
     (val rg == val hi - val lo)%Q).
Proof.
  intros EA E. unfold graphScale in E.
  pose proof (val_fltb (fsub mx mn) (flit 2)) as Hlt.
  rewrite val_fsub, val_flit in Hlt.
  assert (H2 : ~ (val (flit 2) == 0)%Q) by (rewrite val_flit; discriminate).
  destruct (fltb (fsub mx mn) (flit 2)) eqn:Ht; injection E as <- <- <-.
  - split; [intros _|intros Hn; exfalso; apply Hn, Hlt; reflexivity].
    rewrite val_fsub, val_fadd, !val_fdiv, val_fadd, !val_flit by exact H2.
    repeat split; try reflexivity; field.
  - split; [intros Hc; apply Hlt in Hc; discriminate|intros _].
    rewrite !val_fsub, val_fadd, !val_fmul, !val_fsub, !val_flit.
    repeat split; try reflexivity; ring.
Qed.

(** C3, as the code has it.  With at least two stored samples, the
    converted values in read order being [xs]: the scaler scans a smallest
    [mn] and a largest [mx] of [xs] for the [<] of the floats.  When the
    float [mx - mn] is below 2.0 the bounds are the floats [mid - 1.0] and
    [mid + 1.0] for [mid = (mx + mn) / 2.0], and the range the samples are
    scaled by is set to 2.0 itself; otherwise the bounds are
    [mn - range * 0.1] and [mx + range * 0.1] for [range = mx - mn], and the
    range is their float difference.  Under every reading of the floats for
    which the operations are exact, the bounds of the first case are
    exactly 2.0 apart and centred on [(mx + mn) / 2], and those of the
    second are [mn - 0.1 * range] and [mx + 0.1 * range].  In binary32 the
    operations of the first case round, and the span is 2.0 only up to that
    rounding. *)
Theorem graph_scaler_bounds (history : Globals F -> list F) (c : bool) (g : Globals F) :
  RingInv g -> length (history g) = Z.to_nat historySize -> 1 < historyCount g ->
  exists xs mn mx lo hi rg,
    readOrdered history c g = Some (xs, g, []) /\
    length xs = Z.to_nat (historyCount g) /\
    IsMin mn xs /\ IsMax mx xs /\
    graphBounds history c g = Some (Some (lo, hi, rg), g, []) /\
    (lo, hi, rg) =
      (if fltb (fsub mx mn) (flit 2) then
         let mid := fdiv (fadd mx mn) (flit 2) in
         (fsub mid (flit 1), fadd mid (flit 1), flit 2)
       else
         let range := fsub mx mn in
         let lo := fsub mn (fmul range (flit (1 # 10))) in
         let hi := fadd mx (fmul range (flit (1 # 10))) in
         (lo, hi, fsub hi lo)) /\
    forall val : F -> Q, ExactArith F val ->
      ((val mx - val mn < 2)%Q ->
         (val lo == (val mx + val mn) / 2 - 1)%Q /\
         (val hi == (val mx + val mn) / 2 + 1)%Q /\
         (val hi - val lo == 2)%Q /\
         ((val hi + val lo) / 2 == (val mx + val mn) / 2)%Q /\
         (val rg == 2)%Q) /\
      (~ (val mx - val mn < 2)%Q ->
         (val lo == val mn - (val mx - val mn) * (1 # 10))%Q /\
         (val hi == val mx + (val mx - val mn) * (1 # 10))%Q /\
         (val rg == val hi - val lo)%Q).
Proof.
  intros HR Hlen Hc.
  set (xs := map (sampleAt history c g) (upto (historyCount g))).
  set (x0 := sampleAt history c g 0).
  set (r := fold_left minMaxStep xs (x0, x0)).
  destruct (graphScale (fst r) (snd r)) as [[lo hi] rg] eqn:E.
  exists xs, (fst r), (snd r), lo, hi, rg.
  assert (Hx0 : In x0 xs).
  { apply in_map, In_upto. lia. }
  destruct (minMax_fold xs x0 x0) as (Hin & _ & Hlow & Hin' & _ & Hup).
  fold r in Hin, Hlow, Hin', Hup.
  split; [apply readOrdered_inv; assumption|].
  split; [subst xs; unfold upto; rewrite !length_map, length_seq; reflexivity|].
  split; [split; [destruct Hin as [->|]; assumption|exact Hlow]|].
  split; [split; [destruct Hin' as [->|]; assumption|exact Hup]|].
  split; [|split].
  - unfold graphBounds. step.
    destruct (Z.ltb_spec 1 (historyCount g)); [|lia].
    rewrite (bind_pure _ _ _ _ (graphMinMax_inv history c g HR Hlen ltac:(lia))).
    fold xs x0 r. rewrite E. reflexivity.
  - rewrite <- E. reflexivity.
  - intros val EA. exact (graphScale_exact val _ _ _ _ _ EA E).
Qed.

End MinMax.


(** *** Incremental redraw of one field *)



(** *** Keyboard and screen power *)

Lemma wakeScreen_run now (g : Globals F) :
  wakeScreen now g =
  match screenState g with
  | SCREEN_ON => Some (tt, set_lastActivityTime now g, [])
  | SCREEN_OFF =>
      Some (tt, set_needsFullRedraw true (set_screenState SCREEN_ON
                  (set_lastActivityTime now g)),
            [setBrightness (normalBrightness g)])
  end.
Proof.
  unfold wakeScreen. do 2 step. cbn.
  destruct (screenState g); reflexivity.
Qed.

Lemma handleKeyboard_run (inp : Input F) (g : Globals F) :
  handleKeyboard inp g =
  if keyEvent inp then
    match screenState g with
    | SCREEN_ON => forM_ (in_word inp) handleKey (set_lastActivityTime (in_millisWake inp) g)
    | SCREEN_OFF =>
        Some (tt, set_needsFullRedraw true (set_screenState SCREEN_ON
                    (set_lastActivityTime (in_millisWake inp) g)),
              [setBrightness (normalBrightness g)])
    end
  else Some (tt, g, []).
Proof.
  unfold handleKeyboard, keyEvent.
  destruct (in_isChange inp), (in_isPressed inp); try reflexivity.
  cbn [andb]. step.
  destruct (screenState g) eqn:Hs; cbn [ScreenState_eqb negb].
  - assert (Hw : wakeScreen (in_millisWake inp) g =
                 Some (tt, set_lastActivityTime (in_millisWake inp) g, []))
      by (rewrite wakeScreen_run, Hs; reflexivity).
    rewrite (bind_silent _ _ _ _ _ Hw). reflexivity.
  - rewrite wakeScreen_run, Hs. reflexivity.
Qed.

(** C5. A key event reaches [wakeScreen] before any key is interpreted.
    With the screen off it only wakes the screen: brightness is restored, a
    full redraw is requested, and no global of the navigation or of the
    settings changes.  With the screen on the activity time is reset and
    the keys are then interpreted.  In particular ['h'] or ['H'] on the
    main page opens the humidity graph when the screen is on, and leaves
    the main page current when the screen was off. *)
Theorem key_wakes_before_it_is_interpreted (inp : Input F) (g : Globals F) :
  keyEvent inp = true ->
  (screenState g = SCREEN_OFF ->
     handleKeyboard inp g =
     Some (tt, set_needsFullRedraw true (set_screenState SCREEN_ON
                 (set_lastActivityTime (in_millisWake inp) g)),
           [setBrightness (normalBrightness g)])) /\
  (screenState g = SCREEN_ON ->
     handleKeyboard inp g =
     forM_ (in_word inp) handleKey (set_lastActivityTime (in_millisWake inp) g)) /\
  (forall c, in_word inp = [c] -> c = "h"%char \/ c = "H"%char -> currentPage g = 0 ->
     (screenState g = SCREEN_ON ->
        exists g', handleKeyboard inp g = Some (tt, g', []) /\
          currentPage g' = 2 /\ needsFullRedraw g' = true /\ screenState g' = SCREEN_ON) /\
     (screenState g = SCREEN_OFF ->
        exists g', handleKeyboard inp g = Some (tt, g', [setBrightness (normalBrightness g)]) /\
          currentPage g' = 0 /\ needsFullRedraw g' = true /\ screenState g' = SCREEN_ON)).
Proof.
  intros Hk. rewrite handleKeyboard_run, Hk.
  split; [intros ->; reflexivity|]. split; [intros ->; reflexivity|].
  intros c Hw Hc Hp. split; intros Hs; rewrite Hs.
  - rewrite Hw. cbn [forM_]. unfold handleKey. do 2 step.
    cbn [currentPage set_lastActivityTime]. rewrite Hp.
    destruct Hc as [-> | ->]; cbn; eexists; (split; [reflexivity|]); cbn; auto.
  - eexists. split; [reflexivity|]. cbn. auto.
Qed.


(** *** The page renderer stays behind the display *)

Lemma behindDisplay_RingInv (g g' : Globals F) :
  behindDisplay g' = behindDisplay g -> RingInv g -> RingInv g'.
Proof.
  intros E. unfold RingInv.
  change (tempHistory g') with (tempHistory (behindDisplay g')).
  change (humidityHistory g') with (humidityHistory (behindDisplay g')).
  change (pressureHistory g') with (pressureHistory (behindDisplay g')).
  change (historyIndex g') with (historyIndex (behindDisplay g')).
  change (historyCount g') with (historyCount (behindDisplay g')).
  rewrite E. exact id.
Qed.

Lemma DrawsAt_bind {A B} (m : M F A) (k : A -> M F B) g :
  DrawsAt g m ->
  (forall a g', behindDisplay g' = behindDisplay g -> DrawsAt g' (k a)) ->
  DrawsAt g (bind m k).
Proof.
  intros (a & g1 & o1 & Hm & E1 & F1) Hk.
  destruct (Hk a g1 E1) as (b & g2 & o2 & Hk' & E2 & F2).
  exists b, g2, (o1 ++ o2). rewrite (bind_run _ _ _ _ _ _ Hm), Hk'.
  split; [reflexivity|]. split; [congruence|]. apply Forall_app; split; assumption.
Qed.

Lemma Draws_bind {A B} (m : M F A) (k : A -> M F B) :
  Draws m -> (forall a, Draws (k a)) -> Draws (bind m k).
Proof.
  intros Hm Hk g HR. apply DrawsAt_bind; [apply Hm, HR|].
  intros a g' E. apply Hk. eapply behindDisplay_RingInv; eassumption.
Qed.

Lemma Draws_ret {A} (a : A) : Draws (ret a).
Proof. intros g _. exists a, g, []. repeat split. constructor. Qed.

Lemma Draws_gets {A} (f : Globals F -> A) : Draws (gets f).
Proof. intros g _. exists (f g), g, []. repeat split. constructor. Qed.

Lemma Draws_emit (op : DisplayOp) : drawing op -> Draws (emit op).
Proof.
  intros Hop g _. exists tt, g, [op]. repeat split. constructor; [exact Hop|constructor].
Qed.

Lemma Draws_modify (f : Globals F -> Globals F) :
  (forall g, behindDisplay (f g) = behindDisplay g) -> Draws (modify f).
Proof. intros Hf g _. exists tt, (f g), []. repeat split; [apply Hf|constructor]. Qed.

Lemma Draws_lift {A} (o : option A) : is_Some o -> Draws (lift o).
Proof. intros [a ->]. apply Draws_ret. Qed.

Lemma Draws_forM_ {A} (l : list A) (f : A -> M F unit) :
  (forall a, In a l -> Draws (f a)) -> Draws (forM_ l f).
Proof.
  induction l as [|a l IH]; intros Hf; cbn [forM_]; [apply Draws_ret|].
  apply Draws_bind; [apply Hf; left; reflexivity|].
  intros _. apply IH. intros b Hb. apply Hf. right. exact Hb.
Qed.

Create HintDb draws.

Ltac draws_step :=
  lazymatch goal with
  | |- Draws (bind _ _) => apply Draws_bind; [|intros ?]
  | |- Draws (ret _) => apply Draws_ret
  | |- Draws (gets _) => apply Draws_gets
  | |- Draws (emit _) => apply Draws_emit; reflexivity
  | |- Draws (modify _) => apply Draws_modify; intros ?; reflexivity
  | |- Draws (let _ := _ in _) => cbv zeta
  | |- Draws (match ?x with _ => _ end) => destruct x
  end.

Ltac draws := repeat draws_step; auto with draws.

Lemma Draws_drawCenteredText text y size color : Draws (drawCenteredText text y size color).
Proof. unfold drawCenteredText. draws. Qed.

Lemma Draws_drawCenteredTextInBox text boxX boxW y size color :
  Draws (drawCenteredTextInBox text boxX boxW y size color).
Proof. unfold drawCenteredTextInBox. draws. Qed.

Lemma Draws_drawThickRoundRect x y w h r t color :
  Draws (drawThickRoundRect x y w h r t color).
Proof. unfold drawThickRoundRect. apply Draws_forM_. intros i _. draws. Qed.

Lemma Draws_drawThermometerIcon cx cy color : Draws (drawThermometerIcon cx cy color).
Proof. unfold drawThermometerIcon. draws. Qed.

Lemma Draws_drawDropletIcon cx cy color : Draws (drawDropletIcon cx cy color).
Proof. unfold drawDropletIcon. draws. Qed.

Lemma Draws_drawBarometerIcon cx cy color : Draws (drawBarometerIcon cx cy color).
Proof. unfold drawBarometerIcon. draws. Qed.

Lemma Draws_drawLightningBolt x y color : Draws (drawLightningBolt x y color).
Proof. unfold drawLightningBolt. draws. Qed.

Lemma Draws_drawBattery force pw : Draws (drawBattery force pw).
Proof. unfold drawBattery. draws; apply Draws_drawLightningBolt. Qed.

#[local] Hint Resolve Draws_drawCenteredText Draws_drawCenteredTextInBox
  Draws_drawThickRoundRect Draws_drawThermometerIcon Draws_drawDropletIcon
  Draws_drawBarometerIcon Draws_drawBattery : draws.

Lemma Draws_getDisplayTemp t : Draws (getDisplayTemp t).
Proof. unfold getDisplayTemp. draws. Qed.

Lemma Draws_getTempUnit : Draws getTempUnit.
Proof. unfold getTempUnit. draws. Qed.


#[local] Hint Resolve Draws_getDisplayTemp Draws_getTempUnit : draws.

Lemma Draws_drawMainPageStatic pw : Draws (drawMainPageStatic pw).
Proof. unfold drawMainPageStatic. draws. Qed.

Lemma Draws_updateSingleBoxValue boxX value r color format unit_ :
  Draws (updateSingleBoxValue boxX value r color format unit_).
Proof. unfold updateSingleBoxValue. destruct r; draws. Qed.

#[local] Hint Resolve Draws_drawMainPageStatic Draws_updateSingleBoxValue : draws.

Lemma Draws_updateMainPageValues pw : Draws (updateMainPageValues pw).
Proof. unfold updateMainPageValues. draws. Qed.

Lemma Draws_updateGraphValue value color unit_ title :
  Draws (updateGraphValue value color unit_ title).
Proof. unfold updateGraphValue. draws. Qed.

Lemma Draws_drawSettingsPageStatic pw : Draws (drawSettingsPageStatic pw).
Proof.
  unfold drawSettingsPageStatic. draws.
  apply Draws_forM_. intros i Hi. apply In_upto in Hi. draws.
  apply Draws_lift.
  assert (i = 0 \/ i = 1 \/ i = 2) as [-> | [-> | ->]] by lia; eexists; reflexivity.
Qed.

Lemma graphBounds_inv history c (g : Globals F) :
  RingInv g -> length (history g) = Z.to_nat historySize ->
  exists b, graphBounds history c g = Some (b, g, []).
Proof.
  intros HR Hlen. unfold graphBounds. step.
  destruct (Z.ltb_spec 1 (historyCount g)); [|eexists; reflexivity].
  rewrite (bind_pure _ _ _ _ (graphMinMax_inv history c g HR Hlen ltac:(lia))).
  eexists. reflexivity.
Qed.

Lemma Draws_graphBounds history c : HistoryOf history -> Draws (graphBounds history c).
Proof.
  intros Hh g HR. destruct (graphBounds_inv history c g HR (Hh g HR)) as [b Hb].
  exists b, g, []. repeat split; [exact Hb|constructor].
Qed.

Lemma foldM_frame {A B} (l : list A) (f : B -> A -> M F B) (g : Globals F) :
  (forall b a, In a l ->
     exists b' ops, f b a g = Some (b', g, ops) /\ Forall drawing ops) ->
  forall b, exists b' ops, foldM f b l g = Some (b', g, ops) /\ Forall drawing ops.
Proof.
  induction l as [|a l IH]; intros Hf b.
  - exists b, []. split; [reflexivity|constructor].
  - cbn [foldM].
    destruct (Hf b a (or_introl eq_refl)) as (b1 & o1 & H1 & F1).
    destruct (IH (fun b' a' Ha' => Hf b' a' (or_intror Ha')) b1) as (b2 & o2 & H2 & F2).
    exists b2, (o1 ++ o2). rewrite (bind_run _ _ _ _ _ _ H1), H2.
    split; [reflexivity|]. apply Forall_app; split; assumption.
Qed.

Lemma drawGraphLine_inv history c color gx gy gw gh gmin range (g : Globals F) :
  RingInv g -> length (history g) = Z.to_nat historySize ->
  exists ops, drawGraphLine history c color gx gy gw gh gmin range g = Some (tt, g, ops) /\
              Forall drawing ops.
Proof.
  intros HR Hlen. unfold drawGraphLine. step.
  match goal with
  | |- context [foldM ?f ?b0 ?l] =>
      assert (Hf : forall b a, In a l ->
                exists b' ops, f b a g = Some (b', g, ops) /\ Forall drawing ops);
      [|destruct (foldM_frame l f g Hf b0) as (b' & ops & Hrun & Hops)]
  end.
  - intros [ppx ppy] i Hi. apply In_upto in Hi.
    rewrite (bind_pure _ _ _ _ (graphSample_inv history c g i HR Hlen Hi)).
    destruct (0 <? i); eexists _, _; (split; [reflexivity|]); repeat constructor.
  - rewrite (bind_run _ _ _ _ _ _ Hrun). cbn. rewrite app_nil_r.
    exists ops. split; [reflexivity|exact Hops].
Qed.

Lemma Draws_drawGraphLine history c color gx gy gw gh gmin range :
  HistoryOf history -> Draws (drawGraphLine history c color gx gy gw gh gmin range).
Proof.
  intros Hh g HR.
  destruct (drawGraphLine_inv history c color gx gy gw gh gmin range g HR (Hh g HR))
    as (ops & Hrun & Hops).
  exists tt, g, ops. repeat split; assumption.
Qed.

Lemma Draws_drawGraphPageStatic title history color unit_ cur c pw :
  HistoryOf history -> Draws (drawGraphPageStatic title history color unit_ cur c pw).
Proof.
  intros Hh. unfold drawGraphPageStatic. draws.
  - apply Draws_graphBounds, Hh.
  - apply Draws_drawGraphLine, Hh.
Qed.

Lemma HistoryOf_temp : HistoryOf (F:=F) tempHistory.
Proof. intros g HR. apply HR. Qed.

Lemma HistoryOf_humidity : HistoryOf (F:=F) humidityHistory.
Proof. intros g HR. apply HR. Qed.

Lemma HistoryOf_pressure : HistoryOf (F:=F) pressureHistory.
Proof. intros g HR. apply HR. Qed.

#[local] Hint Resolve Draws_updateMainPageValues Draws_updateGraphValue
  Draws_drawSettingsPageStatic Draws_drawGraphPageStatic
  HistoryOf_temp HistoryOf_humidity HistoryOf_pressure : draws.

Lemma Draws_render inp now should : Draws (render inp now should).
Proof. unfold render. draws. Qed.


(** *** Key handling *)

Ltac bools :=
  repeat match goal with
  | H : (_ <? _) = true |- _ => apply Z.ltb_lt in H
  | H : (_ <? _) = false |- _ => apply Z.ltb_ge in H
  | H : (_ =? _) = true |- _ => apply Z.eqb_eq in H
  | H : (_ =? _) = false |- _ => apply Z.eqb_neq in H
  | H : (_ <=? _) = true |- _ => apply Z.leb_le in H
  | H : (_ <=? _) = false |- _ => apply Z.leb_gt in H
  end.

Lemma handleKey_spec c (g : Globals F) :
  SettingsInv g ->
  exists g' ops,
    handleKey c g = Some (tt, g', ops) /\
    behindKeys g' = behindKeys g /\ SettingsInv g' /\ Forall setsBrightness ops.
Proof.
  intros (Hsel & Hopt & Hnb). unfold handleKey, SettingsInv.
  repeat first
    [ step
    | match goal with |- context [if ?b then _ else _] => destruct b eqn:? end ];
  (eexists _, _; split; [reflexivity|]; split; [reflexivity|]; bools; cbn;
   split; [lia|];
   repeat (constructor; [eexists; split; [reflexivity|lia]|]); constructor).
Qed.

Lemma handleKeys_spec (l : list ascii) : forall g : Globals F,
  SettingsInv g ->
  exists g' ops,
    forM_ l handleKey g = Some (tt, g', ops) /\
    behindKeys g' = behindKeys g /\ SettingsInv g' /\ Forall setsBrightness ops.
Proof.
  induction l as [|c l IH]; intros g HS; cbn [forM_].
  - exists g, []. repeat split; try apply HS. constructor.
  - destruct (handleKey_spec c g HS) as (g1 & o1 & H1 & E1 & S1 & F1).
    destruct (IH g1 S1) as (g2 & o2 & H2 & E2 & S2 & F2).
    exists g2, (o1 ++ o2). rewrite (bind_run _ _ _ _ _ _ H1), H2.
    split; [reflexivity|]. split; [congruence|]. split; [exact S2|].
    apply Forall_app; split; assumption.
Qed.


Lemma handleKeyboard_spec (inp : Input F) (g : Globals F) :
  SettingsInv g ->
  exists g1 ops1,
    handleKeyboard inp g = Some (tt, g1, ops1) /\
    behindInput g1 = behindInput g /\ SettingsInv g1 /\
    Forall setsBrightness ops1 /\
    screenState g1 = (if keyEvent inp then SCREEN_ON else screenState g) /\
    lastActivityTime g1 =
      (if keyEvent inp then in_millisWake inp else lastActivityTime g) /\
    (screenState g = SCREEN_OFF ->
       ops1 = (if keyEvent inp then [setBrightness (normalBrightness g)] else []) /\
       g1 = (if keyEvent inp
             then set_needsFullRedraw true (set_screenState SCREEN_ON
                    (set_lastActivityTime (in_millisWake inp) g))
             else g)) /\
    (keyEvent inp = false -> g1 = g /\ ops1 = []).
Proof.
  intros HS. rewrite handleKeyboard_run.
  destruct (keyEvent inp).
  - destruct (screenState g) eqn:Hs.
    + destruct (handleKeys_spec (in_word inp) (set_lastActivityTime (in_millisWake inp) g) HS)
        as (g1 & o1 & H1 & E1 & S1 & F1).
      exists g1, o1. split; [exact H1|]. split.
      { unfold behindInput.
        change (behindKeys (set_lastActivityTime 0 (set_screenState SCREEN_ON g1)))
          with (set_lastActivityTime 0 (set_screenState SCREEN_ON (behindKeys g1))).
        rewrite E1. reflexivity. }
      split; [exact S1|]. split; [exact F1|].
      split.
      { change (screenState g1) with (screenState (behindKeys g1)). rewrite E1. exact Hs. }
      split.
      { change (lastActivityTime g1) with (lastActivityTime (behindKeys g1)).
        rewrite E1. reflexivity. }
      split; intros Hoff; discriminate.
    + eexists _, _. split; [reflexivity|]. split; [reflexivity|].
      split; [exact HS|]. split.
      { constructor; [|constructor]. eexists. split; [reflexivity|apply HS]. }
      split; [reflexivity|]. split; [reflexivity|].
      split; [intros _; split; reflexivity|intros Hno; discriminate].
  - exists g, []. split; [reflexivity|]. split; [reflexivity|].
    split; [exact HS|]. split; [constructor|].
    split; [reflexivity|]. split; [reflexivity|].
    split; intros _; split; reflexivity.
Qed.

Lemma updateScreenTimeout_run now (g : Globals F) :
  0 <= screenTimeoutOption g <= 2 ->
  updateScreenTimeout now g =
  if timedOut now g then Some (tt, set_screenState SCREEN_OFF g, [setBrightness 0])
  else Some (tt, g, []).
Proof.
  intros Hopt. unfold updateScreenTimeout, timedOut. step.
  assert (Hd : exists d, aget screenTimeoutValues (screenTimeoutOption g) = Some d).
  { assert (screenTimeoutOption g = 0 \/ screenTimeoutOption g = 1 \/
            screenTimeoutOption g = 2) as [-> | [-> | ->]] by lia; eexists; reflexivity. }
  destruct Hd as [d ->]. cbn [lift]. step.
  destruct (d =? 0); [reflexivity|]. cbn [negb andb]. do 2 step.
  destruct (ScreenState_eqb (screenState g) SCREEN_ON); [|reflexivity].
  cbn [andb]. destruct (d <=? usub now (lastActivityTime g)); reflexivity.
Qed.


(** *** One pass of [loop] *)

Lemma bind_Some {A B} (m : M F A) (k : A -> M F B) g a g1 o1 b g2 o2 :
  m g = Some (a, g1, o1) -> k a g1 = Some (b, g2, o2) ->
  bind m k g = Some (b, g2, o1 ++ o2).
Proof. intros Hm Hk. rewrite (bind_run _ _ _ _ _ _ Hm), Hk. reflexivity. Qed.

Lemma updateScreenTimeout_after now (g : Globals F) :
  0 <= screenTimeoutOption g <= 2 ->
  updateScreenTimeout now g =
  Some (tt, afterTimeout now g, if timedOut now g then [setBrightness 0] else []).
Proof.
  intros Hopt. rewrite updateScreenTimeout_run by exact Hopt.
  unfold afterTimeout. destruct (timedOut now g); reflexivity.
Qed.

Lemma updateHistory_after now (g : Globals F) :
  RingInv g -> updateHistory now g = Some (tt, afterHistory now g, []).
Proof.
  intros HR. rewrite updateHistory_run. unfold afterHistory.
  destruct (_ || _); [|reflexivity].
  apply historyAppend_run. exact HR.
Qed.

Lemma RingInv_afterHistory now (g : Globals F) :
  RingInv g -> RingInv (afterHistory now g) /\ 1 <= historyCount (afterHistory now g).
Proof.
  intros HR. unfold afterHistory.
  destruct (thresholdCrossed now (lastHistoryUpdate g)); cbn [orb].
  - split; [apply RingInv_appendedState|apply historyCount_appendedState]; exact HR.
  - destruct (Z.eqb_spec (historyCount g) 0).
    + split; [apply RingInv_appendedState|apply historyCount_appendedState]; exact HR.
    + split; [exact HR|]. destruct HR as (_ & _ & _ & _ & Hc). lia.
Qed.

Lemma behindInput_RingInv (g g' : Globals F) :
  behindInput g' = behindInput g -> RingInv g -> RingInv g'.
Proof.
  intros E. unfold RingInv.
  change (tempHistory g') with (tempHistory (behindInput g')).
  change (humidityHistory g') with (humidityHistory (behindInput g')).
  change (pressureHistory g') with (pressureHistory (behindInput g')).
  change (historyIndex g') with (historyIndex (behindInput g')).
  change (historyCount g') with (historyCount (behindInput g')).
  rewrite E. exact id.
Qed.

Lemma RingInv_beforeRender inp (g1 : Globals F) :
  RingInv g1 ->
  RingInv (beforeRender inp g1) /\ 1 <= historyCount (beforeRender inp g1).
Proof.
  intros HR. unfold beforeRender. apply RingInv_afterHistory.
  unfold afterTimeout. destruct (timedOut _ g1); exact HR.
Qed.

Lemma settings_beforeRender inp (g1 : Globals F) :
  settingsSelection (beforeRender inp g1) = settingsSelection g1 /\
  screenTimeoutOption (beforeRender inp g1) = screenTimeoutOption g1 /\
  normalBrightness (beforeRender inp g1) = normalBrightness g1.
Proof.
  unfold beforeRender, afterHistory, afterTimeout, appendedState.
  destruct (timedOut _ g1), (_ || _); cbn [withSensors];
    repeat match goal with |- context [if ?b then _ else _] => destruct b end;
    repeat split.
Qed.

Lemma screenState_beforeRender inp (g1 : Globals F) :
  screenState (beforeRender inp g1) =
  if timedOut (in_millisTimeout inp) g1 then SCREEN_OFF else screenState g1.
Proof.
  unfold beforeRender, afterHistory, afterTimeout, appendedState.
  destruct (timedOut _ g1), (_ || _); cbn [withSensors];
    repeat match goal with |- context [if ?b then _ else _] => destruct b end;
    reflexivity.
Qed.

Lemma loop_spec (inp : Input F) (g : Globals F) :
  Inv g ->
  exists g1 ops1 g' ops4,
    handleKeyboard inp g = Some (tt, g1, ops1) /\
    loop inp g =
      Some (tt, g', ops1 ++ (if timedOut (in_millisTimeout inp) g1
                             then [setBrightness 0] else []) ++ ops4) /\
    behindDisplay g' = behindDisplay (beforeRender inp g1) /\
    Forall drawing ops4 /\
    (screenState (beforeRender inp g1) = SCREEN_OFF ->
       g' = beforeRender inp g1 /\ ops4 = []).
Proof.
  intros (HR & Hc & HS).
  destruct (handleKeyboard_spec inp g HS) as (g1 & o1 & Hk & E1 & S1 & _).
  pose proof (behindInput_RingInv _ _ E1 HR) as HR1.
  destruct (RingInv_beforeRender inp g1 HR1) as (HR4 & Hc4).
  assert (HR2 : RingInv (withSensors inp (afterTimeout (in_millisTimeout inp) g1))).
  { unfold afterTimeout. destruct (timedOut _ g1); exact HR1. }
  set (now := in_millisLoop inp).
  set (should := displayInterval <=? usub now (lastDisplayUpdate (beforeRender inp g1))).
  assert (Hloop : forall g' o4,
            (if negb (ScreenState_eqb (screenState (beforeRender inp g1)) SCREEN_OFF)
             then render inp now should else ret tt) (beforeRender inp g1)
            = Some (tt, g', o4) ->
            loop inp g = Some (tt, g', o1 ++ (if timedOut (in_millisTimeout inp) g1
                                              then [setBrightness 0] else []) ++ o4)).
  { intros g' o4 Hr. unfold loop.
    eapply bind_Some; [exact Hk|].
    eapply bind_Some; [apply updateScreenTimeout_after, S1|].
    do 3 step.
    rewrite (bind_silent _ _ _ _ _ (updateHistory_after _ _ HR2)).
    do 2 step. exact Hr. }
  exists g1, o1.
  destruct (screenState (beforeRender inp g1)) eqn:Hs.
  - destruct (Draws_render inp now should _ HR4) as ([] & g' & o4 & Hr & E4 & F4).
    exists g', o4. split; [exact Hk|].
    split; [apply Hloop; try rewrite Hs; exact Hr|].
    split; [exact E4|]. split; [exact F4|]. intros Hoff. discriminate.
  - exists (beforeRender inp g1), []. split; [exact Hk|].
    split; [apply Hloop; try rewrite Hs; reflexivity|].
    split; [reflexivity|]. split; [constructor|]. intros _. split; reflexivity.
Qed.



(** *** The states of an execution *)

Lemma LaysOut_bind {A B} (m : M F A) (k : A -> M F B) :
  LaysOut m -> (forall a, LaysOut (k a)) -> LaysOut (bind m k).
Proof.
  intros Hm Hk g. destruct (Hm g) as (a & g1 & o1 & H1 & E1).
  destruct (Hk a g1) as (b & g2 & o2 & H2 & E2).
  exists b, g2, (o1 ++ o2). rewrite (bind_run _ _ _ _ _ _ H1), H2.
  split; [reflexivity|congruence].
Qed.

Lemma LaysOut_ret {A} (a : A) : LaysOut (F:=F) (ret a).
Proof. intros g. exists a, g, []. split; reflexivity. Qed.

Lemma LaysOut_gets {A} (f : Globals F -> A) : LaysOut (gets f).
Proof. intros g. exists (f g), g, []. split; reflexivity. Qed.

Lemma LaysOut_emit (op : DisplayOp) : LaysOut (F:=F) (emit op).
Proof. intros g. exists tt, g, [op]. split; reflexivity. Qed.

Lemma LaysOut_modify (f : Globals F -> Globals F) :
  (forall g, behindLayout (f g) = behindLayout g) -> LaysOut (modify f).
Proof. intros Hf g. exists tt, (f g), []. split; [reflexivity|apply Hf]. Qed.

Ltac lays_out :=
  repeat lazymatch goal with
  | |- @LaysOut _ _ (bind _ _) => apply LaysOut_bind; [|intros ?]
  | |- @LaysOut _ _ (ret _) => apply LaysOut_ret
  | |- @LaysOut _ _ (gets _) => apply LaysOut_gets
  | |- @LaysOut _ _ (emit _) => apply LaysOut_emit
  | |- @LaysOut _ _ (modify _) => apply LaysOut_modify; intros ?; reflexivity
  | |- @LaysOut _ _ (let _ := _ in _) => cbv zeta
  | |- @LaysOut _ _ (match ?x with _ => _ end) => destruct x
  | |- @LaysOut _ _ (drawCenteredText _ _ _ _) => unfold drawCenteredText
  end.

Lemma LaysOut_setupScreen (su : SetupInput F) : LaysOut (setupScreen su).
Proof. unfold setupScreen. lays_out. Qed.

Lemma setupReadings_run su (g : Globals F) :
  RingInv g -> setupReadings su g = Some (tt, afterSetupReadings su g, []).
Proof.
  intros (Ht & Hh & Hp & _).
  assert (H0 : 0 <= 0 < Z.of_nat (Z.to_nat historySize)) by (unfold historySize; lia).
  unfold setupReadings.
  do 5 step. rewrite aset_in by (cbn; rewrite Ht; exact H0). cbn [lift]. step.
  do 3 step. rewrite aset_in by (cbn; rewrite Hh; exact H0). cbn [lift]. step.
  do 3 step. rewrite aset_in by (cbn; rewrite Hp; exact H0). cbn [lift]. step.
  do 5 step. reflexivity.
Qed.

Lemma RingInv_initial : RingInv (initialGlobals (F:=F)).
Proof.
  unfold RingInv, historySize. cbn. rewrite !length_replicate.
  repeat split; lia.
Qed.

Lemma behindLayout_RingInv (g g' : Globals F) :
  behindLayout g' = behindLayout g -> RingInv g -> RingInv g'.
Proof.
  intros E. unfold RingInv.
  change (tempHistory g') with (tempHistory (behindLayout g')).
  change (humidityHistory g') with (humidityHistory (behindLayout g')).
  change (pressureHistory g') with (pressureHistory (behindLayout g')).
  change (historyIndex g') with (historyIndex (behindLayout g')).
  change (historyCount g') with (historyCount (behindLayout g')).
  rewrite E. exact id.
Qed.

Lemma setup_spec (su : SetupInput F) :
  exists g ops,
    setup su initialGlobals = Some (tt, g, ops) /\
    Inv g /\ historyIndex g = 1 /\ historyCount g = 1 /\
    lastHistoryUpdate g = 0 /\ screenState g = SCREEN_ON.
Proof.
  destruct (LaysOut_setupScreen su initialGlobals) as ([] & g0 & ops & H0 & E0).
  pose proof (behindLayout_RingInv _ _ E0 RingInv_initial) as HR0.
  exists (afterSetupReadings su g0), ops.
  split.
  { unfold setup. rewrite (bind_run _ _ _ _ _ _ H0), (setupReadings_run su g0 HR0).
    rewrite app_nil_r. reflexivity. }
  assert (Hs : settingsSelection g0 = 0 /\ screenTimeoutOption g0 = 2 /\
               normalBrightness g0 = 80 /\ lastHistoryUpdate g0 = 0 /\
               screenState g0 = SCREEN_ON).
  { change (settingsSelection g0) with (settingsSelection (behindLayout g0)).
    change (screenTimeoutOption g0) with (screenTimeoutOption (behindLayout g0)).
    change (normalBrightness g0) with (normalBrightness (behindLayout g0)).
    change (lastHistoryUpdate g0) with (lastHistoryUpdate (behindLayout g0)).
    change (screenState g0) with (screenState (behindLayout g0)).
    rewrite E0. repeat split. }
  destruct Hs as (Hsel & Hopt & Hnb & Hlu & Hst).
  destruct HR0 as (Ht & Hh & Hp & _).
  unfold Inv, RingInv, SettingsInv, afterSetupReadings.
  cbn [historyIndex historyCount lastHistoryUpdate screenState tempHistory
    humidityHistory pressureHistory settingsSelection screenTimeoutOption normalBrightness
    set_needsFullRedraw set_lastDisplayUpdate set_lastActivityTime set_historyIndex
    set_historyCount set_pressureHistory set_humidityHistory set_tempHistory set_pressure
    set_humidity set_temperature].
  rewrite !length_insert, Ht, Hh, Hp, Hsel, Hopt, Hnb, Hlu, Hst.
  unfold historySize. repeat split; lia.
Qed.


Lemma behindDisplay_fields (g g' : Globals F) :
  behindDisplay g' = behindDisplay g ->
  screenState g' = screenState g /\
  settingsSelection g' = settingsSelection g /\
  screenTimeoutOption g' = screenTimeoutOption g /\
  normalBrightness g' = normalBrightness g /\
  lastHistoryUpdate g' = lastHistoryUpdate g /\
  historyIndex g' = historyIndex g /\
  historyCount g' = historyCount g /\
  tempHistory g' = tempHistory g /\
  humidityHistory g' = humidityHistory g /\
  pressureHistory g' = pressureHistory g /\
  temperature g' = temperature g /\
  humidity g' = humidity g /\
  pressure g' = pressure g /\
  currentPage g' = currentPage g.
Proof.
  intros E.
  repeat split;
    [ exact (f_equal screenState E) | exact (f_equal settingsSelection E)
    | exact (f_equal screenTimeoutOption E) | exact (f_equal normalBrightness E)
    | exact (f_equal lastHistoryUpdate E) | exact (f_equal historyIndex E)
    | exact (f_equal historyCount E) | exact (f_equal tempHistory E)
    | exact (f_equal humidityHistory E) | exact (f_equal pressureHistory E)
    | exact (f_equal temperature E) | exact (f_equal humidity E)
    | exact (f_equal pressure E) | exact (f_equal currentPage E) ].
Qed.

Lemma behindInput_fields (g g' : Globals F) :
  behindInput g' = behindInput g ->
  lastHistoryUpdate g' = lastHistoryUpdate g /\
  historyIndex g' = historyIndex g /\
  historyCount g' = historyCount g /\
  tempHistory g' = tempHistory g /\
  humidityHistory g' = humidityHistory g /\
  pressureHistory g' = pressureHistory g.
Proof.
  intros E.
  repeat split;
    [ exact (f_equal lastHistoryUpdate E) | exact (f_equal historyIndex E)
    | exact (f_equal historyCount E) | exact (f_equal tempHistory E)
    | exact (f_equal humidityHistory E) | exact (f_equal pressureHistory E) ].
Qed.

Lemma Inv_loop (inp : Input F) (g g' : Globals F) ops :
  Inv g -> loop inp g = Some (tt, g', ops) -> Inv g'.
Proof.
  intros HI Hl. pose proof HI as (HR & Hc & HS).
  destruct (loop_spec inp g HI) as (g1 & o1 & g'' & o4 & Hk & Hl' & E & _).
  rewrite Hl' in Hl. injection Hl as <- _.
  destruct (handleKeyboard_spec inp g HS) as (g1' & o1' & Hk' & E1 & S1 & _).
  rewrite Hk in Hk'. injection Hk' as <- <-.
  pose proof (behindInput_RingInv _ _ E1 HR) as HR1.
  destruct (RingInv_beforeRender inp g1 HR1) as (HR4 & Hc4).
  destruct (settings_beforeRender inp g1) as (Es & Eo & Eb).
  destruct (behindDisplay_fields _ _ E) as (_ & Fs & Fo & Fb & _ & _ & Fc & _).
  split; [eapply behindDisplay_RingInv; eassumption|]. split.
  - rewrite Fc. exact Hc4.
  - unfold SettingsInv. rewrite Fs, Fo, Fb, Es, Eo, Eb. exact S1.
Qed.

Lemma reachable_Inv (g : Globals F) : reachable g -> Inv g.
Proof.
  induction 1 as [su g ops Hs|inp g g' ops _ IH Hl].
  - destruct (setup_spec su) as (g0 & o0 & Hs0 & HI & _).
    rewrite Hs0 in Hs. injection Hs as <- _. exact HI.
  - eapply Inv_loop; eassumption.
Qed.


Lemma timedOut_always_on now (g : Globals F) :
  screenTimeoutOption g = 2 -> timedOut now g = false.
Proof. intros Ho. unfold timedOut. rewrite Ho. reflexivity. Qed.

Lemma timedOut_screen_off now (g : Globals F) :
  screenState g = SCREEN_OFF -> timedOut now g = false.
Proof.
  intros Hs. unfold timedOut. rewrite Hs.
  destruct (aget _ _) as [d|]; [|reflexivity].
  destruct (d =? 0); reflexivity.
Qed.

Lemma setsBrightness_not_zero ops :
  Forall setsBrightness ops -> ~ In (setBrightness 0) ops.
Proof.
  intros Hf Hin. rewrite List.Forall_forall in Hf.
  destruct (Hf _ Hin) as (b & Hb & Hr). injection Hb as <-. lia.
Qed.

Lemma drawing_not_brightness ops b :
  Forall drawing ops -> ~ In (setBrightness b) ops.
Proof.
  intros Hf Hin. rewrite List.Forall_forall in Hf.
  specialize (Hf _ Hin). discriminate.
Qed.

Lemma timedOut_recent now (g : Globals F) :
  0 <= screenTimeoutOption g <= 2 ->
  usub now (lastActivityTime g) < 10000 -> timedOut now g = false.
Proof.
  intros Ho Hu. unfold timedOut.
  assert (screenTimeoutOption g = 0 \/ screenTimeoutOption g = 1 \/
          screenTimeoutOption g = 2) as [-> | [-> | ->]] by lia;
    cbn [aget screenTimeoutValues length Z.of_nat]; cbn -[usub ScreenState_eqb Z.leb];
    try reflexivity;
    destruct (ScreenState_eqb _ _); cbn [andb]; try reflexivity;
    apply Z.leb_gt; lia.
Qed.

(** C6. While the option in force is Always-On the timeout check changes
    nothing.  In every pass of [loop] of every execution: if the option
    that the timeout check of the pass sees is Always-On, then the screen
    state after the pass is On when a key event arrived and is otherwise
    the state before the pass, so a screen that was on is still on, and
    brightness is never set to 0; and if the option is Always-On when the
    pass starts (the clock advancing by less than 10 s inside the pass), a
    screen that was on is still on after it, whatever keys are pressed. *)
Theorem always_on_never_turns_off (inp : Input F) (g : Globals F) :
  reachable g ->
  (forall now (g0 : Globals F), screenTimeoutOption g0 = 2 ->
     updateScreenTimeout now g0 = Some (tt, g0, [])) /\
  exists g' ops,
    loop inp g = Some (tt, g', ops) /\
    (screenTimeoutOption g' = 2 ->
       screenState g' = (if keyEvent inp then SCREEN_ON else screenState g) /\
       (screenState g = SCREEN_ON -> screenState g' = SCREEN_ON) /\
       ~ In (setBrightness 0) ops) /\
    (screenTimeoutOption g = 2 ->
     usub (in_millisTimeout inp) (in_millisWake inp) < 10000 ->
     screenState g = SCREEN_ON -> screenState g' = SCREEN_ON).
Proof.
  intros Hreach. split.
  { intros now g0 Ho. rewrite updateScreenTimeout_run by lia.
    rewrite (timedOut_always_on now g0 Ho). reflexivity. }
  pose proof (reachable_Inv g Hreach) as HI. pose proof HI as (_ & _ & HS).
  destruct (loop_spec inp g HI) as (g1 & o1 & g' & o4 & Hk & Hl & E & F4 & _).
  destruct (handleKeyboard_spec inp g HS)
    as (g1' & o1' & Hk' & _ & S1 & F1 & Hst & Hla & _ & Hno).
  rewrite Hk in Hk'. injection Hk' as <- <-.
  exists g'. eexists. split; [exact Hl|].
  destruct (behindDisplay_fields _ _ E) as (Es & _ & Eo & _).
  destruct (settings_beforeRender inp g1) as (_ & Eo1 & _).
  rewrite Es, screenState_beforeRender, Hst. split.
  - intros Ho. rewrite Eo, Eo1 in Ho.
    rewrite (timedOut_always_on _ g1 Ho).
    split; [reflexivity|]. split.
    + intros ->. destruct (keyEvent inp); reflexivity.
    + cbn [app]. intros Hin. apply in_app_or in Hin as [Hin|Hin].
      * exact (setsBrightness_not_zero _ F1 Hin).
      * exact (drawing_not_brightness _ _ F4 Hin).
  - intros Ho Hu Hon. destruct (keyEvent inp) eqn:Hkey.
    + rewrite (timedOut_recent _ g1); [reflexivity|apply S1|rewrite Hla; exact Hu].
    + destruct (Hno eq_refl) as (-> & _).
      rewrite (timedOut_always_on _ g Ho). exact Hon.
Qed.

(** C7. In every pass of [loop] of every execution: if the screen state
    is Off when the pass decides whether to draw (it is then also Off after
    the pass), every display operation of the pass is a [setBrightness] and
    nothing was drawn; a pass that starts with the screen off and receives
    no key event issues no display operation at all and leaves the screen
    off; and in a pass that starts with the screen off and receives a key
    event the wake transition issues [setBrightness normalBrightness]
    first, and every later operation is a drawing operation or the
    [setBrightness 0] of the timeout. *)
Theorem no_drawing_while_screen_off (inp : Input F) (g : Globals F) :
  reachable g ->
  exists g' ops,
    loop inp g = Some (tt, g', ops) /\
    (screenState g' = SCREEN_OFF -> Forall (fun op => is_setBrightness op = true) ops) /\
    (screenState g = SCREEN_OFF -> keyEvent inp = false ->
       screenState g' = SCREEN_OFF /\ ops = []) /\
    (screenState g = SCREEN_OFF -> keyEvent inp = true ->
       exists rest,
         ops = setBrightness (normalBrightness g) :: rest /\
         Forall (fun op => drawing op \/ op = setBrightness 0) rest).
Proof.
  intros Hreach.
  pose proof (reachable_Inv g Hreach) as HI. pose proof HI as (_ & _ & HS).
  destruct (loop_spec inp g HI) as (g1 & o1 & g' & o4 & Hk & Hl & E & F4 & Hoff).
  destruct (handleKeyboard_spec inp g HS)
    as (g1' & o1' & Hk' & _ & _ & F1 & Hst & _ & Hwake & _).
  rewrite Hk in Hk'. injection Hk' as <- <-.
  destruct (behindDisplay_fields _ _ E) as (Es & _).
  exists g'. eexists. split; [exact Hl|]. split; [|split].
  - intros Hs. rewrite Es in Hs. destruct (Hoff Hs) as (_ & ->).
    rewrite app_nil_r. apply Forall_app. split.
    + eapply Forall_impl; [exact F1|]. intros op (b & -> & _). reflexivity.
    + destruct (timedOut _ g1); repeat constructor.
  - intros Hs Hkey. destruct (Hwake Hs) as (-> & ->). rewrite Hkey in *.
    rewrite (timedOut_screen_off _ g Hs) in *.
    rewrite screenState_beforeRender, (timedOut_screen_off _ g Hs) in Hoff, Es.
    destruct (Hoff Hs) as (_ & ->). split; [congruence|reflexivity].
  - intros Hs Hkey. destruct (Hwake Hs) as (-> & _). rewrite Hkey.
    eexists. split; [reflexivity|]. apply Forall_app. split.
    + destruct (timedOut _ g1); [constructor; [right; reflexivity|]|]; constructor.
    + eapply Forall_impl; [exact F4|]. intros op Hop. left. exact Hop.
Qed.

Lemma loop_history (inp : Input F) (g g' : Globals F) ops :
  Inv g -> loop inp g = Some (tt, g', ops) ->
  temperature g' = in_cTemp inp /\
  humidity g' = in_humidity inp /\
  pressure g' = fdiv (in_qmpPressure inp) (flit 100) /\
  let appended := appendedState (withReadings (readingOf inp) g) in
  if thresholdCrossed (in_millisHistory inp) (lastHistoryUpdate g) then
    lastHistoryUpdate g' = in_millisHistory inp /\
    tempHistory g' = tempHistory appended /\
    humidityHistory g' = humidityHistory appended /\
    pressureHistory g' = pressureHistory appended /\
    historyIndex g' = historyIndex appended /\
    historyCount g' = historyCount appended
  else
    lastHistoryUpdate g' = lastHistoryUpdate g /\
    tempHistory g' = tempHistory g /\
    humidityHistory g' = humidityHistory g /\
    pressureHistory g' = pressureHistory g /\
    historyIndex g' = historyIndex g /\
    historyCount g' = historyCount g.
Proof.
  intros HI Hloop. pose proof HI as (HR & Hc & HS).
  destruct (loop_spec inp g HI) as (g1 & o1 & g'' & o4 & Hk & Hl & E & _).
  rewrite Hl in Hloop. injection Hloop as <- _.
  destruct (handleKeyboard_spec inp g HS) as (g1' & o1' & Hk' & E1 & _).
  rewrite Hk in Hk'. injection Hk' as <- <-.
  destruct (behindInput_fields _ _ E1) as (Elu & Ei & Ec & Et & Eh & Ep).
  destruct (behindDisplay_fields _ _ E)
    as (_ & _ & _ & _ & -> & -> & -> & -> & -> & -> & -> & -> & -> & _).
  unfold beforeRender, afterHistory.
  set (g2 := afterTimeout (in_millisTimeout inp) g1).
  assert (E2 : lastHistoryUpdate g2 = lastHistoryUpdate g /\
               historyIndex g2 = historyIndex g /\ historyCount g2 = historyCount g /\
               tempHistory g2 = tempHistory g /\ humidityHistory g2 = humidityHistory g /\
               pressureHistory g2 = pressureHistory g).
  { subst g2. unfold afterTimeout. destruct (timedOut _ g1);
      cbn; rewrite ?Elu, ?Ei, ?Ec, ?Et, ?Eh, ?Ep; repeat split. }
  destruct E2 as (Elu2 & Ei2 & Ec2 & Et2 & Eh2 & Ep2).
  change (lastHistoryUpdate (withSensors inp g2)) with (lastHistoryUpdate g2).
  change (historyCount (withSensors inp g2)) with (historyCount g2).
  rewrite Elu2, Ec2.
  destruct (Z.eqb_spec (historyCount g) 0) as [Hz|_]; [lia|]. rewrite orb_false_r.
  destruct (thresholdCrossed _ _).
  - destruct (appendedState_fields
                (set_lastHistoryUpdate (in_millisHistory inp) (withSensors inp g2)))
      as (Ft & Fh & Fp & Fi & Fc).
    destruct (appendedState_fields (withReadings (readingOf inp) g))
      as (Gt & Gh & Gp & Gi & Gc).
    cbv zeta. rewrite Ft, Fh, Fp, Fi, Fc, Gt, Gh, Gp, Gi, Gc.
    cbn. rewrite Ei2, Ec2, Et2, Eh2, Ep2.
    unfold appendedState. destruct (historyCount _ <? historySize); repeat split.
  - cbn. rewrite Elu2, Ei2, Ec2, Et2, Eh2, Ep2. repeat split.
Qed.


(** C9. In every execution, after [handleKeyboard] the settings cursor and
    the timeout option are both in 0..2 (and brightness in 20..100), so the
    timeout option indexes the 3-element table [screenTimeoutValues] inside
    its bounds and the timeout check that follows returns. *)
Theorem settings_indices_stay_in_range (inp : Input F) (now : Z) (g : Globals F) :
  reachable g ->
  exists g1 ops1,
    handleKeyboard inp g = Some (tt, g1, ops1) /\
    0 <= settingsSelection g1 <= 2 /\
    0 <= screenTimeoutOption g1 <= 2 /\
    20 <= normalBrightness g1 <= 100 /\
    0 <= screenTimeoutOption g1 < Z.of_nat (length screenTimeoutValues) /\
    is_Some (aget screenTimeoutValues (screenTimeoutOption g1)) /\
    exists g2 ops2, updateScreenTimeout now g1 = Some (tt, g2, ops2).
Proof.
  intros Hreach.
  pose proof (reachable_Inv g Hreach) as (_ & _ & HS).
  destruct (handleKeyboard_spec inp g HS) as (g1 & o1 & Hk & _ & (Hs & Ho & Hb) & _).
  exists g1, o1. split; [exact Hk|]. do 3 (split; [assumption|]).
  split; [cbn; lia|]. split.
  - assert (screenTimeoutOption g1 = 0 \/ screenTimeoutOption g1 = 1 \/
            screenTimeoutOption g1 = 2) as [-> | [-> | ->]] by lia; eexists; reflexivity.
  - rewrite updateScreenTimeout_after by exact Ho. eexists _, _. reflexivity.
Qed.

(** *** The history of an execution *)

Lemma Holds_ext ws (g g' : Globals F) :
  tempHistory g' = tempHistory g -> humidityHistory g' = humidityHistory g ->
  pressureHistory g' = pressureHistory g -> historyIndex g' = historyIndex g ->
  historyCount g' = historyCount g -> Holds ws g -> Holds ws g'.
Proof. unfold Holds. intros -> -> -> -> ->. exact id. Qed.

Lemma Recorded_reachable ws ts (g : Globals F) : Recorded ws ts g -> reachable g.
Proof.
  induction 1 as [su g ops Hs|inp g g' ops ws ts _ IH Hl].
  - eapply reach_setup. exact Hs.
  - eapply reach_loop; eassumption.
Qed.

Lemma setup_Holds su (g : Globals F) ops :
  setup su initialGlobals = Some (tt, g, ops) -> Holds [firstReading su] g.
Proof.
  intros Hs.
  destruct (LaysOut_setupScreen su initialGlobals) as ([] & g0 & o0 & H0 & E0).
  pose proof (behindLayout_RingInv _ _ E0 RingInv_initial) as HR0.
  unfold setup in Hs.
  rewrite (bind_run _ _ _ _ _ _ H0), (setupReadings_run su g0 HR0) in Hs.
  injection Hs as <- _.
  assert (Hh : tempHistory g0 = replicate (Z.to_nat historySize) (flit 0) /\
               humidityHistory g0 = replicate (Z.to_nat historySize) (flit 0) /\
               pressureHistory g0 = replicate (Z.to_nat historySize) (flit 0)).
  { repeat split;
      [ exact (f_equal tempHistory E0) | exact (f_equal humidityHistory E0)
      | exact (f_equal pressureHistory E0) ]. }
  destruct Hh as (Et & Eh & Ep).
  unfold Holds, afterSetupReadings.
  cbn [historyIndex historyCount tempHistory humidityHistory pressureHistory
    set_needsFullRedraw set_lastDisplayUpdate set_lastActivityTime set_historyIndex
    set_historyCount set_pressureHistory set_humidityHistory set_tempHistory set_pressure
    set_humidity set_temperature map firstReading s_temp s_humidity s_pressure].
  rewrite Et, Eh, Ep.
  repeat split; try apply (Stores_append [] _ 0 0 _ (Stores_nil _)).
Qed.

(** The buffers hold exactly the log of the execution. *)
Lemma Recorded_Holds ws ts (g : Globals F) : Recorded ws ts g -> Holds ws g.
Proof.
  induction 1 as [su g ops Hs|inp g g' ops ws ts Hrec IH Hl].
  - eapply setup_Holds. exact Hs.
  - pose proof (reachable_Inv g (Recorded_reachable _ _ _ Hrec)) as HI.
    destruct (loop_history inp g g' ops HI Hl) as (_ & _ & _ & Hhist).
    cbv zeta in Hhist. destruct (thresholdCrossed _ _).
    + destruct Hhist as (_ & Et & Eh & Ep & Ei & Ec).
      eapply Holds_ext; [exact Et|exact Eh|exact Ep|exact Ei|exact Ec|].
      apply Holds_feed. exact IH.
    + destruct Hhist as (_ & Et & Eh & Ep & Ei & Ec).
      eapply Holds_ext; [exact Et|exact Eh|exact Ep|exact Ei|exact Ec|exact IH].
Qed.

(** In any execution the graph of a metric reads the last 60 logged
    readings, oldest first. *)
Lemma Recorded_readOrdered ws ts (g : Globals F) :
  Recorded ws ts g ->
  readOrdered tempHistory false g = Some (lastN 60 (map s_temp ws), g, []) /\
  readOrdered humidityHistory false g = Some (lastN 60 (map s_humidity ws), g, []) /\
  readOrdered pressureHistory false g = Some (lastN 60 (map s_pressure ws), g, []).
Proof.
  intros Hrec. destruct (Recorded_Holds _ _ _ Hrec) as (Ht & Hh & Hp).
  rewrite (readOrdered_Stores _ false _ _ Ht), (readOrdered_Stores _ false _ _ Hh),
    (readOrdered_Stores _ false _ _ Hp).
  unfold convert. rewrite !map_id. repeat split.
Qed.

(** In any execution [lastHistoryUpdate] is the time of the last append
    made by [loop] (0 before the first), and the times of consecutive
    appends, the first one counted from 0, are at least [historyInterval]
    apart. *)
Lemma Recorded_Spaced ws ts (g : Globals F) :
  Recorded ws ts g ->
  lastHistoryUpdate g = default 0 (last (0 :: ts)) /\ Spaced (0 :: ts) /\
  length ws = S (length ts).
Proof.
  induction 1 as [su g ops Hs|inp g g' ops ws ts Hrec (IHl & IHs & IHn) Hl].
  - destruct (setup_spec su) as (g0 & o0 & Hs0 & _ & _ & _ & Hlu & _).
    rewrite Hs0 in Hs. injection Hs as <- _.
    split; [exact Hlu|]. split; [|reflexivity].
    intros i a b Ha Hb. destruct i; discriminate.
  - pose proof (reachable_Inv g (Recorded_reachable _ _ _ Hrec)) as HI.
    destruct (loop_history inp g g' ops HI Hl) as (_ & _ & _ & Hhist).
    cbv zeta in Hhist.
    destruct (thresholdCrossed _ _) eqn:Hth.
    + destruct Hhist as (-> & _). split; [|split].
      * change (0 :: ts ++ [in_millisHistory inp])
          with ((0 :: ts) ++ [in_millisHistory inp]).
        rewrite last_snoc. reflexivity.
      * intros i a b Ha Hb.
        change (0 :: ts ++ [in_millisHistory inp])
          with ((0 :: ts) ++ [in_millisHistory inp]) in Ha, Hb.
        destruct (decide (S i < S (length ts))%nat) as [Hlt|Hge].
        -- rewrite lookup_app_l in Ha by (cbn; lia).
           rewrite lookup_app_l in Hb by (cbn; lia).
           exact (IHs i a b Ha Hb).
        -- assert (Hi : S i = length (0 :: ts)).
           { apply lookup_lt_Some in Hb. rewrite length_app in Hb. cbn in Hb |- *.
             lia. }
           rewrite lookup_app_r in Hb by lia. rewrite Hi, Nat.sub_diag in Hb.
           injection Hb as <-.
           rewrite lookup_app_l in Ha by lia.
           assert (Hlast : last (0 :: ts) = Some a).
           { rewrite last_lookup. rewrite <- Hi. exact Ha. }
           rewrite Hlast in IHl. cbn in IHl. rewrite <- IHl.
           unfold thresholdCrossed in Hth. apply Z.leb_le in Hth. exact Hth.
      * rewrite !length_app. cbn. lia.
    + destruct Hhist as (-> & _). repeat split; assumption.
Qed.

Lemma reachable_Recorded (g : Globals F) :
  reachable g -> exists ws ts, Recorded ws ts g.
Proof.
  induction 1 as [su g ops Hs|inp g g' ops _ (ws & ts & IH) Hl].
  - eexists _, _. eapply rec_setup. exact Hs.
  - eexists _, _. eapply rec_pass; eassumption.
Qed.

(** C8. In every execution the history has a log: the readings stored,
    oldest first, which the ordered read returns (its last 60), and the
    times at which passes of [loop] stored one; consecutive times, the
    first counted from 0, are at least 60000 ms apart on the clock, and
    [lastHistoryUpdate] is the last of them.  In every pass the three
    sensors are read, and the history is appended to exactly when the
    threshold has been crossed since [lastHistoryUpdate]: then the readings
    of the pass are stored at the cursor and [lastHistoryUpdate] becomes
    the time of the pass; otherwise the history arrays, the cursor, the
    count and [lastHistoryUpdate] are unchanged. *)
Theorem history_append_gated_by_time (inp : Input F) (g : Globals F) :
  reachable g ->
  (exists ws ts,
     Recorded ws ts g /\
     Spaced (0 :: ts) /\
     lastHistoryUpdate g = default 0 (last (0 :: ts)) /\
     length ws = S (length ts) /\
     readOrdered tempHistory false g = Some (lastN 60 (map s_temp ws), g, [])) /\
  exists g' ops,
    loop inp g = Some (tt, g', ops) /\
    temperature g' = in_cTemp inp /\
    humidity g' = in_humidity inp /\
    pressure g' = fdiv (in_qmpPressure inp) (flit 100) /\
    if thresholdCrossed (in_millisHistory inp) (lastHistoryUpdate g) then
      lastHistoryUpdate g' = in_millisHistory inp /\
      tempHistory g' = <[Z.to_nat (historyIndex g) := in_cTemp inp]> (tempHistory g) /\
      humidityHistory g' =
        <[Z.to_nat (historyIndex g) := in_humidity inp]> (humidityHistory g) /\
      pressureHistory g' =
        <[Z.to_nat (historyIndex g) := fdiv (in_qmpPressure inp) (flit 100)]>
          (pressureHistory g) /\
      historyIndex g' = (historyIndex g + 1) mod historySize /\
      historyCount g' = Z.min (historyCount g + 1) historySize
    else
      lastHistoryUpdate g' = lastHistoryUpdate g /\
      tempHistory g' = tempHistory g /\
      humidityHistory g' = humidityHistory g /\
      pressureHistory g' = pressureHistory g /\
      historyIndex g' = historyIndex g /\
      historyCount g' = historyCount g.
Proof.
  intros Hreach. split.
  { destruct (reachable_Recorded g Hreach) as (ws & ts & Hrec).
    exists ws, ts. split; [exact Hrec|].
    destruct (Recorded_Spaced _ _ _ Hrec) as (Hlu & Hsp & Hn).
    do 3 (split; [assumption|]).
    apply (Recorded_readOrdered _ _ _ Hrec). }
  pose proof (reachable_Inv g Hreach) as HI. pose proof HI as (HR & Hc & _).
  destruct (loop_spec inp g HI) as (g1 & o1 & g' & o4 & _ & Hl & _).
  exists g'. eexists. split; [exact Hl|].
  destruct (loop_history inp g g' _ HI Hl) as (Ht & Hh & Hp & Hhist).
  do 3 (split; [assumption|]). cbv zeta in Hhist.
  destruct (thresholdCrossed _ _); [|exact Hhist].
  destruct (appendedState_fields (withReadings (readingOf inp) g))
    as (Gt & Gh & Gp & Gi & Gc).
  rewrite Gt, Gh, Gp, Gi, Gc in Hhist. cbn in Hhist.
  destruct Hhist as (-> & -> & -> & -> & -> & ->).
  destruct HR as (_ & _ & _ & Hi & Hcnt). unfold historySize in *.
  do 4 (split; [reflexivity|]).
  split; [apply Z.rem_mod_nonneg; lia|].
  destruct (Z.ltb_spec (historyCount g) 60); lia.
Qed.


(* ================================================================== *)
(** ** Further properties of the code *)

(** *** Running a computation against a postcondition *)

Lemma wp_ret {A} (a : A) (Q : A -> Globals F -> list DisplayOp -> Prop) g :
  Q a g [] -> wp (ret a) Q g.
Proof. intros HQ. exists a, g, []. split; [reflexivity|exact HQ]. Qed.

Lemma wp_gets {A} (f : Globals F -> A) (Q : A -> Globals F -> list DisplayOp -> Prop) g :
  Q (f g) g [] -> wp (gets f) Q g.
Proof. intros HQ. exists (f g), g, []. split; [reflexivity|exact HQ]. Qed.

Lemma wp_modify (f : Globals F -> Globals F) (Q : unit -> Globals F -> list DisplayOp -> Prop) g :
  Q tt (f g) [] -> wp (modify f) Q g.
Proof. intros HQ. exists tt, (f g), []. split; [reflexivity|exact HQ]. Qed.

Lemma wp_emit (op : DisplayOp) (Q : unit -> Globals F -> list DisplayOp -> Prop) g :
  Q tt g [op] -> wp (emit op) Q g.
Proof. intros HQ. exists tt, g, [op]. split; [reflexivity|exact HQ]. Qed.

Lemma wp_bind {A B} (m : M F A) (k : A -> M F B)
    (Q : B -> Globals F -> list DisplayOp -> Prop) g :
  wp m (fun a g1 o1 => wp (k a) (fun b g2 o2 => Q b g2 (o1 ++ o2)) g1) g ->
  wp (bind m k) Q g.
Proof.
  intros (a & g1 & o1 & Hm & b & g2 & o2 & Hk & HQ).
  exists b, g2, (o1 ++ o2). split; [|exact HQ].
  rewrite (bind_run _ _ _ _ _ _ Hm), Hk. reflexivity.
Qed.

Lemma wp_mono {A} (m : M F A) (Q Q' : A -> Globals F -> list DisplayOp -> Prop) g :
  wp m Q g -> (forall a g' ops, Q a g' ops -> Q' a g' ops) -> wp m Q' g.
Proof. intros (a & g' & ops & Hm & HQ) Himp. exists a, g', ops. auto. Qed.

Lemma wp_result {A} (m : M F A) (Q : A -> Globals F -> list DisplayOp -> Prop) g a g' ops :
  m g = Some (a, g', ops) -> Q a g' ops -> wp m Q g.
Proof. intros Hm HQ. exists a, g', ops. split; assumption. Qed.

Ltac wp_step :=
  lazymatch goal with
  | |- @wp _ _ (bind _ _) _ _ => apply wp_bind
  | |- @wp _ _ (ret _) _ _ => apply wp_ret
  | |- @wp _ _ (gets _) _ _ => apply wp_gets
  | |- @wp _ _ (modify _) _ _ => apply wp_modify
  | |- @wp _ _ (emit _) _ _ => apply wp_emit
  | |- @wp _ _ (let _ := _ in _) _ _ => cbv zeta
  end; cbv beta.


(** *** Navigation *)

Lemma handleKey_NavInv c (g : Globals F) :
  NavInv g -> exists g' ops, handleKey c g = Some (tt, g', ops) /\ NavInv g'.
Proof.
  intros (Hp & Hb). unfold handleKey, NavInv. cbn [In] in *.
  repeat first
    [ step
    | match goal with |- context [if ?b then _ else _] => destruct b eqn:? end ];
  (eexists _, _; split; [reflexivity|]; bools; cbn; lia).
Qed.

Lemma handleKeys_NavInv (l : list ascii) : forall g : Globals F,
  NavInv g -> exists g' ops, forM_ l handleKey g = Some (tt, g', ops) /\ NavInv g'.
Proof.
  induction l as [|c l IH]; intros g HN; cbn [forM_].
  - exists g, []. split; [reflexivity|exact HN].
  - destruct (handleKey_NavInv c g HN) as (g1 & o1 & H1 & N1).
    destruct (IH g1 N1) as (g2 & o2 & H2 & N2).
    exists g2, (o1 ++ o2). split; [|exact N2]. eapply bind_Some; eassumption.
Qed.

Lemma handleKeyboard_NavInv (inp : Input F) (g g1 : Globals F) o1 :
  NavInv g -> handleKeyboard inp g = Some (tt, g1, o1) -> NavInv g1.
Proof.
  intros HN. rewrite handleKeyboard_run.
  destruct (keyEvent inp); [|intros [= <- _]; exact HN].
  destruct (screenState g).
  - destruct (handleKeys_NavInv (in_word inp) (set_lastActivityTime (in_millisWake inp) g) HN)
      as (g2 & o2 & H2 & N2).
    rewrite H2. intros [= <- _]. exact N2.
  - intros [= <- _]. exact HN.
Qed.

Lemma navigation_beforeRender inp (g1 : Globals F) :
  currentPage (beforeRender inp g1) = currentPage g1 /\
  needsFullRedraw (beforeRender inp g1) = needsFullRedraw g1 /\
  lastDisplayUpdate (beforeRender inp g1) = lastDisplayUpdate g1.
Proof.
  unfold beforeRender, afterHistory, afterTimeout, appendedState.
  destruct (timedOut _ g1), (_ || _); cbn [withSensors];
    repeat match goal with |- context [if ?b then _ else _] => destruct b end;
    repeat split.
Qed.

Lemma NavInv_loop (inp : Input F) (g g' : Globals F) ops :
  Inv g -> NavInv g -> loop inp g = Some (tt, g', ops) -> NavInv g'.
Proof.
  intros HI HN Hl.
  destruct (loop_spec inp g HI) as (g1 & o1 & g'' & o4 & Hk & Hl' & E & _).
  rewrite Hl' in Hl. injection Hl as <- _.
  pose proof (handleKeyboard_NavInv inp g g1 o1 HN Hk) as (Hp & Hb).
  destruct (behindDisplay_fields _ _ E)
    as (_ & _ & _ & Fb & _ & _ & _ & _ & _ & _ & _ & _ & _ & Fp).
  destruct (settings_beforeRender inp g1) as (_ & _ & Eb).
  destruct (navigation_beforeRender inp g1) as (Ep & _).
  unfold NavInv. rewrite Fb, Fp, Eb, Ep. split; assumption.
Qed.

Lemma setup_NavInv (su : SetupInput F) (g : Globals F) ops :
  setup su initialGlobals = Some (tt, g, ops) ->
  currentPage g = 0 /\ normalBrightness g = 80.
Proof.
  intros Hs.
  destruct (LaysOut_setupScreen su initialGlobals) as ([] & g0 & o0 & H0 & E0).
  pose proof (behindLayout_RingInv _ _ E0 RingInv_initial) as HR0.
  unfold setup in Hs.
  rewrite (bind_run _ _ _ _ _ _ H0), (setupReadings_run su g0 HR0) in Hs.
  injection Hs as <- _.
  split; [exact (f_equal currentPage E0)|exact (f_equal normalBrightness E0)].
Qed.

Lemma reachable_NavInv (g : Globals F) : reachable g -> NavInv g.
Proof.
  induction 1 as [su g ops Hs|inp g g' ops Hreach IH Hl].
  - destruct (setup_NavInv su g ops Hs) as (Hp & Hb).
    unfold NavInv. rewrite Hp, Hb. cbn. lia.
  - eapply NavInv_loop; [apply reachable_Inv| |]; eassumption.
Qed.

(** X2. In every state an execution can reach, [currentPage] is one of the
    five pages 0..4, so the [switch] of [loop] always meets one of its
    cases, and [normalBrightness] is one of the five levels 20, 40, 60, 80
    and 100. *)
Theorem page_and_brightness_stay_valid (g : Globals F) :
  reachable g ->
  0 <= currentPage g <= 4 /\ In (normalBrightness g) [20; 40; 60; 80; 100].
Proof.
  induction 1 as [su g ops Hs|inp g g' ops Hreach IH Hl].
  - destruct (setup_NavInv su g ops Hs) as (Hp & Hb). rewrite Hp, Hb. cbn. lia.
  - exact (NavInv_loop inp g g' ops (reachable_Inv g Hreach) IH Hl).
Qed.

(** X3. What one key does to the navigation.  The page changes only from
    the main page or to it, and every change of page requests a full
    redraw.  The escape keys lead to the main page from any other page and
    do nothing at all on the main page.  On the graph pages (and on any
    page other than the main page and the settings) every other key is
    ignored.  Outside the settings page no key changes a setting or touches
    the backlight. *)
Theorem navigation_is_star_shaped (c : ascii) (g : Globals F) :
  exists g' ops,
    handleKey c g = Some (tt, g', ops) /\
    (currentPage g' <> currentPage g -> currentPage g = 0 \/ currentPage g' = 0) /\
    (currentPage g' <> currentPage g -> needsFullRedraw g' = true) /\
    (isEscape c = true ->
       g' = (if currentPage g =? 0 then g
             else set_needsFullRedraw true (set_currentPage 0 g)) /\ ops = []) /\
    (isEscape c = false -> currentPage g <> 0 -> currentPage g <> 4 -> g' = g /\ ops = []) /\
    (isEscape c = false -> currentPage g = 4 -> currentPage g' = 4) /\
    (currentPage g <> 4 ->
       ops = [] /\
       settingsSelection g' = settingsSelection g /\
       normalBrightness g' = normalBrightness g /\
       useFahrenheit g' = useFahrenheit g /\
       screenTimeoutOption g' = screenTimeoutOption g /\
       dispTemp g' = dispTemp g).
Proof.
  unfold handleKey. step.
  destruct (isEscape c) eqn:He.
  - destruct (currentPage g =? 0) eqn:Hp; cbn [negb]; bools.
    + exists g, []. split; [reflexivity|]. repeat split; intros; try lia; congruence.
    + repeat step. eexists _, _. split; [reflexivity|]. cbn.
      repeat split; intros; try lia; try congruence; auto.
  - destruct (currentPage g =? 0) eqn:Hp; bools.
    + repeat match goal with |- context [if ?b then _ else _] => destruct b eqn:? end;
        repeat step; (eexists _, _; split; [reflexivity|]); cbn;
        repeat split; intros; try lia; try congruence; auto.
    + destruct (currentPage g =? 4) eqn:Hp4; bools.
      * repeat first
          [ step
          | match goal with |- context [if ?b then _ else _] => destruct b eqn:? end ];
        (eexists _, _; split; [reflexivity|]); cbn;
        repeat split; intros; try lia; try congruence; auto.
      * exists g, []. split; [reflexivity|]. repeat split; intros; try lia; congruence.
Qed.

Lemma lower_case_facts (c : ascii) :
  isLower c = true ->
  isEscape c = false /\ isEscape (toUpper c) = false /\
  toUpper (toUpper c) = toUpper c /\
  Ascii.eqb c ";" = false /\ Ascii.eqb c "." = false /\
  Ascii.eqb c "," = false /\ Ascii.eqb c "/" = false /\
  Ascii.eqb (toUpper c) ";" = false /\ Ascii.eqb (toUpper c) "." = false /\
  Ascii.eqb (toUpper c) "," = false /\ Ascii.eqb (toUpper c) "/" = false.
Proof.
  destruct c as [b0 b1 b2 b3 b4 b5 b6 b7].
  destruct b0, b1, b2, b3, b4, b5, b6, b7; intros Hl;
    try discriminate Hl; vm_compute; repeat split.
Qed.

(** X4. The letter keys are not case sensitive: a lower-case letter does
    exactly what its upper-case letter does, on every page and in every
    state. *)
Theorem letter_keys_ignore_case (c : ascii) (g : Globals F) :
  isLower c = true -> handleKey c g = handleKey (toUpper c) g.
Proof.
  intros Hl.
  destruct (lower_case_facts c Hl)
    as (E1 & E2 & E3 & E4 & E5 & E6 & E7 & E8 & E9 & E10 & E11).
  unfold handleKey. cbv zeta.
  rewrite E1, E2, E3, E4, E5, E6, E7, E8, E9, E10, E11. reflexivity.
Qed.

Lemma settings_keys_run (g : Globals F) :
  currentPage g = 4 ->
  let sel := settingsSelection g in
  let nb := normalBrightness g in
  let opt := screenTimeoutOption g in
  handleKey ";" g =
    Some (tt, set_needsFullRedraw true (set_settingsSelection (Z.max 0 (sel - 1)) g), []) /\
  handleKey "." g =
    Some (tt, set_needsFullRedraw true (set_settingsSelection (Z.min 2 (sel + 1)) g), []) /\
  (sel = 0 ->
     handleKey "," g =
       Some (tt, set_needsFullRedraw true (set_normalBrightness (Z.max 20 (nb - 20)) g),
             [setBrightness (Z.max 20 (nb - 20))]) /\
     handleKey "/" g =
       Some (tt, set_needsFullRedraw true (set_normalBrightness (Z.min 100 (nb + 20)) g),
             [setBrightness (Z.min 100 (nb + 20))])) /\
  (sel = 1 ->
     handleKey "," g =
       Some (tt, set_needsFullRedraw true (set_dispTemp (flit (-999))
                   (set_useFahrenheit false g)), []) /\
     handleKey "/" g =
       Some (tt, set_needsFullRedraw true (set_dispTemp (flit (-999))
                   (set_useFahrenheit true g)), [])) /\
  (sel = 2 ->
     handleKey "," g =
       Some (tt, set_needsFullRedraw true (set_screenTimeoutOption (Z.max 0 (opt - 1)) g),
             []) /\
     handleKey "/" g =
       Some (tt, set_needsFullRedraw true (set_screenTimeoutOption (Z.min 2 (opt + 1)) g),
             [])).
Proof.
  intros Hp. cbv zeta. unfold handleKey. cbv zeta.
  rewrite !bind_gets. rewrite Hp.
  change (isEscape ";") with false. change (isEscape ".") with false.
  change (isEscape ",") with false. change (isEscape "/") with false.
  cbn [Z.eqb Pos.eqb Ascii.eqb Bool.eqb andb].
  split; [|split; [|split; [|split]]].
  - repeat step. destruct (Z.ltb_spec (settingsSelection g - 1) 0).
    + repeat step. rewrite Z.max_l by lia. reflexivity.
    + repeat step. rewrite Z.max_r by lia. reflexivity.
  - repeat step. destruct (Z.ltb_spec 2 (settingsSelection g + 1)).
    + repeat step. rewrite Z.min_l by lia. reflexivity.
    + repeat step. rewrite Z.min_r by lia. reflexivity.
  - intros Hs. split; step; rewrite Hs; cbn [Z.eqb]; repeat step.
    + destruct (Z.ltb_spec (normalBrightness g - 20) 20).
      * repeat step. rewrite Z.max_l by lia. reflexivity.
      * repeat step. rewrite Z.max_r by lia. reflexivity.
    + destruct (Z.ltb_spec 100 (normalBrightness g + 20)).
      * repeat step. rewrite Z.min_l by lia. reflexivity.
      * repeat step. rewrite Z.min_r by lia. reflexivity.
  - intros Hs. split; step; rewrite Hs; cbn [Z.eqb Pos.eqb]; repeat step; reflexivity.
  - intros Hs. split; step; rewrite Hs; cbn [Z.eqb Pos.eqb]; repeat step.
    + destruct (Z.ltb_spec (screenTimeoutOption g - 1) 0).
      * repeat step. rewrite Z.max_l by lia. reflexivity.
      * repeat step. rewrite Z.max_r by lia. reflexivity.
    + destruct (Z.ltb_spec 2 (screenTimeoutOption g + 1)).
      * repeat step. rewrite Z.min_l by lia. reflexivity.
      * repeat step. rewrite Z.min_r by lia. reflexivity.
Qed.

(** X5. The four keys of the settings page.  [;] and [.] move the cursor
    by one row and stop at the first and at the last row; [,] and [/]
    change the setting under the cursor and nothing else: the brightness
    by 20 between 20 and 100, the new level being sent to the backlight
    at once, the unit to Celsius or to Fahrenheit (the cached temperature
    is invalidated) and the timeout option by one between 0 and 2.  None of
    these wraps around, and each requests a full redraw.  So [/] followed
    by [,] on the brightness row restores a brightness of 80 or less, and
    takes a brightness of 100 down to 80. *)
Theorem settings_keys_edit_the_selected_row (g : Globals F) :
  currentPage g = 4 ->
  let sel := settingsSelection g in
  let nb := normalBrightness g in
  let opt := screenTimeoutOption g in
  handleKey ";" g =
    Some (tt, set_needsFullRedraw true (set_settingsSelection (Z.max 0 (sel - 1)) g), []) /\
  handleKey "." g =
    Some (tt, set_needsFullRedraw true (set_settingsSelection (Z.min 2 (sel + 1)) g), []) /\
  (sel = 0 ->
     handleKey "," g =
       Some (tt, set_needsFullRedraw true (set_normalBrightness (Z.max 20 (nb - 20)) g),
             [setBrightness (Z.max 20 (nb - 20))]) /\
     handleKey "/" g =
       Some (tt, set_needsFullRedraw true (set_normalBrightness (Z.min 100 (nb + 20)) g),
             [setBrightness (Z.min 100 (nb + 20))])) /\
  (sel = 1 ->
     handleKey "," g =
       Some (tt, set_needsFullRedraw true (set_dispTemp (flit (-999))
                   (set_useFahrenheit false g)), []) /\
     handleKey "/" g =
       Some (tt, set_needsFullRedraw true (set_dispTemp (flit (-999))
                   (set_useFahrenheit true g)), [])) /\
  (sel = 2 ->
     handleKey "," g =
       Some (tt, set_needsFullRedraw true (set_screenTimeoutOption (Z.max 0 (opt - 1)) g),
             []) /\
     handleKey "/" g =
       Some (tt, set_needsFullRedraw true (set_screenTimeoutOption (Z.min 2 (opt + 1)) g),
             [])) /\
  (sel = 0 ->
     exists g2,
       forM_ ["/"; ","]%char handleKey g =
         Some (tt, g2, [setBrightness (Z.min 100 (nb + 20));
                        setBrightness (Z.max 20 (Z.min 100 (nb + 20) - 20))]) /\
       settingsSelection g2 = 0 /\
       normalBrightness g2 = Z.max 20 (Z.min 100 (nb + 20) - 20) /\
       (20 <= nb <= 80 -> normalBrightness g2 = nb) /\
       (nb = 100 -> normalBrightness g2 = 80)).
Proof.
  intros Hp. cbv zeta.
  destruct (settings_keys_run g Hp) as (K1 & K2 & K3 & K4 & K5). cbv zeta in *.
  do 5 (split; [assumption|]).
  intros Hs. destruct (K3 Hs) as (_ & Kup).
  set (g1 := set_needsFullRedraw true
               (set_normalBrightness (Z.min 100 (normalBrightness g + 20)) g)) in *.
  destruct (settings_keys_run g1 Hp) as (_ & _ & K3' & _). cbv zeta in K3'.
  destruct (K3' Hs) as (Kdown & _).
  eexists. split.
  { cbn [forM_]. rewrite (bind_run _ _ _ _ _ _ Kup).
    rewrite (bind_run _ _ _ _ _ _ Kdown). reflexivity. }
  cbn [settingsSelection normalBrightness set_needsFullRedraw set_normalBrightness g1].
  split; [exact Hs|]. split; [reflexivity|]. split; intros; lia.
Qed.

(** *** The backlight *)

Lemma backlight_app b o1 o2 : backlight b (o1 ++ o2) = backlight (backlight b o1) o2.
Proof. unfold backlight. apply fold_left_app. Qed.

Lemma backlight_drawing ops : Forall drawing ops -> forall b, backlight b ops = b.
Proof.
  induction 1 as [|op ops Hop _ IH]; intros b; [reflexivity|].
  cbn [backlight fold_left]. fold (backlight b ops).
  destruct op; try discriminate Hop; apply IH.
Qed.

Ltac wp_draw :=
  repeat first
    [ wp_step
    | lazymatch goal with
      | |- @wp _ _ (drawCenteredText _ _ _ _) _ _ => unfold drawCenteredText
      | |- @wp _ _ (if ?b then _ else _) _ _ => destruct b
      end ].

Lemma setupScreen_ops (su : SetupInput F) (g : Globals F) :
  wp (setupScreen su)
     (fun _ _ ops => exists rest,
        ops = setRotation 1 :: setBrightness (normalBrightness g) :: rest /\
        Forall drawing rest) g.
Proof.
  unfold setupScreen. wp_draw;
    (cbn [app]; eexists; split; [reflexivity|]; repeat constructor).
Qed.

Lemma setup_backlight (su : SetupInput F) (g : Globals F) ops :
  setup su initialGlobals = Some (tt, g, ops) ->
  forall b, backlight b ops = litLevel g.
Proof.
  intros Hs b.
  destruct (setup_NavInv su g ops Hs) as (_ & Hb).
  destruct (setup_spec su) as (g0 & o0 & Hs0 & _ & _ & _ & _ & Hon).
  rewrite Hs0 in Hs. injection Hs as <- <-.
  unfold litLevel. rewrite Hon, Hb.
  destruct (setupScreen_ops su initialGlobals) as ([] & g1 & o1 & H1 & rest & -> & Hrest).
  unfold setup in Hs0. rewrite (bind_run _ _ _ _ _ _ H1) in Hs0.
  rewrite (setupReadings_run su g1) in Hs0.
  - injection Hs0 as _ <-. rewrite app_nil_r.
    cbn [backlight fold_left]. apply (backlight_drawing rest Hrest).
  - destruct (LaysOut_setupScreen su initialGlobals) as ([] & g2 & o2 & H2 & E2).
    rewrite H1 in H2. injection H2 as <- _.
    exact (behindLayout_RingInv _ _ E2 RingInv_initial).
Qed.

Lemma handleKey_backlight c (g : Globals F) :
  screenState g = SCREEN_ON ->
  exists g' ops,
    handleKey c g = Some (tt, g', ops) /\ screenState g' = SCREEN_ON /\
    backlight (normalBrightness g) ops = normalBrightness g'.
Proof.
  intros Hon. unfold handleKey.
  repeat first
    [ step
    | match goal with |- context [if ?b then _ else _] => destruct b eqn:? end ];
  (eexists _, _; split; [reflexivity|]; split; [exact Hon|reflexivity]).
Qed.

Lemma handleKeys_backlight (l : list ascii) : forall g : Globals F,
  screenState g = SCREEN_ON ->
  exists g' ops,
    forM_ l handleKey g = Some (tt, g', ops) /\ screenState g' = SCREEN_ON /\
    backlight (normalBrightness g) ops = normalBrightness g'.
Proof.
  induction l as [|c l IH]; intros g Hon; cbn [forM_].
  - exists g, []. repeat split. exact Hon.
  - destruct (handleKey_backlight c g Hon) as (g1 & o1 & H1 & S1 & B1).
    destruct (IH g1 S1) as (g2 & o2 & H2 & S2 & B2).
    exists g2, (o1 ++ o2). split; [eapply bind_Some; eassumption|].
    split; [exact S2|]. rewrite backlight_app, B1. exact B2.
Qed.

Lemma handleKeyboard_backlight (inp : Input F) (g g1 : Globals F) o1 :
  handleKeyboard inp g = Some (tt, g1, o1) ->
  backlight (litLevel g) o1 = litLevel g1.
Proof.
  rewrite handleKeyboard_run. unfold litLevel.
  destruct (keyEvent inp); [|intros [= <- <-]; reflexivity].
  destruct (screenState g) eqn:Hs.
  - destruct (handleKeys_backlight (in_word inp)
                (set_lastActivityTime (in_millisWake inp) g) Hs) as (g2 & o2 & H2 & S2 & B2).
    rewrite H2. intros [= <- <-]. rewrite S2. exact B2.
  - intros [= <- <-]. reflexivity.
Qed.

Lemma loop_backlight (inp : Input F) (g g' : Globals F) ops :
  Inv g -> loop inp g = Some (tt, g', ops) ->
  backlight (litLevel g) ops = litLevel g'.
Proof.
  intros HI Hl.
  destruct (loop_spec inp g HI) as (g1 & o1 & g'' & o4 & Hk & Hl' & E & F4 & _).
  rewrite Hl' in Hl. injection Hl as <- <-.
  rewrite !backlight_app, (handleKeyboard_backlight inp g g1 o1 Hk).
  rewrite (backlight_drawing o4 F4).
  destruct (behindDisplay_fields _ _ E) as (Es & _ & _ & Eb & _).
  destruct (settings_beforeRender inp g1) as (_ & _ & Eb1).
  unfold litLevel at 2. rewrite Es, Eb, Eb1, screenState_beforeRender.
  destruct (timedOut (in_millisTimeout inp) g1); reflexivity.
Qed.

Lemma Shown_reachable ops (g : Globals F) : Shown ops g -> reachable g.
Proof.
  induction 1 as [su g ops Hs|inp g g' ops ops' _ IH Hl].
  - eapply reach_setup. exact Hs.
  - eapply reach_loop; eassumption.
Qed.

(** X6. The backlight follows the screen state.  After everything an
    execution has sent to the display, the level that the backlight was
    last set to is [normalBrightness] when [screenState] is on and 0 when it
    is off: the brightness keys, the wake-up and the timeout keep the panel
    and the globals in step.  The level before [setup] does not matter. *)
Theorem backlight_tracks_screen_state (ops : list DisplayOp) (g : Globals F) :
  Shown ops g ->
  forall b, backlight b ops =
            match screenState g with SCREEN_ON => normalBrightness g | SCREEN_OFF => 0 end.
Proof.
  induction 1 as [su g ops Hs|inp g g' ops ops' Hsh IH Hl]; intros b.
  - exact (setup_backlight su g ops Hs b).
  - rewrite backlight_app, IH.
    exact (loop_backlight inp g g' ops' (reachable_Inv g (Shown_reachable _ _ Hsh)) Hl).
Qed.

(** *** Timing *)

Lemma usub_wrap (last d : Z) :
  0 <= last < 2 ^ 32 -> 0 <= d < 2 ^ 32 -> usub ((last + d) mod 2 ^ 32) last = d.
Proof.
  intros Hl Hd. unfold usub. rewrite Zminus_mod_idemp_l.
  replace (last + d - last) with d by lia. apply Z.mod_small. exact Hd.
Qed.

(** X7. Times are compared on the wrapping 32-bit clock.  When the
    clock shows the time of the last activity (of the last history append)
    plus [d] milliseconds modulo 2^32, the timeout check turns the screen
    off exactly when [d] has reached the timeout in force (10 s or 30 s;
    never for Always-On), and [updateHistory] appends exactly when [d] has
    reached 60 s: an overflow of [millis()] between the two readings of the
    clock makes no difference. *)
Theorem elapsed_time_survives_clock_wrap (g : Globals F) (d : Z) :
  0 <= d < 2 ^ 32 ->
  (0 <= lastActivityTime g < 2 ^ 32 -> 0 <= screenTimeoutOption g <= 2 ->
   screenState g = SCREEN_ON ->
     updateScreenTimeout ((lastActivityTime g + d) mod 2 ^ 32) g =
     if ((screenTimeoutOption g =? 0) && (10000 <=? d))
        || ((screenTimeoutOption g =? 1) && (30000 <=? d))
     then Some (tt, set_screenState SCREEN_OFF g, [setBrightness 0])
     else Some (tt, g, [])) /\
  (0 <= lastHistoryUpdate g < 2 ^ 32 -> RingInv g -> 1 <= historyCount g ->
     updateHistory ((lastHistoryUpdate g + d) mod 2 ^ 32) g =
     if 60000 <=? d
     then Some (tt, appendedState
                      (set_lastHistoryUpdate ((lastHistoryUpdate g + d) mod 2 ^ 32) g), [])
     else Some (tt, g, [])).
Proof.
  intros Hd. split.
  - intros Hl Ho Hon. rewrite updateScreenTimeout_run by exact Ho.
    unfold timedOut. rewrite Hon, (usub_wrap _ _ Hl Hd).
    assert (screenTimeoutOption g = 0 \/ screenTimeoutOption g = 1 \/
            screenTimeoutOption g = 2) as [-> | [-> | ->]] by lia;
      [ change (aget screenTimeoutValues 0) with (Some 10000)
      | change (aget screenTimeoutValues 1) with (Some 30000)
      | change (aget screenTimeoutValues 2) with (Some 0) ];
      cbn -[Z.leb]; rewrite ?orb_false_r;
      repeat match goal with |- context [?a <=? d] => destruct (a <=? d) end;
      reflexivity.
  - intros Hl HR Hc. rewrite updateHistory_run.
    unfold thresholdCrossed, historyInterval. rewrite (usub_wrap _ _ Hl Hd).
    destruct (Z.eqb_spec (historyCount g) 0); [lia|]. rewrite orb_false_r.
    destruct (60000 <=? d); [|reflexivity].
    apply historyAppend_run. exact HR.
Qed.

(** *** What a pass of [loop] draws *)

Lemma loop_run (inp : Input F) (g g1 : Globals F) o1 :
  Inv g -> handleKeyboard inp g = Some (tt, g1, o1) ->
  loop inp g =
  match
    (if negb (ScreenState_eqb (screenState (beforeRender inp g1)) SCREEN_OFF)
     then render inp (in_millisLoop inp)
            (displayInterval <=?
             usub (in_millisLoop inp) (lastDisplayUpdate (beforeRender inp g1)))
     else ret tt) (beforeRender inp g1)
  with
  | Some (_, g', o4) =>
      Some (tt, g', o1 ++ (if timedOut (in_millisTimeout inp) g1
                           then [setBrightness 0] else []) ++ o4)
  | None => None
  end.
Proof.
  intros (HR & Hc & HS) Hk.
  destruct (handleKeyboard_spec inp g HS) as (g1' & o1' & Hk' & E1 & S1 & _).
  rewrite Hk in Hk'. injection Hk' as <- <-.
  pose proof (behindInput_RingInv _ _ E1 HR) as HR1.
  assert (HR2 : RingInv (withSensors inp (afterTimeout (in_millisTimeout inp) g1))).
  { unfold afterTimeout. destruct (timedOut _ g1); exact HR1. }
  unfold loop.
  rewrite (bind_run _ _ _ _ _ _ Hk).
  rewrite (bind_run _ _ _ _ _ _ (updateScreenTimeout_after _ _ (proj1 (proj2 S1)))).
  do 3 step.
  rewrite (bind_silent _ _ _ _ _ (updateHistory_after _ _ HR2)).
  do 2 step. fold (beforeRender inp g1).
  match goal with |- _ = match ?r with Some _ => _ | None => _ end =>
    destruct r as [[[[] g'] o4]|] end; reflexivity.
Qed.

(** X8. Between two display updates nothing is drawn.  A pass of [loop]
    that receives no key event, finds no full redraw requested and reads a
    clock less than [displayInterval] (one second) after the last display
    update only takes the readings, updates the history and checks the
    timeout: it sends nothing to the display but the [setBrightness 0] of a
    timeout, and leaves every cache of the drawing functions as it was. *)
Theorem idle_pass_draws_nothing (inp : Input F) (g : Globals F) :
  reachable g -> keyEvent inp = false -> needsFullRedraw g = false ->
  usub (in_millisLoop inp) (lastDisplayUpdate g) < displayInterval ->
  loop inp g =
  Some (tt, beforeRender inp g,
        if timedOut (in_millisTimeout inp) g then [setBrightness 0] else []).
Proof.
  intros Hreach Hkey Hfull Hrecent.
  pose proof (reachable_Inv g Hreach) as HI.
  assert (Hk : handleKeyboard inp g = Some (tt, g, []))
    by (rewrite handleKeyboard_run, Hkey; reflexivity).
  rewrite (loop_run inp g g [] HI Hk).
  destruct (navigation_beforeRender inp g) as (_ & Ef & Ed).
  assert (Hr : forall s : bool,
            (if s then render inp (in_millisLoop inp)
                       (displayInterval <=?
                        usub (in_millisLoop inp) (lastDisplayUpdate (beforeRender inp g)))
             else ret tt) (beforeRender inp g) = Some (tt, beforeRender inp g, [])).
  { intros [|]; [|reflexivity]. unfold render. do 2 step. rewrite Ef, Hfull, Ed.
    destruct (Z.leb_spec displayInterval (usub (in_millisLoop inp) (lastDisplayUpdate g)));
      [lia|reflexivity]. }
  rewrite Hr. cbn [app]. rewrite app_nil_r. reflexivity.
Qed.

(** *** The drawing functions write their caches only *)

Lemma Caches_bind {A B} (m : M F A) (k : A -> M F B) :
  Caches m -> (forall a, Caches (k a)) -> Caches (bind m k).
Proof.
  intros Hm Hk g b g2 ops Hr. unfold bind in Hr.
  destruct (m g) as [[[a g1] o1]|] eqn:E1; [|discriminate].
  destruct (k a g1) as [[[b' g2'] o2]|] eqn:E2; [|discriminate].
  injection Hr as <- <- <-.
  rewrite (Hk _ _ _ _ _ E2). exact (Hm _ _ _ _ E1).
Qed.

Lemma Caches_ret {A} (a : A) : Caches (F:=F) (ret a).
Proof. intros g b g' ops [= <- <- <-]. reflexivity. Qed.

Lemma Caches_gets {A} (f : Globals F -> A) : Caches (gets f).
Proof. intros g b g' ops [= <- <- <-]. reflexivity. Qed.

Lemma Caches_emit (op : DisplayOp) : Caches (F:=F) (emit op).
Proof. intros g b g' ops [= <- <-]. reflexivity. Qed.

Lemma Caches_modify (f : Globals F -> Globals F) :
  (forall g, behindCaches (f g) = behindCaches g) -> Caches (modify f).
Proof. intros Hf g b g' ops [= <- <-]. apply Hf. Qed.

Lemma Caches_lift {A} (o : option A) : Caches (F:=F) (lift o).
Proof. destruct o; [apply Caches_ret|]. intros g b g' ops [=]. Qed.

Lemma Caches_forM_ {A} (l : list A) (f : A -> M F unit) :
  (forall a, Caches (f a)) -> Caches (forM_ l f).
Proof.
  intros Hf. induction l as [|a l IH]; cbn [forM_]; [apply Caches_ret|].
  apply Caches_bind; [apply Hf|]. intros _. exact IH.
Qed.

Lemma Caches_foldM {A B} (f : B -> A -> M F B) (l : list A) :
  (forall b a, Caches (f b a)) -> forall b, Caches (foldM f b l).
Proof.
  intros Hf. induction l as [|a l IH]; intros b; cbn [foldM]; [apply Caches_ret|].
  apply Caches_bind; [apply Hf|]. intros b'. apply IH.
Qed.

Create HintDb caches.

Ltac caches_step :=
  lazymatch goal with
  | |- @Caches _ _ _ (bind _ _) => apply Caches_bind; [|intros ?]
  | |- @Caches _ _ _ (ret _) => apply Caches_ret
  | |- @Caches _ _ _ (gets _) => apply Caches_gets
  | |- @Caches _ _ _ (emit _) => apply Caches_emit
  | |- @Caches _ _ _ (lift _) => apply Caches_lift
  | |- @Caches _ _ _ (modify _) => apply Caches_modify; intros ?; reflexivity
  | |- @Caches _ _ _ (forM_ _ _) => apply Caches_forM_; intros ?
  | |- @Caches _ _ _ (foldM _ _ _) => apply Caches_foldM; intros ? ?
  | |- @Caches _ _ _ (let _ := _ in _) => cbv zeta
  | |- @Caches _ _ _ (match ?x with _ => _ end) => destruct x
  | |- @Caches _ _ _ ((match ?x with _ => _ end) _) => destruct x; cbv beta iota
  end.

Ltac caches := repeat caches_step; auto with caches.

Lemma Caches_drawCenteredText text y size color :
  Caches (F:=F) (drawCenteredText text y size color).
Proof. unfold drawCenteredText. caches. Qed.

Lemma Caches_drawCenteredTextInBox text boxX boxW y size color :
  Caches (F:=F) (drawCenteredTextInBox text boxX boxW y size color).
Proof. unfold drawCenteredTextInBox. caches. Qed.

Lemma Caches_drawThickRoundRect x y w h r t color :
  Caches (F:=F) (drawThickRoundRect x y w h r t color).
Proof. unfold drawThickRoundRect. caches. Qed.

Lemma Caches_drawThermometerIcon cx cy color : Caches (F:=F) (drawThermometerIcon cx cy color).
Proof. unfold drawThermometerIcon. caches. Qed.

Lemma Caches_drawDropletIcon cx cy color : Caches (F:=F) (drawDropletIcon cx cy color).
Proof. unfold drawDropletIcon. caches. Qed.

Lemma Caches_drawBarometerIcon cx cy color : Caches (F:=F) (drawBarometerIcon cx cy color).
Proof. unfold drawBarometerIcon. caches. Qed.

Lemma Caches_drawLightningBolt x y color : Caches (F:=F) (drawLightningBolt x y color).
Proof. unfold drawLightningBolt. caches. Qed.

Lemma Caches_drawBattery force pw : Caches (F:=F) (drawBattery force pw).
Proof. unfold drawBattery. caches; apply Caches_drawLightningBolt. Qed.

Lemma Caches_getDisplayTemp t : Caches (getDisplayTemp t).
Proof. unfold getDisplayTemp. caches. Qed.

Lemma Caches_getTempUnit : Caches (F:=F) getTempUnit.
Proof. unfold getTempUnit. caches. Qed.

#[local] Hint Resolve Caches_drawCenteredText Caches_drawCenteredTextInBox
  Caches_drawThickRoundRect Caches_drawThermometerIcon Caches_drawDropletIcon
  Caches_drawBarometerIcon Caches_drawBattery Caches_getDisplayTemp Caches_getTempUnit
  : caches.

Lemma Caches_drawMainPageStatic pw : Caches (drawMainPageStatic pw).
Proof. unfold drawMainPageStatic. caches. Qed.

Lemma Caches_updateSingleBoxValue boxX value r color format unit_ :
  Caches (updateSingleBoxValue boxX value r color format unit_).
Proof. unfold updateSingleBoxValue. destruct r; caches. Qed.

#[local] Hint Resolve Caches_drawMainPageStatic Caches_updateSingleBoxValue : caches.

Lemma Caches_updateMainPageValues pw : Caches (updateMainPageValues pw).
Proof. unfold updateMainPageValues. caches. Qed.

Lemma Caches_updateGraphValue value color unit_ title :
  Caches (updateGraphValue value color unit_ title).
Proof. unfold updateGraphValue. caches. Qed.

Lemma Caches_drawSettingsPageStatic pw : Caches (F:=F) (drawSettingsPageStatic pw).
Proof. unfold drawSettingsPageStatic. caches. Qed.

Lemma Caches_graphSample history c i : Caches (graphSample history c i).
Proof. unfold graphSample. caches. Qed.

#[local] Hint Resolve Caches_graphSample : caches.

Lemma Caches_drawGraphPageStatic title history color unit_ cur c pw :
  Caches (drawGraphPageStatic title history color unit_ cur c pw).
Proof. unfold drawGraphPageStatic, graphBounds, graphMinMax, drawGraphLine. caches. Qed.

#[local] Hint Resolve Caches_updateMainPageValues Caches_updateGraphValue
  Caches_drawSettingsPageStatic Caches_drawGraphPageStatic : caches.

Lemma bind_emit_inv {A} (op : DisplayOp) (k : unit -> M F A) g a g' ops :
  bind (emit op) k g = Some (a, g', ops) ->
  exists rest, ops = op :: rest /\ k tt g = Some (a, g', rest).
Proof.
  rewrite bind_emit. destruct (k tt g) as [[[b g2] o2]|]; [|discriminate].
  intros [= -> -> <-]. exists o2. split; reflexivity.
Qed.

Lemma render_frame inp now s (g g' : Globals F) ops :
  render inp now s g = Some (tt, g', ops) ->
  behindCaches g' =
  behindCaches (if needsFullRedraw g
                then set_lastDisplayUpdate now (set_needsFullRedraw false g)
                else if s then set_lastDisplayUpdate now g else g).
Proof.
  unfold render. do 2 step.
  destruct (needsFullRedraw g); [|destruct s].
  - do 2 step. intros Hr.
    match type of Hr with ?m _ = _ => assert (HC : Caches m) by caches end.
    exact (HC _ _ _ _ Hr).
  - step. intros Hr.
    match type of Hr with ?m _ = _ => assert (HC : Caches m) by caches end.
    exact (HC _ _ _ _ Hr).
  - intros [= <- _]. reflexivity.
Qed.

Lemma render_full_head inp now s (g g' : Globals F) ops :
  needsFullRedraw g = true -> 0 <= currentPage g <= 4 ->
  render inp now s g = Some (tt, g', ops) ->
  exists rest, ops = fillScreen TFT_BLACK :: rest.
Proof.
  intros Hfull Hpage. unfold render. do 2 step. rewrite Hfull. do 2 step.
  assert (currentPage g = 0 \/ currentPage g = 1 \/ currentPage g = 2 \/
          currentPage g = 3 \/ currentPage g = 4) as [E | [E | [E | [E | E]]]] by lia;
    rewrite E;
    unfold drawMainPageStatic, drawGraphPageStatic, drawSettingsPageStatic,
      getTempUnit, getDisplayTemp;
    repeat step;
    try (destruct (useFahrenheit _); repeat step);
    intros Hr; apply bind_emit_inv in Hr; destruct Hr as (rest & -> & _);
    eexists; reflexivity.
Qed.

(** X9. The page renderer returns from every state whose ring buffer is
    well formed, sends drawing operations only (never a [setBrightness]),
    and writes no global other than the caches of the drawing functions and
    its own bookkeeping: [needsFullRedraw] is cleared and [lastDisplayUpdate]
    set when it draws.  The readings, the history, the page, the settings
    and the screen state are never written by drawing. *)
Theorem renderer_changes_only_its_caches
    (inp : Input F) (now : Z) (s : bool) (g : Globals F) :
  RingInv g ->
  exists g' ops,
    render inp now s g = Some (tt, g', ops) /\
    Forall drawing ops /\
    behindCaches g' =
    behindCaches (if needsFullRedraw g
                  then set_lastDisplayUpdate now (set_needsFullRedraw false g)
                  else if s then set_lastDisplayUpdate now g else g).
Proof.
  intros HR. destruct (Draws_render inp now s g HR) as ([] & g' & ops & Hr & _ & Hd).
  exists g', ops. split; [exact Hr|]. split; [exact Hd|].
  exact (render_frame inp now s g g' ops Hr).
Qed.

(** X10. A requested full redraw is served in the same pass.  In every
    pass of every execution that ends with the screen on, [needsFullRedraw]
    is false afterwards; if a full redraw was requested when
    [handleKeyboard] returned, the drawing of the pass starts by clearing
    the whole screen and [lastDisplayUpdate] becomes the time of the pass.
    A pass that ends with the screen off draws nothing and keeps the
    request pending. *)
Theorem pending_redraw_is_served_at_once (inp : Input F) (g : Globals F) :
  reachable g ->
  exists g1 o1 g' o4,
    handleKeyboard inp g = Some (tt, g1, o1) /\
    loop inp g =
      Some (tt, g', o1 ++ (if timedOut (in_millisTimeout inp) g1
                           then [setBrightness 0] else []) ++ o4) /\
    (screenState g' = SCREEN_ON ->
       needsFullRedraw g' = false /\
       (needsFullRedraw g1 = true ->
          lastDisplayUpdate g' = in_millisLoop inp /\
          exists rest, o4 = fillScreen TFT_BLACK :: rest)) /\
    (screenState g' = SCREEN_OFF ->
       o4 = [] /\ needsFullRedraw g' = needsFullRedraw g1).
Proof.
  intros Hreach.
  pose proof (reachable_Inv g Hreach) as HI.
  pose proof (reachable_NavInv g Hreach) as HN.
  destruct (loop_spec inp g HI) as (g1 & o1 & g' & o4 & Hk & Hl & E & _ & Hoff).
  exists g1, o1, g', o4. split; [exact Hk|]. split; [exact Hl|].
  pose proof (handleKeyboard_NavInv inp g g1 o1 HN Hk) as (Hp1 & _).
  destruct (navigation_beforeRender inp g1) as (Ep & Ef & _).
  destruct (behindDisplay_fields _ _ E) as (Es & _).
  rewrite (loop_run inp g g1 o1 HI Hk) in Hl.
  rewrite Es. destruct (screenState (beforeRender inp g1)) eqn:Hs.
  - split; [|intros Hx; discriminate]. intros _.
    cbn [ScreenState_eqb negb] in Hl.
    match type of Hl with match ?r with Some _ => _ | None => _ end = _ =>
      destruct r as [[[[] g2] o2]|] eqn:Hr; [|discriminate] end.
    injection Hl as <- Ho. apply app_inv_head in Ho. apply app_inv_head in Ho. subst o2.
    pose proof (render_frame _ _ _ _ _ _ Hr) as Efr.
    split.
    + change (needsFullRedraw g2) with (needsFullRedraw (behindCaches g2)).
      rewrite Efr. destruct (needsFullRedraw (beforeRender inp g1)) eqn:Hf; [reflexivity|].
      match goal with |- context [if ?b then _ else _] => destruct b end; exact Hf.
    + intros Hf1. rewrite <- Ef in Hf1. split.
      * change (lastDisplayUpdate g2) with (lastDisplayUpdate (behindCaches g2)).
        rewrite Efr, Hf1. reflexivity.
      * eapply render_full_head; [exact Hf1| |exact Hr]. rewrite Ep. exact Hp1.
  - split; [intros Hx; discriminate|]. intros _.
    destruct (Hoff eq_refl) as (-> & ->). split; [reflexivity|exact Ef].
Qed.

(** *** The battery indicator *)

Lemma map_range_bounds (x in_min in_max out_min out_max : Z) :
  in_min < in_max -> out_min <= out_max -> in_min <= x <= in_max ->
  out_min <= map_range x in_min in_max out_min out_max <= out_max.
Proof.
  intros Hin Hout Hx. unfold map_range.
  assert (H0 : 0 <= (x - in_min) * (out_max - out_min)) by nia.
  rewrite Z.quot_div_nonneg by lia.
  pose proof (Z.div_pos _ (in_max - in_min) H0 ltac:(lia)).
  assert ((x - in_min) * (out_max - out_min) / (in_max - in_min) <= out_max - out_min).
  { apply Z.div_le_upper_bound; [lia|nia]. }
  lia.
Qed.

Ltac wp_cases :=
  repeat first
    [ wp_step
    | lazymatch goal with
      | |- @wp _ _ (drawLightningBolt _ _ _) _ _ => unfold drawLightningBolt
      | |- @wp _ _ (drawCenteredText _ _ _ _) _ _ => unfold drawCenteredText
      | |- @wp _ _ (drawCenteredTextInBox _ _ _ _ _ _) _ _ => unfold drawCenteredTextInBox
      | |- @wp _ _ (if ?b then _ else _) _ _ => destruct b eqn:?
      end ].

Lemma drawBattery_cached (pw : PowerRead) (g : Globals F) :
  (pw_level pw <=? 10) && negb (pw_charging pw) = false ->
  prevBatteryLevel g = pw_level pw -> prevCharging g = pw_charging pw ->
  batteryFlashOn g = true ->
  drawBattery false pw g = Some (tt, g, []).
Proof.
  intros Hcond Hl Hc Hon. unfold drawBattery. cbv zeta. rewrite Hcond.
  repeat step.
  change (prevBatteryLevel (set_batteryFlashOn true g)) with (prevBatteryLevel g).
  change (prevCharging (set_batteryFlashOn true g)) with (prevCharging g).
  rewrite Hl, Hc, Z.eqb_refl, eqb_reflx. cbn [negb andb]. unfold ret.
  destruct g. cbn in Hon. subst. reflexivity.
Qed.

(** X11. The battery indicator is redrawn only when it changes.  While
    the battery is not low (above 10 %, or charging), a call of
    [drawBattery] leaves the level and the charging state it was given in
    the cache; a call that is not forced and finds them already there draws
    nothing; and the next call with the same level and charging state, not
    forced, draws nothing and changes no global. *)
Theorem battery_indicator_is_redrawn_on_change_only
    (force : bool) (pw pw' : PowerRead) (g : Globals F) :
  (pw_level pw <=? 10) && negb (pw_charging pw) = false ->
  pw_level pw' = pw_level pw -> pw_charging pw' = pw_charging pw ->
  exists g1 o1,
    drawBattery force pw g = Some (tt, g1, o1) /\
    prevBatteryLevel g1 = pw_level pw /\ prevCharging g1 = pw_charging pw /\
    (force = false -> prevBatteryLevel g = pw_level pw ->
     prevCharging g = pw_charging pw -> o1 = []) /\
    drawBattery false pw' g1 = Some (tt, g1, []).
Proof.
  intros Hcond Hl Hc.
  assert (W : wp (drawBattery force pw)
                 (fun _ g1 o1 =>
                    prevBatteryLevel g1 = pw_level pw /\ prevCharging g1 = pw_charging pw /\
                    batteryFlashOn g1 = true /\
                    (force = false -> prevBatteryLevel g = pw_level pw ->
                     prevCharging g = pw_charging pw -> o1 = [])) g).
  { unfold drawBattery. cbv zeta. rewrite Hcond. wp_cases;
      cbn [app prevBatteryLevel prevCharging batteryFlashOn set_batteryFlashOn
           set_prevBatteryLevel set_prevCharging] in *;
      repeat match goal with
      | H : _ && _ = true |- _ => apply andb_prop in H; destruct H
      | H : negb _ = true |- _ => apply negb_true_iff in H
      | H : negb _ = false |- _ => apply negb_false_iff in H
      | H : Bool.eqb _ _ = true |- _ => apply eqb_prop in H
      end; bools;
      try discriminate;
      (split; [solve [auto]|]; split; [solve [auto]|]; split; [reflexivity|]);
      try (intros; reflexivity);
      intros -> E1 E2; exfalso;
      match goal with
      | H : _ && _ = false |- _ =>
          rewrite E1, E2, Z.eqb_refl, eqb_reflx in H; discriminate H
      end. }
  destruct W as ([] & g1 & o1 & Hrun & P1 & P2 & P3 & P4).
  exists g1, o1. split; [exact Hrun|]. do 3 (split; [assumption|]).
  apply drawBattery_cached; [rewrite Hl, Hc; exact Hcond|congruence|congruence|exact P3].
Qed.

(** X12. The battery symbol stays inside its box.  For a level between 0
    and 100, a call of [drawBattery] either draws nothing or first clears
    the 58 x 14 area at the top right of the screen, and every rectangle and
    line it draws afterwards (the outline, the tip, the fill, the
    lightning bolt) lies inside the 24 x 10 box of the symbol, which lies
    inside the cleared area: the fill never leaves the outline. *)
Theorem battery_symbol_stays_in_its_box (force : bool) (pw : PowerRead) (g : Globals F) :
  0 <= pw_level pw <= 100 ->
  exists g' ops,
    drawBattery force pw g = Some (tt, g', ops) /\
    (ops = [] \/
     exists icon,
       ops = fillRect (screenW g - 58) 2 58 14 TFT_BLACK :: icon /\
       Forall (opWithin (screenW g - 55) 3 (screenW g - 31) 13) icon /\
       Forall (opWithin (screenW g - 58) 2 (screenW g) 16) ops).
Proof.
  intros Hlevel.
  pose proof (map_range_bounds (pw_level pw) 0 100 0 18 ltac:(lia) ltac:(lia) Hlevel) as Hfill.
  unfold drawBattery. cbv zeta.
  change (22 - 4) with 18.
  set (fillW := map_range (pw_level pw) 0 100 0 18) in *.
  match goal with |- exists g' ops, ?m g = _ /\ @?Q g' ops =>
    enough (W : wp m (fun _ g' ops => Q g' ops) g)
      by (destruct W as ([] & g' & ops & Hr & HQ); exists g', ops; split; assumption)
  end.
  cbv beta.
  wp_cases; cbn [app screenW set_batteryFlashOn set_prevBatteryLevel set_prevCharging
                 set_lastFlashTime];
    first
      [ left; reflexivity
      | right; eexists; split; [replace (screenW g - 55 - 3) with (screenW g - 58) by lia;
                                 replace (3 - 1) with 2 by lia; reflexivity|];
        bools; split;
        repeat (constructor; [first [exact I | cbn; lia]|]); constructor ].
Qed.

(** X13. A low battery makes the indicator blink.  With the level at 10 %
    or below and no charger, a call of [drawBattery] that reads the clock
    at least [flashInterval] (500 ms) after the last flash toggles the flash
    state, records the time and redraws whether or not a redraw was forced:
    when the symbol was shown the area is only cleared, when it was hidden
    it is drawn again, in red.  A call less than 500 ms after the last flash
    leaves the flash state and the recorded time alone. *)
Theorem low_battery_indicator_blinks (force : bool) (pw : PowerRead) (g : Globals F) :
  pw_level pw <= 10 -> pw_charging pw = false ->
  exists g' ops,
    drawBattery force pw g = Some (tt, g', ops) /\
    (flashInterval <= usub (pw_millis pw) (lastFlashTime g) ->
       batteryFlashOn g' = negb (batteryFlashOn g) /\
       lastFlashTime g' = pw_millis pw /\
       prevBatteryLevel g' = pw_level pw /\ prevCharging g' = false /\
       (batteryFlashOn g = true ->
          ops = [fillRect (screenW g - 58) 2 58 14 TFT_BLACK]) /\
       (batteryFlashOn g = false ->
          exists rest,
            ops = fillRect (screenW g - 58) 2 58 14 TFT_BLACK
                  :: drawRect (screenW g - 55) 3 22 10 TFT_RED :: rest)) /\
    (usub (pw_millis pw) (lastFlashTime g) < flashInterval ->
       batteryFlashOn g' = batteryFlashOn g /\ lastFlashTime g' = lastFlashTime g).
Proof.
  intros Hlow Hchg.
  match goal with |- exists g' ops, ?m g = _ /\ @?Q g' ops =>
    enough (W : wp m (fun _ g' ops => Q g' ops) g)
      by (destruct W as ([] & g' & ops & Hr & HQ); exists g', ops; split; assumption)
  end.
  cbv beta. unfold drawBattery. cbv zeta. rewrite Hchg.
  destruct (Z.leb_spec (pw_level pw) 10) as [_|]; [|lia]. cbn [negb andb].
  unfold getBatteryColor.
  destruct (Z.ltb_spec 70 (pw_level pw)); [lia|].
  destruct (Z.ltb_spec 30 (pw_level pw)); [lia|].
  wp_cases;
    cbn [app screenW batteryFlashOn lastFlashTime prevBatteryLevel prevCharging
         set_batteryFlashOn set_prevBatteryLevel set_prevCharging set_lastFlashTime] in *;
    repeat match goal with
    | H : negb _ = true |- _ => apply negb_true_iff in H
    | H : negb _ = false |- _ => apply negb_false_iff in H
    end; bools;
    (split; [intros Hint | intros Hint]; try lia);
    repeat match goal with
    | |- _ /\ _ => split
    | |- _ -> _ => intros ?
    end;
    try congruence; try reflexivity;
    try (replace (screenW g - 55 - 3) with (screenW g - 58) by lia;
         replace (3 - 1) with 2 by lia; first [reflexivity | eexists; reflexivity]).
Qed.

(** *** Layout *)

Lemma quot2_split (n : Z) :
  -1 <= n - 2 * Z.quot n 2 <= 1 /\ (0 <= n -> 0 <= Z.quot n 2 /\ 0 <= n - 2 * Z.quot n 2).
Proof.
  pose proof (Z.quot_rem' n 2) as Hqr.
  destruct (Z_le_gt_dec 0 n) as [Hn|Hn].
  - pose proof (Z.rem_bound_pos n 2 Hn ltac:(lia)).
    pose proof (Z.quot_pos n 2 Hn ltac:(lia)). lia.
  - pose proof (Z.rem_bound_abs n 2 ltac:(lia)).
    pose proof (Z.rem_sign_mul n 2 ltac:(lia)).
    assert (Z.rem n 2 <= 0) by nia. lia.
Qed.

(** X14. Centred text is centred.  [drawCenteredText] and
    [drawCenteredTextInBox] change no global and send the size, the colour,
    the cursor and the text; the cursor leaves margins on the left and on
    the right of the text that differ by one pixel at most, and when the
    text is not wider than the screen (the box) it starts and ends inside
    it. *)
Theorem centered_text_is_centered
    (text : string) (y size : Z) (color : Color) (boxX boxW : Z) (g : Globals F) :
  let w := getTextWidth text size in
  (exists x,
     drawCenteredText text y size color g =
       Some (tt, g, [setTextSize size; setTextColor color; setCursor x y; print text]) /\
     -1 <= (screenW g - (x + w)) - x <= 1 /\
     (w <= screenW g -> 0 <= x <= screenW g - (x + w))) /\
  (exists x,
     drawCenteredTextInBox text boxX boxW y size color g =
       Some (tt, g, [setTextSize size; setTextColor color; setCursor x y; print text]) /\
     -1 <= (boxX + boxW - (x + w)) - (x - boxX) <= 1 /\
     (w <= boxW -> boxX <= x /\ x + w <= boxX + boxW)).
Proof.
  cbv zeta. split.
  - eexists. split; [reflexivity|]. cbn [screenW].
    pose proof (quot2_split (screenW g - getTextWidth text size)). lia.
  - eexists. split; [reflexivity|].
    pose proof (quot2_split (boxW - getTextWidth text size)). lia.
Qed.

Lemma setupScreen_layout (su : SetupInput F) (g : Globals F) :
  wp (setupScreen su)
     (fun _ g' _ =>
        behindLayout g' = behindLayout g /\
        screenW g' = su_width su /\ screenH g' = su_height su /\
        let startX := Z.quot (su_width su - (boxWidth * 3 + boxMargin * 2)) 2 in
        tempBoxX g' = startX /\
        humidBoxX g' = startX + boxWidth + boxMargin /\
        pressBoxX g' = startX + (boxWidth + boxMargin) * 2 /\
        boxY g' = topMargin + Z.quot (su_height su - topMargin - boxHeight) 2) g.
Proof. unfold setupScreen. wp_cases; repeat split. Qed.

(** X15. [setup] lays the three boxes of the main page out side by side.
    Whatever the size of the display, the humidity box starts 78 pixels
    ([boxWidth + boxMargin]) right of the temperature box and the pressure
    box 78 pixels further, and the free space left and right of the three
    boxes differs by one pixel at most, as does the free space above and
    below them under the top margin.  On a display at least 228 pixels wide
    and 107 high the boxes lie inside the screen, below the top margin. *)
Theorem setup_lays_out_three_boxes (su : SetupInput F) :
  exists g ops,
    setup su initialGlobals = Some (tt, g, ops) /\
    screenW g = su_width su /\ screenH g = su_height su /\
    humidBoxX g = tempBoxX g + boxWidth + boxMargin /\
    pressBoxX g = humidBoxX g + boxWidth + boxMargin /\
    -1 <= (screenW g - (pressBoxX g + boxWidth)) - tempBoxX g <= 1 /\
    -1 <= (screenH g - (boxY g + boxHeight)) - (boxY g - topMargin) <= 1 /\
    (228 <= su_width su -> 107 <= su_height su ->
       0 <= tempBoxX g /\ pressBoxX g + boxWidth <= screenW g /\
       topMargin <= boxY g /\ boxY g + boxHeight <= screenH g).
Proof.
  destruct (setupScreen_layout su initialGlobals)
    as ([] & g0 & ops & H0 & E0 & Hw & Hh & Ht & Hhx & Hp & Hy).
  pose proof (behindLayout_RingInv _ _ E0 RingInv_initial) as HR0.
  exists (afterSetupReadings su g0), ops. split.
  { unfold setup. rewrite (bind_run _ _ _ _ _ _ H0), (setupReadings_run su g0 HR0).
    rewrite app_nil_r. reflexivity. }
  change (screenW (afterSetupReadings su g0)) with (screenW g0).
  change (screenH (afterSetupReadings su g0)) with (screenH g0).
  change (tempBoxX (afterSetupReadings su g0)) with (tempBoxX g0).
  change (humidBoxX (afterSetupReadings su g0)) with (humidBoxX g0).
  change (pressBoxX (afterSetupReadings su g0)) with (pressBoxX g0).
  change (boxY (afterSetupReadings su g0)) with (boxY g0).
  rewrite Hw, Hh, Ht, Hhx, Hp, Hy. unfold boxWidth, boxMargin, boxHeight, topMargin.
  pose proof (quot2_split (su_width su - (72 * 3 + 6 * 2))).
  pose proof (quot2_split (su_height su - 22 - 85)).
  repeat split; lia.
Qed.

(** X16. A redrawn value is drawn over a cleared background.  When the
    new value of a box of the main page is redrawn, the function changes
    the cache only and sends exactly: the clearing of a 64 x 35 rectangle,
    which lies inside the border of the box, then the value at text size 2
    and the unit at text size 1, both centred in the box.  A text of at
    most 64 pixels (five characters at size 2) starts and ends inside the
    cleared rectangle, and both text rows lie inside it. *)
Theorem value_redraw_stays_inside_the_box
    (boxX : Z) (value : F) (r : DispRef) (color : Color) (format unit_ : string)
    (g : Globals F) :
  fltb (absDiff value (deref r g)) (flit (5 # 100)) = false ->
  let vw := getTextWidth (fformat format value) 2 in
  let uw := getTextWidth unit_ 1 in
  exists xv xu,
    updateSingleBoxValue boxX value r color format unit_ g =
      Some (tt, assign r value g,
            [fillRect (boxX + 4) (boxY g + 43) 64 35 TFT_BLACK;
             setTextSize 2; setTextColor color;
             setCursor xv (boxY g + 45); print (fformat format value);
             setTextSize 1; setTextColor color;
             setCursor xu (boxY g + 68); print unit_]) /\
    opWithin (boxX + boxBorderWidth) (boxY g + boxBorderWidth)
             (boxX + boxWidth - boxBorderWidth) (boxY g + boxHeight - boxBorderWidth)
             (fillRect (boxX + 4) (boxY g + 43) 64 35 TFT_BLACK) /\
    (vw <= 64 -> boxX + 4 <= xv /\ xv + vw <= boxX + 4 + 64) /\
    (uw <= 64 -> boxX + 4 <= xu /\ xu + uw <= boxX + 4 + 64) /\
    boxY g + 43 <= boxY g + 45 /\ boxY g + 45 + 8 * 2 <= boxY g + 43 + 35 /\
    boxY g + 68 + 8 * 1 <= boxY g + 43 + 35.
Proof.
  intros Hd. cbv zeta. eexists _, _. split.
  { unfold updateSingleBoxValue. step. rewrite Hd. do 2 step.
    unfold drawCenteredTextInBox.
    destruct r; cbn [assign boxY set_dispTemp set_dispHumidity set_dispPressure];
      unfold boxBorderWidth, boxWidth;
      replace (boxX + 2 + 2) with (boxX + 4) by lia;
      replace (boxY g + 45 - 2) with (boxY g + 43) by lia;
      reflexivity. }
  unfold opWithin, boxBorderWidth, boxWidth, boxHeight.
  pose proof (quot2_split (72 - getTextWidth (fformat format value) 2)).
  pose proof (quot2_split (72 - getTextWidth unit_ 1)).
  repeat split; intros; lia.
Qed.

(** *** When the screen goes off *)

(** X17. The screen goes off exactly on a timeout.  In every pass of
    every execution, the time of the last activity being the wake-up time of
    the pass when a key event arrived and [lastActivityTime] otherwise: the
    pass ends with the screen off if and only if the screen was off and no
    key event arrived, or the timeout [T] of the option in force is not 0
    (Always-On) and the clock of the timeout check is [T] or more past the
    last activity; in the second case, when the screen was on or a key
    event arrived, [setBrightness 0] is among the operations of the pass. *)
Theorem screen_goes_off_exactly_on_timeout (inp : Input F) (g : Globals F) :
  reachable g ->
  exists g' ops T,
    loop inp g = Some (tt, g', ops) /\
    aget screenTimeoutValues (screenTimeoutOption g') = Some T /\
    let last := if keyEvent inp then in_millisWake inp else lastActivityTime g in
    let expired := negb (T =? 0) && (T <=? usub (in_millisTimeout inp) last) in
    let stayedOff := ScreenState_eqb (screenState g) SCREEN_OFF && negb (keyEvent inp) in
    (screenState g' = SCREEN_OFF <-> stayedOff || expired = true) /\
    (stayedOff = false -> expired = true -> In (setBrightness 0) ops).
Proof.
  intros Hreach.
  pose proof (reachable_Inv g Hreach) as HI. pose proof HI as (_ & _ & HS).
  destruct (loop_spec inp g HI) as (g1 & o1 & g' & o4 & Hk & Hl & E & _).
  destruct (handleKeyboard_spec inp g HS)
    as (g1' & o1' & Hk' & _ & S1 & _ & Hst & Hla & _).
  rewrite Hk in Hk'. injection Hk' as <- <-.
  destruct (behindDisplay_fields _ _ E) as (Es & _ & Eo & _).
  destruct (settings_beforeRender inp g1) as (_ & Eo1 & _).
  destruct S1 as (_ & Hopt & _).
  assert (HT : exists T, aget screenTimeoutValues (screenTimeoutOption g1) = Some T).
  { assert (screenTimeoutOption g1 = 0 \/ screenTimeoutOption g1 = 1 \/
            screenTimeoutOption g1 = 2) as [-> | [-> | ->]] by lia; eexists; reflexivity. }
  destruct HT as (T & HT).
  exists g'. eexists. exists T. split; [exact Hl|].
  rewrite Eo, Eo1. split; [exact HT|]. cbv zeta.
  rewrite Es, screenState_beforeRender, Hst.
  unfold timedOut. rewrite HT, Hst, Hla.
  destruct (keyEvent inp), (screenState g); cbn [ScreenState_eqb negb andb orb];
    rewrite ?andb_false_r, ?andb_true_r;
    destruct (negb (T =? 0) && (T <=? usub (in_millisTimeout inp) _)) eqn:Hexp;
    cbn [orb];
    (split; [split; intros Hx; first [reflexivity | discriminate Hx] |]);
    intros Hs He; first [discriminate Hs | discriminate He | idtac];
    apply in_or_app; right; apply in_or_app; left; left; reflexivity.
Qed.

(** *** The graph *)

Lemma sampleAt_convert history (g : Globals F) i :
  sampleAt history true g i = toFahrenheit (sampleAt history false g i).
Proof. reflexivity. Qed.

(** X18. The history is kept in Celsius and converted when it is read.
    For a well-formed buffer, the values that the temperature graph reads
    with the Fahrenheit conversion are the values it reads without the
    conversion, each converted by [x * 9.0 / 5.0 + 32.0], in the same
    order; and no key, the unit keys included, writes the history arrays,
    the cursor or the count. *)
Theorem history_is_converted_on_read
    (history : Globals F -> list F) (c : ascii) (g : Globals F) :
  Inv g -> length (history g) = Z.to_nat historySize ->
  exists xs,
    readOrdered history false g = Some (xs, g, []) /\
    readOrdered history true g = Some (map toFahrenheit xs, g, []) /\
    length xs = Z.to_nat (historyCount g) /\
    exists g' ops,
      handleKey c g = Some (tt, g', ops) /\
      tempHistory g' = tempHistory g /\ humidityHistory g' = humidityHistory g /\
      pressureHistory g' = pressureHistory g /\
      historyIndex g' = historyIndex g /\ historyCount g' = historyCount g.
Proof.
  intros (HR & _ & HS) Hlen.
  exists (map (sampleAt history false g) (upto (historyCount g))).
  split; [apply readOrdered_inv; assumption|]. split.
  { rewrite (readOrdered_inv history true g HR Hlen), map_map. reflexivity. }
  split; [unfold upto; rewrite !length_map, length_seq; reflexivity|].
  destruct (handleKey_spec c g HS) as (g' & ops & Hk & E & _).
  exists g', ops. split; [exact Hk|].
  repeat split;
    [ exact (f_equal tempHistory E) | exact (f_equal humidityHistory E)
    | exact (f_equal pressureHistory E) | exact (f_equal historyIndex E)
    | exact (f_equal historyCount E) ].
Qed.

Lemma foldM_polyline history c color gx gy gw gh gmin range (g : Globals F) :
  RingInv g -> length (history g) = Z.to_nat historySize ->
  forall (n s : nat) (acc : Z * Z),
    Z.of_nat (s + n) <= historyCount g ->
    exists acc',
      foldM (fun '(prevPx, prevPy) i =>
               bind (graphSample history c i) (fun val =>
               let px := gx + 2 + Z.quot (i * (gw - 4)) (historySize - 1) in
               let py := gy + gh - 2
                         - ftoint (fmul (fdiv (fsub val gmin) range) (fofint (gh - 4))) in
               bind (emit (fillCircle px py 1 color)) (fun _ =>
               bind (if 0 <? i then emit (drawLine prevPx prevPy px py color) else ret tt)
                    (fun _ => ret (px, py)))))
            acc (map Z.of_nat (seq s n)) g =
      Some (acc', g,
            polyline color (if 0 <? Z.of_nat s then Some acc else None)
              (map (graphPoint history c gx gy gw gh gmin range g)
                   (map Z.of_nat (seq s n)))).
Proof.
  intros HR Hlen. induction n as [|n IH]; intros s [ppx ppy] Hs.
  - eexists. reflexivity.
  - cbn [seq map foldM polyline].
    destruct (IH (S s) (graphPoint history c gx gy gw gh gmin range g (Z.of_nat s))
                ltac:(lia)) as (acc' & Hrest).
    exists acc'.
    rewrite bind_assoc.
    rewrite (bind_pure _ _ _ _
               (graphSample_inv history c g (Z.of_nat s) HR Hlen ltac:(lia))).
    cbv zeta. fold (graphPoint history c gx gy gw gh gmin range g (Z.of_nat s)).
    destruct (Z.ltb_spec 0 (Z.of_nat (S s))) as [_|]; [|lia].
    unfold graphPoint at 1 2 3 4; cbn [fst snd].
    unfold graphPoint in Hrest at 1.
    destruct (0 <? Z.of_nat s);
      repeat (rewrite bind_assoc || rewrite bind_emit || rewrite bind_ret);
      rewrite Hrest; reflexivity.
Qed.

Lemma drawGraphLine_run history c color gx gy gw gh gmin range (g : Globals F) :
  RingInv g -> length (history g) = Z.to_nat historySize ->
  drawGraphLine history c color gx gy gw gh gmin range g =
  Some (tt, g, polyline color None
                 (map (graphPoint history c gx gy gw gh gmin range g)
                      (upto (historyCount g)))).
Proof.
  intros HR Hlen. unfold drawGraphLine. step.
  destruct (foldM_polyline history c color gx gy gw gh gmin range g HR Hlen
              (Z.to_nat (historyCount g)) 0%nat (0, 0)) as (acc' & Hrun).
  { destruct HR as (_ & _ & _ & _ & Hc). lia. }
  unfold upto. rewrite (bind_run _ _ _ _ _ _ Hrun). cbn [ret].
  rewrite app_nil_r. reflexivity.
Qed.

(** X19. The graph line is a polyline through the samples in read order.
    For a well-formed buffer [drawGraphLine] changes no global and sends, for
    the stored samples oldest first, a marker on the pixel of each sample
    and a segment from the pixel of each sample to the pixel of the next.
    Sample [i] is placed [i * (graphW - 4) / 59] pixels right of
    [graphX + 2]: the first column is [graphX + 2] and the column of sample
    59 is the right end [graphX + graphW - 2]; for [graphW] of 4 or more the
    columns never decrease and lie inside the border; for [graphW] of 63 or
    more (205 on the device) they increase strictly, so that no two samples
    share a column and only sample 59, stored when the buffer is full,
    reaches the right end. *)
Theorem graph_line_is_a_polyline
    (history : Globals F -> list F) (c : bool) (color : Color)
    (gx gy gw gh : Z) (gmin range : F) (g : Globals F) :
  RingInv g -> length (history g) = Z.to_nat historySize ->
  let pt := graphPoint history c gx gy gw gh gmin range g in
  drawGraphLine history c color gx gy gw gh gmin range g =
    Some (tt, g, polyline color None (map pt (upto (historyCount g)))) /\
  length (map pt (upto (historyCount g))) = Z.to_nat (historyCount g) /\
  fst (pt 0) = gx + 2 /\ fst (pt 59) = gx + gw - 2 /\
  (4 <= gw ->
     (forall i, 0 <= i < historyCount g -> gx + 2 <= fst (pt i) <= gx + gw - 2) /\
     (forall i j, i <= j -> fst (pt i) <= fst (pt j))) /\
  (63 <= gw ->
     (forall i j, 0 <= i < j -> fst (pt i) < fst (pt j)) /\
     (forall i, 0 <= i < 59 -> fst (pt i) < gx + gw - 2)).
Proof.
  intros HR Hlen. cbv zeta.
  assert (Hstrict : 63 <= gw -> forall i j, 0 <= i < j ->
            Z.quot (i * (gw - 4)) 59 < Z.quot (j * (gw - 4)) 59).
  { intros Hw i j Hij.
    rewrite !Z.quot_div_nonneg by nia.
    assert (Hq : (i * (gw - 4)) / 59 + 1 <= (j * (gw - 4)) / 59).
    { rewrite <- (Z.div_add (i * (gw - 4)) 1 59) by lia.
      apply Z.div_le_mono; [lia|nia]. }
    lia. }
  split; [|split; [|split; [|split; [|split]]]].
  - apply drawGraphLine_run; assumption.
  - unfold upto. rewrite !length_map, length_seq. reflexivity.
  - unfold graphPoint, historySize. cbn [fst].
    change (Z.quot (0 * (gw - 4)) (60 - 1)) with 0. lia.
  - unfold graphPoint, historySize. cbn [fst]. change (60 - 1) with 59.
    rewrite Z.mul_comm, Z.quot_mul by lia. lia.
  - intros Hw. split.
    + intros i Hi. destruct HR as (_ & _ & _ & _ & Hc).
      unfold graphPoint, historySize in *. cbn [fst]. change (60 - 1) with 59.
      assert (H0 : 0 <= i * (gw - 4)) by nia.
      pose proof (Z.quot_pos _ 59 H0 ltac:(lia)).
      assert (Z.quot (i * (gw - 4)) 59 <= gw - 4).
      { apply Z.quot_le_upper_bound; [lia|nia]. }
      lia.
    + intros i j Hij. unfold graphPoint, historySize. cbn [fst]. change (60 - 1) with 59.
      assert (Z.quot (i * (gw - 4)) 59 <= Z.quot (j * (gw - 4)) 59).
      { apply Z.quot_le_mono; [lia|nia]. }
      lia.
  - intros Hw. unfold graphPoint, historySize. cbn [fst]. change (60 - 1) with 59. split.
    + intros i j Hij. pose proof (Hstrict Hw i j Hij). lia.
    + intros i Hi. pose proof (Hstrict Hw i 59 ltac:(lia)) as Hlt.
      rewrite (Z.mul_comm 59), Z.quot_mul in Hlt by lia. lia.
Qed.

(** *** The settings page *)

Lemma wp_call {A B} (m : M F A) (k : A -> M F B)
    (R : A -> Globals F -> list DisplayOp -> Prop)
    (Q : B -> Globals F -> list DisplayOp -> Prop) g :
  wp m R g ->
  (forall a g1 o1, R a g1 o1 -> wp (k a) (fun b g2 o2 => Q b g2 (o1 ++ o2)) g1) ->
  wp (bind m k) Q g.
Proof. intros W Hk. apply wp_bind. eapply wp_mono; [exact W|]. exact Hk. Qed.

Lemma drawBattery_marks force pw (g : Globals F) :
  wp (drawBattery force pw)
     (fun _ g1 o1 =>
        behindCaches g1 = behindCaches g /\ List.filter is_fillRoundRect o1 = []) g.
Proof. unfold drawBattery. wp_cases; split; reflexivity. Qed.

(** X20. The settings page shows the state.  For settings in their
    ranges, [drawSettingsPageStatic] fills exactly three rounded
    rectangles: the background of the row under the cursor, the button of
    the temperature unit in use and the button of the timeout option in
    force (every other button is only outlined); the row under the cursor
    is the one drawn in yellow; and the fill of the brightness bar is
    [(normalBrightness - 20) * 96 / 80] pixels wide, between 0 and the 96
    pixels that the bar leaves inside its outline. *)
Theorem settings_page_shows_the_state (pw : PowerRead) (g : Globals F) :
  SettingsInv g ->
  let sel := settingsSelection g in
  let fillW := map_range (normalBrightness g) 20 100 0 96 in
  exists g' ops,
    drawSettingsPageStatic pw g = Some (tt, g', ops) /\
    Permutation (List.filter is_fillRoundRect ops)
      [fillRoundRect 10 (32 + 35 * sel) (screenW g - 20) 33 5 (RGB565 0x2104);
       fillRoundRect (if useFahrenheit g then 135 else 90) 72 40 14 3
         (if sel =? 1 then TFT_YELLOW else TFT_WHITE);
       fillRoundRect (90 + 35 * screenTimeoutOption g) 107 32 14 3
         (if sel =? 2 then TFT_YELLOW else TFT_WHITE)] /\
    In (fillRect 92 40 fillW 8 (if sel =? 0 then TFT_YELLOW else TFT_WHITE)) ops /\
    0 <= fillW <= 96.
Proof.
  intros (Hsel & Hopt & Hnb). cbv zeta.
  pose proof (map_range_bounds (normalBrightness g) 20 100 0 96
                ltac:(lia) ltac:(lia) Hnb) as Hfill.
  match goal with |- exists g' ops, ?m g = _ /\ @?Q g' ops =>
    enough (W : wp m (fun _ g' ops => Q g' ops) g)
      by (destruct W as ([] & g' & ops & Hr & HQ); exists g', ops; split; assumption)
  end.
  cbv beta. unfold drawSettingsPageStatic.
  do 2 wp_step.
  eapply wp_call; [apply drawBattery_marks|]. intros [] g1 ob (Eg & Hob). cbv beta.
  assert (Es : settingsSelection g1 = settingsSelection g)
    by exact (f_equal settingsSelection Eg).
  assert (Eo : screenTimeoutOption g1 = screenTimeoutOption g)
    by exact (f_equal screenTimeoutOption Eg).
  assert (Eu : useFahrenheit g1 = useFahrenheit g) by exact (f_equal useFahrenheit Eg).
  assert (Eb : normalBrightness g1 = normalBrightness g)
    by exact (f_equal normalBrightness Eg).
  assert (Ew : screenW g1 = screenW g) by exact (f_equal screenW Eg).
  set (fillW := map_range (normalBrightness g) 20 100 0 96) in *.
  assert (Hs : settingsSelection g = 0 \/ settingsSelection g = 1 \/
               settingsSelection g = 2) by lia.
  assert (Ho : screenTimeoutOption g = 0 \/ screenTimeoutOption g = 1 \/
               screenTimeoutOption g = 2) by lia.
  change (upto 3) with [0; 1; 2].
  destruct Hs as [Hs | [Hs | Hs]]; destruct Ho as [Ho | [Ho | Ho]];
    destruct (useFahrenheit g) eqn:Hu;
    rewrite Hs, Ho;
    repeat first
      [ wp_step
      | progress rewrite ?Es, ?Eo, ?Eu, ?Eb, ?Ew, ?Hs, ?Ho
      | progress cbn [Z.eqb Pos.eqb negb forM_ lift]
      | lazymatch goal with
        | |- @wp _ _ (drawCenteredText _ _ _ _) _ _ => unfold drawCenteredText
        | |- context [aget timeoutLabels 0] =>
            change (aget timeoutLabels 0) with (Some "10s"%string)
        | |- context [aget timeoutLabels 1] =>
            change (aget timeoutLabels 1) with (Some "30s"%string)
        | |- context [aget timeoutLabels 2] =>
            change (aget timeoutLabels 2) with (Some "Off"%string)
        end ];
    cbn [app List.filter is_fillRoundRect];
    rewrite List.filter_app, Hob;
    cbn [app List.filter is_fillRoundRect];
    (split; [first [apply Permutation_refl | apply perm_swap]|]);
    (split; [|exact Hfill]);
    right; apply in_or_app; right;
    repeat first [left; reflexivity | right].
Qed.

Lemma graphBounds_scan history c (g : Globals F) :
  RingInv g -> length (history g) = Z.to_nat historySize -> 1 < historyCount g ->
  let xs := map (sampleAt history c g) (upto (historyCount g)) in
  let r := fold_left minMaxStep xs (sampleAt history c g 0, sampleAt history c g 0) in
  graphBounds history c g = Some (Some (graphScale (fst r) (snd r)), g, []).
Proof.
  intros HR Hlen Hc. cbv zeta. unfold graphBounds. step.
  destruct (Z.ltb_spec 1 (historyCount g)); [|lia].
  rewrite (bind_pure _ _ _ _ (graphMinMax_inv history c g HR Hlen ltac:(lia))).
  reflexivity.
Qed.

(** *** The main page *)

Ltac wp_page :=
  repeat first
    [ wp_step
    | lazymatch goal with
      | |- @wp _ _ (drawThickRoundRect _ _ _ _ _ _ _) _ _ =>
          unfold drawThickRoundRect; change (upto boxBorderWidth) with [0; 1];
          cbn [forM_]
      | |- @wp _ _ (drawThermometerIcon _ _ _) _ _ => unfold drawThermometerIcon
      | |- @wp _ _ (drawDropletIcon _ _ _) _ _ => unfold drawDropletIcon
      | |- @wp _ _ (drawBarometerIcon _ _ _) _ _ => unfold drawBarometerIcon
      | |- @wp _ _ (drawCenteredText _ _ _ _) _ _ => unfold drawCenteredText
      | |- @wp _ _ (drawCenteredTextInBox _ _ _ _ _ _) _ _ => unfold drawCenteredTextInBox
      | |- @wp _ _ (getDisplayTemp _) _ _ => unfold getDisplayTemp
      | |- @wp _ _ getTempUnit _ _ => unfold getTempUnit
      end ].

Lemma drawBattery_frame force pw (g : Globals F) :
  wp (drawBattery force pw)
     (fun _ g1 o1 =>
        behindBattery g1 = behindBattery g /\ List.filter is_fillCircle o1 = []) g.
Proof. unfold drawBattery. wp_cases; split; reflexivity. Qed.

Lemma drawMainPageStatic_resets pw (g : Globals F) :
  wp (drawMainPageStatic pw)
     (fun _ g1 _ =>
        dispTemp g1 = flit (-999) /\ dispHumidity g1 = flit (-999) /\
        dispPressure g1 = flit (-999) /\ behindCaches g1 = behindCaches g) g.
Proof.
  unfold drawMainPageStatic. do 2 wp_step.
  eapply wp_call; [apply drawBattery_marks|]. intros [] g1 ob (Eg & _). cbv beta.
  wp_page. repeat split. exact Eg.
Qed.

(** X22. The icons stay clear of the values.  [drawMainPageStatic]
    sends the clearing of the screen, the battery indicator, and for each of
    the three boxes its outline, two rounded rectangles one inside the
    other, followed by its icon: six, three and eight painted shapes.  Every
    shape of an icon lies inside the border of its box and above row
    [boxY + 43], the first row of the rectangle that a redraw of the value
    clears: redrawing a value never erases a part of the icon. *)
Theorem icons_stay_clear_of_the_values (pw : PowerRead) (g : Globals F) :
  let outline (x : Z) (color : Color) :=
    [drawRoundRect x (boxY g) boxWidth boxHeight boxRadius color;
     drawRoundRect (x + 1) (boxY g + 1) (boxWidth - 2) (boxHeight - 2) boxRadius color] in
  let clear (x : Z) :=
    opWithin (x + boxBorderWidth) (boxY g + boxBorderWidth)
             (x + boxWidth - boxBorderWidth) (boxY g + 43) in
  exists g1 g' battery thermometer droplet barometer,
    drawBattery true pw g = Some (tt, g1, battery) /\
    drawMainPageStatic pw g =
      Some (tt, g',
            fillScreen TFT_BLACK :: battery ++
            outline (tempBoxX g) COLOR_TEMP ++ thermometer ++
            outline (humidBoxX g) COLOR_HUMIDITY ++ droplet ++
            outline (pressBoxX g) COLOR_PRESSURE ++ barometer) /\
    length thermometer = 6%nat /\ length droplet = 3%nat /\ length barometer = 8%nat /\
    Forall (fun op => paints op = true) (thermometer ++ droplet ++ barometer) /\
    Forall (clear (tempBoxX g)) thermometer /\
    Forall (clear (humidBoxX g)) droplet /\
    Forall (clear (pressBoxX g)) barometer.
Proof.
  cbv zeta.
  destruct (drawBattery_frame true pw g) as ([] & g1 & battery & Hb & Eg & _).
  assert (Et : tempBoxX g1 = tempBoxX g) by exact (f_equal tempBoxX Eg).
  assert (Eh : humidBoxX g1 = humidBoxX g) by exact (f_equal humidBoxX Eg).
  assert (Ep : pressBoxX g1 = pressBoxX g) by exact (f_equal pressBoxX Eg).
  assert (Ey : boxY g1 = boxY g) by exact (f_equal boxY Eg).
  exists g1.
  enough (W : wp (drawMainPageStatic pw)
                (fun _ _ ops =>
                   exists thermometer droplet barometer,
                     ops = fillScreen TFT_BLACK :: battery ++
                       [drawRoundRect (tempBoxX g) (boxY g) boxWidth boxHeight boxRadius
                          COLOR_TEMP;
                        drawRoundRect (tempBoxX g + 1) (boxY g + 1) (boxWidth - 2)
                          (boxHeight - 2) boxRadius COLOR_TEMP] ++ thermometer ++
                       [drawRoundRect (humidBoxX g) (boxY g) boxWidth boxHeight boxRadius
                          COLOR_HUMIDITY;
                        drawRoundRect (humidBoxX g + 1) (boxY g + 1) (boxWidth - 2)
                          (boxHeight - 2) boxRadius COLOR_HUMIDITY] ++ droplet ++
                       [drawRoundRect (pressBoxX g) (boxY g) boxWidth boxHeight boxRadius
                          COLOR_PRESSURE;
                        drawRoundRect (pressBoxX g + 1) (boxY g + 1) (boxWidth - 2)
                          (boxHeight - 2) boxRadius COLOR_PRESSURE] ++ barometer /\
                     length thermometer = 6%nat /\ length droplet = 3%nat /\
                     length barometer = 8%nat /\
                     Forall (fun op => paints op = true)
                            (thermometer ++ droplet ++ barometer) /\
                     Forall (opWithin (tempBoxX g + boxBorderWidth)
                               (boxY g + boxBorderWidth)
                               (tempBoxX g + boxWidth - boxBorderWidth) (boxY g + 43))
                            thermometer /\
                     Forall (opWithin (humidBoxX g + boxBorderWidth)
                               (boxY g + boxBorderWidth)
                               (humidBoxX g + boxWidth - boxBorderWidth) (boxY g + 43))
                            droplet /\
                     Forall (opWithin (pressBoxX g + boxBorderWidth)
                               (boxY g + boxBorderWidth)
                               (pressBoxX g + boxWidth - boxBorderWidth) (boxY g + 43))
                            barometer) g).
  { destruct W as ([] & g' & ops & Hrun & t & h & p & -> & HQ).
    exists g', battery, t, h, p. split; [exact Hb|]. split; [exact Hrun|exact HQ]. }
  unfold drawMainPageStatic. do 2 wp_step. apply wp_bind.
  eapply wp_result; [exact Hb|]. cbv beta.
  wp_page. rewrite Et, Eh, Ep, Ey, !Z.add_0_r.
  change (Z.quot boxWidth 2) with 36.
  set (cy := boxY g + 22).
  exists (let cx := tempBoxX g + 36 in
          [fillCircle cx (cy + 8) 6 COLOR_TEMP;
           fillRoundRect (cx - 3) (cy - 10) 6 18 2 COLOR_TEMP;
           fillCircle cx (cy + 8) 3 TFT_BLACK; fillRect (cx - 1) (cy - 6) 2 12 TFT_BLACK;
           fillCircle cx (cy + 8) 2 COLOR_TEMP; fillRect (cx - 1) (cy - 2) 2 10 COLOR_TEMP]),
         (let cx := humidBoxX g + 36 in
          [fillCircle cx (cy + 4) 7 COLOR_HUMIDITY;
           fillTriangle cx (cy - 12) (cx - 7) (cy + 2) (cx + 7) (cy + 2) COLOR_HUMIDITY;
           fillCircle (cx - 2) (cy + 2) 2 TFT_WHITE]),
         (let cx := pressBoxX g + 36 in
          [fillCircle cx cy 10 COLOR_PRESSURE; fillCircle cx cy 7 TFT_BLACK;
           drawLine (cx - 6) cy (cx - 4) cy COLOR_PRESSURE;
           drawLine (cx + 4) cy (cx + 6) cy COLOR_PRESSURE;
           drawLine cx (cy - 6) cx (cy - 4) COLOR_PRESSURE;
           drawLine cx cy (cx + 4) (cy - 4) COLOR_PRESSURE;
           drawLine cx cy (cx + 5) (cy - 3) COLOR_PRESSURE;
           fillCircle cx cy 2 COLOR_PRESSURE]).
  cbv zeta. subst cy. split.
  { cbn [app]. reflexivity. }
  unfold boxBorderWidth, boxWidth.
  split; [reflexivity|]. split; [reflexivity|]. split; [reflexivity|].
  split; [repeat constructor|].
  split; [|split]; repeat (constructor; [cbn; lia|]); constructor.
Qed.

Lemma updateMainPageValues_shows pw (g : Globals F) :
  dispTemp g = flit (-999) -> dispHumidity g = flit (-999) ->
  dispPressure g = flit (-999) ->
  fltb (absDiff (convert (useFahrenheit g) (temperature g)) (flit (-999)))
       (flit (5 # 100)) = false ->
  fltb (absDiff (humidity g) (flit (-999))) (flit (5 # 100)) = false ->
  fltb (absDiff (pressure g) (flit (-999))) (flit (5 # 100)) = false ->
  wp (updateMainPageValues pw)
     (fun _ g2 ops =>
        dispTemp g2 = convert (useFahrenheit g) (temperature g) /\
        dispHumidity g2 = humidity g /\ dispPressure g2 = pressure g /\
        behindCaches g2 = behindCaches g /\
        In (print (fformat "%.1f" (convert (useFahrenheit g) (temperature g)))) ops /\
        In (print (if useFahrenheit g then "F" else "C")%string) ops /\
        In (print (fformat "%.0f" (humidity g))) ops /\
        In (print "%") ops /\
        In (print (fformat "%.0f" (pressure g))) ops /\
        In (print "hPa") ops) g.
Proof.
  intros Ht Hh Hp Dt Dh Dp. unfold updateMainPageValues, updateSingleBoxValue, convert in *.
  destruct (useFahrenheit g) eqn:Hu;
    repeat first
      [ wp_step
      | progress cbn [deref assign dispTemp dispHumidity dispPressure
                      set_dispTemp set_dispHumidity set_dispPressure
                      temperature humidity pressure useFahrenheit]
      | progress rewrite ?Hu, ?Ht, ?Hh, ?Hp, ?Dt, ?Dh, ?Dp
      | lazymatch goal with
        | |- @wp _ _ (drawCenteredTextInBox _ _ _ _ _ _) _ _ => unfold drawCenteredTextInBox
        | |- @wp _ _ (getDisplayTemp _) _ _ => unfold getDisplayTemp
        | |- @wp _ _ getTempUnit _ _ => unfold getTempUnit
        | |- @wp _ _ (bind (drawBattery _ _) _) _ _ =>
            eapply wp_call; [apply drawBattery_frame|];
            let Eg := fresh "Eg" in intros [] ? ? (Eg & _); cbv beta
        | |- @wp _ _ (drawBattery _ _) _ _ =>
            eapply wp_mono; [apply drawBattery_frame|];
            let Eg := fresh "Eg" in intros [] ? ? (Eg & _); cbv beta
        end ];
    cbn [app];
    (split; [exact (f_equal dispTemp Eg)|]);
    (split; [exact (f_equal dispHumidity Eg)|]);
    (split; [exact (f_equal dispPressure Eg)|]);
    (split; [exact (f_equal behindCaches Eg)|]);
    repeat split; repeat first [left; reflexivity | right].
Qed.

(** X23. A full redraw of the main page shows the current readings.
    When a full redraw is requested on the main page and no reading is
    within 0.05 of the sentinel -999 of the caches, the renderer clears the
    request and leaves the three caches equal to the current temperature
    (converted when the unit is Fahrenheit), humidity and pressure, and it
    has printed each of them, formatted, with its unit. *)
Theorem full_redraw_shows_the_current_readings
    (inp : Input F) (now : Z) (s : bool) (g : Globals F) :
  needsFullRedraw g = true -> currentPage g = 0 ->
  fltb (absDiff (convert (useFahrenheit g) (temperature g)) (flit (-999)))
       (flit (5 # 100)) = false ->
  fltb (absDiff (humidity g) (flit (-999))) (flit (5 # 100)) = false ->
  fltb (absDiff (pressure g) (flit (-999))) (flit (5 # 100)) = false ->
  exists g' ops,
    render inp now s g = Some (tt, g', ops) /\
    needsFullRedraw g' = false /\ lastDisplayUpdate g' = now /\
    dispTemp g' = convert (useFahrenheit g) (temperature g) /\
    dispHumidity g' = humidity g /\ dispPressure g' = pressure g /\
    In (print (fformat "%.1f" (convert (useFahrenheit g) (temperature g)))) ops /\
    In (print (if useFahrenheit g then "F" else "C")%string) ops /\
    In (print (fformat "%.0f" (humidity g))) ops /\ In (print "%") ops /\
    In (print (fformat "%.0f" (pressure g))) ops /\ In (print "hPa") ops.
Proof.
  intros Hfull Hpage Dt Dh Dp.
  match goal with |- exists g' ops, ?m g = _ /\ @?Q g' ops =>
    enough (W : wp m (fun _ g' ops => Q g' ops) g)
      by (destruct W as ([] & g' & ops & Hr & HQ); exists g', ops; split; assumption)
  end.
  cbv beta. unfold render. do 4 wp_step. rewrite Hfull. do 4 wp_step.
  cbn [currentPage set_lastDisplayUpdate set_needsFullRedraw]. rewrite Hpage.
  eapply wp_call; [apply drawMainPageStatic_resets|].
  intros [] g1 o1 (Ht & Hh & Hp & Eg). cbv beta.
  assert (Eu : useFahrenheit g1 = useFahrenheit g) by exact (f_equal useFahrenheit Eg).
  assert (Et : temperature g1 = temperature g) by exact (f_equal temperature Eg).
  assert (Eh : humidity g1 = humidity g) by exact (f_equal humidity Eg).
  assert (Ep : pressure g1 = pressure g) by exact (f_equal pressure Eg).
  eapply wp_mono.
  { apply updateMainPageValues_shows; rewrite ?Eu, ?Et, ?Eh, ?Ep; assumption. }
  cbv beta. rewrite Eu, Et, Eh, Ep.
  intros [] g2 o2 (Rt & Rh & Rp & E2 & I1 & I2 & I3 & I4 & I5 & I6).
  assert (E : behindCaches g2 =
              behindCaches (set_lastDisplayUpdate now (set_needsFullRedraw false g)))
    by (rewrite E2; exact Eg).
  split; [exact (f_equal needsFullRedraw E)|].
  split; [exact (f_equal lastDisplayUpdate E)|].
  do 3 (split; [assumption|]).
  cbn [app]. repeat split; apply in_or_app; right; assumption.
Qed.

(** *** The graph page *)

Lemma polyline_markers color pts : forall prev,
  List.filter is_fillCircle (polyline color prev pts) =
  map (fun p => fillCircle (fst p) (snd p) 1 color) pts.
Proof.
  induction pts as [|p pts IH]; intros prev; [reflexivity|].
  cbn [polyline map List.filter is_fillCircle]. f_equal.
  destruct prev; cbn [app List.filter is_fillCircle]; apply IH.
Qed.

Lemma behindBattery_RingInv (g g' : Globals F) :
  behindBattery g' = behindBattery g -> RingInv g -> RingInv g'.
Proof.
  intros E. unfold RingInv.
  change (tempHistory g') with (tempHistory (behindBattery g')).
  change (humidityHistory g') with (humidityHistory (behindBattery g')).
  change (pressureHistory g') with (pressureHistory (behindBattery g')).
  change (historyIndex g') with (historyIndex (behindBattery g')).
  change (historyCount g') with (historyCount (behindBattery g')).
  rewrite E. exact id.
Qed.

Lemma graphBounds_wp history c (g : Globals F) :
  RingInv g -> length (history g) = Z.to_nat historySize ->
  wp (graphBounds history c)
     (fun b g' o =>
        g' = g /\ o = [] /\ (historyCount g <= 1 -> b = None) /\
        (1 < historyCount g -> exists x, b = Some x)) g.
Proof.
  intros HR Hlen. destruct (Z_le_gt_dec (historyCount g) 1) as [Hc|Hc].
  - eapply wp_result; [apply graphBounds_placeholder; exact Hc|].
    repeat split. intros Hx. lia.
  - eapply wp_result; [apply (graphBounds_scan history c g HR Hlen); lia|].
    repeat split; [intros Hx; lia|]. intros _. eexists. reflexivity.
Qed.

Lemma drawGraphPageStatic_wp
    (title : string) (history : Globals F -> list F) (color : Color) (unit_ : string)
    (cur : F) (c : bool) (pw : PowerRead) (g : Globals F) :
  RingInv g -> HistoryOf history ->
  wp (drawGraphPageStatic title history color unit_ cur c pw)
     (fun _ g' ops =>
        graphDispValue g' = flit (-999) /\ behindCaches g' = behindCaches g /\
        length (List.filter is_fillCircle ops) =
          Z.to_nat (if 1 <? historyCount g then historyCount g else 0) /\
        (historyCount g <= 1 -> In (print "Collecting...") ops)) g.
Proof.
  intros HR HH.
  unfold drawGraphPageStatic. do 2 wp_step.
  eapply wp_call; [apply drawBattery_frame|]. intros [] g1 ob (Eg & Hob). cbv beta.
  pose proof (behindBattery_RingInv _ _ Eg HR) as HR1.
  assert (Ec : historyCount g1 = historyCount g) by exact (f_equal historyCount Eg).
  repeat (lazymatch goal with
          | |- @wp _ _ (bind (graphBounds _ _) _) _ _ => fail
          | _ => wp_step
          end).
  eapply wp_call; [apply (graphBounds_wp history c g1 HR1 (HH g1 HR1))|].
  intros b g2 o2 (-> & -> & Hnone & Hsome). cbv beta. rewrite Ec in Hnone, Hsome.
  destruct b as [[[mn mx] rg]|].
  - destruct (Z.ltb_spec 1 (historyCount g)) as [Hc|Hc];
      [|specialize (Hnone Hc); discriminate].
    repeat first
      [ wp_step
      | lazymatch goal with
        | |- @wp _ _ (drawGraphLine _ _ _ _ _ _ _ _ _) _ _ =>
            eapply wp_result;
            [apply (drawGraphLine_run _ _ _ _ _ _ _ _ _ _ HR1 (HH g1 HR1))|];
            cbv beta
        end ].
    split; [reflexivity|]. split; [exact (f_equal behindCaches Eg)|].
    cbn [app List.filter is_fillCircle].
    rewrite List.filter_app, Hob. cbn [app List.filter is_fillCircle].
    rewrite !app_nil_r, polyline_markers, !length_map, Ec.
    unfold upto. rewrite length_map, length_seq.
    split; [reflexivity|]. intros Hx. lia.
  - destruct (Z.ltb_spec 1 (historyCount g)) as [Hc|Hc].
    { destruct (Hsome Hc) as (x & Hx). discriminate. }
    repeat first
      [ wp_step
      | lazymatch goal with
        | |- @wp _ _ (drawCenteredText _ _ _ _) _ _ => unfold drawCenteredText
        end ].
    split; [reflexivity|]. split; [exact (f_equal behindCaches Eg)|].
    cbn [app List.filter is_fillCircle].
    rewrite List.filter_app, Hob. cbn [app List.filter is_fillCircle].
    split; [reflexivity|]. intros _.
    right. apply in_or_app. right. repeat first [left; reflexivity | right].
Qed.

(** X24. A graph page draws one marker for each stored sample.  For a
    well-formed buffer, [drawGraphPageStatic] returns and leaves the cached
    graph value at the sentinel -999; with two or more stored samples it
    draws exactly as many markers as there are samples; with fewer it draws
    no marker and prints the placeholder. *)
Theorem graph_page_draws_one_marker_per_sample
    (title : string) (history : Globals F -> list F) (color : Color) (unit_ : string)
    (cur : F) (c : bool) (pw : PowerRead) (g : Globals F) :
  RingInv g -> HistoryOf history ->
  exists g' ops,
    drawGraphPageStatic title history color unit_ cur c pw g = Some (tt, g', ops) /\
    graphDispValue g' = flit (-999) /\
    length (List.filter is_fillCircle ops) =
      Z.to_nat (if 1 <? historyCount g then historyCount g else 0) /\
    (historyCount g <= 1 -> In (print "Collecting...") ops).
Proof.
  intros HR HH.
  destruct (drawGraphPageStatic_wp title history color unit_ cur c pw g HR HH)
    as ([] & g' & ops & Hrun & Hv & _ & Hn & Hp).
  exists g', ops. repeat split; assumption.
Qed.

Lemma updateGraphValue_shows (value : F) color unit_ title (g : Globals F) :
  graphDispValue g = flit (-999) ->
  fltb (absDiff value (flit (-999))) (flit (5 # 100)) = false ->
  wp (updateGraphValue value color unit_ title)
     (fun _ g2 ops =>
        g2 = set_graphDispValue value g /\
        In (print (fformat "%.1f" value +:+ " " +:+ unit_)) ops) g.
Proof.
  intros Hv Hd. unfold updateGraphValue. do 2 wp_step. rewrite Hv, Hd.
  repeat wp_step. split; [reflexivity|].
  cbn [app]. repeat first [left; reflexivity | right].
Qed.

(** X26. A full redraw of a graph page shows the current value.  When a
    full redraw is requested on the temperature, humidity or pressure page,
    the buffer being well formed and the current value of the page not
    within 0.05 of the sentinel -999, the renderer clears the request and
    leaves the cached graph value equal to the current value (the
    temperature converted when the unit is Fahrenheit), which it has
    printed with its unit next to the title. *)
Theorem full_redraw_shows_the_current_graph_value
    (inp : Input F) (now : Z) (s : bool) (g : Globals F) :
  needsFullRedraw g = true -> RingInv g ->
  1 <= currentPage g <= 3 ->
  fltb (absDiff (graphValue g) (flit (-999))) (flit (5 # 100)) = false ->
  exists g' ops,
    render inp now s g = Some (tt, g', ops) /\
    needsFullRedraw g' = false /\
    graphDispValue g' = graphValue g /\
    In (print (fformat "%.1f" (graphValue g) +:+ " " +:+ graphUnit g)) ops.
Proof.
  intros Hfull HR Hrange Hd.
  assert (HR0 : RingInv (set_lastDisplayUpdate now (set_needsFullRedraw false g)))
    by exact HR.
  assert (Hpage : forall (value : F) title history color unit_ c pw,
            HistoryOf history ->
            fltb (absDiff value (flit (-999))) (flit (5 # 100)) = false ->
            wp (bind (drawGraphPageStatic title history color unit_ value c pw)
                     (fun _ => updateGraphValue value color unit_ title))
               (fun _ g' ops =>
                  needsFullRedraw g' = false /\ graphDispValue g' = value /\
                  In (print (fformat "%.1f" value +:+ " " +:+ unit_)) ops)
               (set_lastDisplayUpdate now (set_needsFullRedraw false g))).
  { intros value title history color unit_ c pw HH Hd0.
    eapply wp_call; [apply (drawGraphPageStatic_wp _ _ _ _ _ _ _ _ HR0 HH)|].
    intros [] g1 o1 (Hv & Eg & _). cbv beta.
    eapply wp_mono; [apply (updateGraphValue_shows _ _ _ _ _ Hv Hd0)|]. cbv beta.
    intros [] g2 o2 (-> & Hin).
    split; [exact (f_equal needsFullRedraw Eg)|]. split; [reflexivity|].
    apply in_or_app. right. exact Hin. }
  assert (Hwp : forall (m : M F unit) (Q : Globals F -> list DisplayOp -> Prop),
            wp m (fun _ g' ops => Q g' ops) g ->
            exists g' ops, m g = Some (tt, g', ops) /\ Q g' ops).
  { intros m Q ([] & g' & ops & Hr & HQ). exists g', ops. split; assumption. }
  assert (Hp : currentPage g = 1 \/ currentPage g = 2 \/ currentPage g = 3) by lia.
  unfold graphValue, graphUnit in *.
  destruct Hp as [Hp|[Hp|Hp]]; rewrite Hp in *; apply Hwp; unfold render;
    do 4 wp_step; rewrite Hfull; do 4 wp_step;
    cbn [currentPage set_lastDisplayUpdate set_needsFullRedraw]; rewrite Hp.
  - unfold getTempUnit, getDisplayTemp, convert in *.
    destruct (useFahrenheit g) eqn:Hu;
      repeat (lazymatch goal with
              | |- @wp _ _ (bind (drawGraphPageStatic _ _ _ _ _ _ _) _) _ _ => fail
              | _ => first
                  [ wp_step
                  | progress cbn [useFahrenheit temperature
                                  set_lastDisplayUpdate set_needsFullRedraw]
                  | progress rewrite ?Hu ]
              end).
    all: eapply wp_call;
      [apply (drawGraphPageStatic_wp _ _ _ _ _ _ _ _ HR0 HistoryOf_temp)|];
      intros [] g1 o1 (Hv & Eg & _); cbv beta;
      assert (Eu : useFahrenheit g1 = useFahrenheit g)
        by exact (f_equal useFahrenheit Eg);
      assert (Et : temperature g1 = temperature g)
        by exact (f_equal temperature Eg);
      repeat (lazymatch goal with
              | |- @wp _ _ (updateGraphValue _ _ _ _) _ _ => fail
              | _ => first [ wp_step | progress rewrite ?Eu, ?Et, ?Hu ]
              end);
      (eapply wp_mono; [apply (updateGraphValue_shows _ _ _ _ _ Hv Hd)|]); cbv beta;
      intros [] g2 o2 (-> & Hin);
      (split; [exact (f_equal needsFullRedraw Eg)|]); (split; [reflexivity|]);
      rewrite Eu, Hu in Hin; cbn [app]; apply in_or_app; right; exact Hin.
  - wp_step. wp_step. cbn [humidity set_lastDisplayUpdate set_needsFullRedraw].
    eapply wp_mono; [apply (Hpage _ _ _ _ _ _ _ HistoryOf_humidity Hd)|].
    cbv beta. intros [] g' ops Hq. exact Hq.
  - wp_step. wp_step. cbn [pressure set_lastDisplayUpdate set_needsFullRedraw].
    eapply wp_mono; [apply (Hpage _ _ _ _ _ _ _ HistoryOf_pressure Hd)|].
    cbv beta. intros [] g' ops Hq. exact Hq.
Qed.

(** *** Waking up *)

(** X25. A key pressed on a dark screen lights it and repaints the page.
    In every execution, a pass that starts with the screen off and receives
    a key event (the timeout check reading the clock less than 10 s after
    the wake-up) sends [setBrightness normalBrightness], then clears the
    screen and draws; it ends with the screen on, no redraw pending and the
    activity time reset, and the key itself has no effect: the page and the
    settings are what they were. *)
Theorem wake_up_repaints_the_page (inp : Input F) (g : Globals F) :
  reachable g -> screenState g = SCREEN_OFF -> keyEvent inp = true ->
  usub (in_millisTimeout inp) (in_millisWake inp) < 10000 ->
  exists g' rest,
    loop inp g =
      Some (tt, g', setBrightness (normalBrightness g) :: fillScreen TFT_BLACK :: rest) /\
    Forall drawing rest /\
    screenState g' = SCREEN_ON /\ needsFullRedraw g' = false /\
    lastActivityTime g' = in_millisWake inp /\
    currentPage g' = currentPage g /\
    settingsSelection g' = settingsSelection g /\
    normalBrightness g' = normalBrightness g /\
    useFahrenheit g' = useFahrenheit g /\
    screenTimeoutOption g' = screenTimeoutOption g.
Proof.
  intros Hreach Hoff Hkey Hrecent.
  pose proof (reachable_Inv g Hreach) as HI. pose proof HI as (HR & _ & HS).
  pose proof (reachable_NavInv g Hreach) as (Hpage & _).
  destruct (handleKeyboard_spec inp g HS)
    as (g1 & o1 & Hk & E1 & S1 & _ & _ & _ & Hwake & _).
  destruct (Hwake Hoff) as (Ho1 & Hg1). rewrite Hkey in Ho1, Hg1. subst o1.
  pose proof (behindInput_RingInv _ _ E1 HR) as HR1.
  destruct (RingInv_beforeRender inp g1 HR1) as (HR4 & _).
  assert (Hto : timedOut (in_millisTimeout inp) g1 = false).
  { apply timedOut_recent; [apply S1|]. rewrite Hg1. exact Hrecent. }
  assert (Hon : screenState (beforeRender inp g1) = SCREEN_ON).
  { rewrite screenState_beforeRender, Hto, Hg1. reflexivity. }
  destruct (navigation_beforeRender inp g1) as (Ep & Ef & _).
  destruct (settings_beforeRender inp g1) as (Es & Eo & Eb).
  set (now := in_millisLoop inp).
  set (should := displayInterval <=? usub now (lastDisplayUpdate (beforeRender inp g1))).
  destruct (Draws_render inp now should _ HR4) as ([] & g' & o4 & Hr & E4 & F4).
  assert (Hfull : needsFullRedraw (beforeRender inp g1) = true)
    by (rewrite Ef, Hg1; reflexivity).
  assert (Hp4 : currentPage (beforeRender inp g1) = currentPage g)
    by (rewrite Ep, Hg1; reflexivity).
  destruct (render_full_head inp now should _ g' o4 Hfull ltac:(rewrite Hp4; exact Hpage) Hr)
    as (rest & ->).
  pose proof (render_frame _ _ _ _ _ _ Hr) as Efr. rewrite Hfull in Efr.
  exists g', rest. split.
  { rewrite (loop_run inp g g1 _ HI Hk), Hon. cbn [ScreenState_eqb negb].
    fold now. fold should. rewrite Hr, Hto. reflexivity. }
  split; [inversion F4; assumption|].
  destruct (behindDisplay_fields _ _ E4)
    as (Fs & Fsel & Fo & Fb & _ & _ & _ & _ & _ & _ & _ & _ & _ & Fp).
  split; [rewrite Fs; exact Hon|].
  split; [exact (f_equal needsFullRedraw Efr)|].
  split.
  { transitivity (lastActivityTime (beforeRender inp g1));
      [exact (f_equal lastActivityTime E4)|].
    transitivity (lastActivityTime g1); [|rewrite Hg1; reflexivity].
    unfold beforeRender, afterHistory, afterTimeout, appendedState.
    destruct (timedOut _ g1), (_ || _); cbn [withSensors];
      repeat match goal with |- context [if ?b then _ else _] => destruct b end;
      reflexivity. }
  split; [rewrite Fp; exact Hp4|].
  split; [rewrite Fsel, Es, Hg1; reflexivity|].
  split; [rewrite Fb, Eb, Hg1; reflexivity|].
  split; [|rewrite Fo, Eo, Hg1; reflexivity].
  transitivity (useFahrenheit (beforeRender inp g1)); [exact (f_equal useFahrenheit E4)|].
  transitivity (useFahrenheit g1); [|rewrite Hg1; reflexivity].
  unfold beforeRender, afterHistory, afterTimeout, appendedState.
  destruct (timedOut _ g1), (_ || _); cbn [withSensors];
    repeat match goal with |- context [if ?b then _ else _] => destruct b end;
    reflexivity.
Qed.
End Properties.

(* ================================================================== *)
(** * The properties on concrete inputs *)

Lemma Q_fltb_true (a b : Q) : negb (Qle_bool b a) = true <-> (a < b)%Q.
Proof.
  rewrite negb_true_iff, <- not_true_iff_false, Qle_bool_iff.
  split; [apply Qnot_le_lt|apply Qlt_not_le].
Qed.

#[export] Instance Q_FloatOrder : FloatOrder Q.
Proof.
  split.
  - intros a. cbn. apply negb_false_iff, Qle_bool_iff, Qle_refl.
  - intros a b c. cbn. rewrite !Q_fltb_true. apply Qlt_trans.
Qed.

(** The rationals read as themselves: exact arithmetic. *)
#[export] Instance Q_ExactArith : ExactArith Q (fun q => q).
Proof.
  split; try (intros; reflexivity).
  intros a b. apply Q_fltb_true.
Qed.

(** The comparison of binary32 is a strict order, NaN and the infinities
    included. *)
#[export] Instance Binary32_FloatOrder : FloatOrder SpecFloat.spec_float.
Proof.
  split.
  - intros [s|s| |s m e]; cbn [fltb Binary32_FloatOps SFless];
      try reflexivity;
      try (destruct s; reflexivity);
      apply negb_false_iff, Qle_bool_iff, Qle_refl.
  - intros [sa|sa| |sa ma ea] [sb|sb| |sb mb eb] [sc|sc| |sc mc ec];
      cbn [fltb Binary32_FloatOps SFless]; intros Hab Hbc;
      try discriminate; try assumption; try reflexivity;
      try (rewrite !Q_fltb_true in *; eapply Qlt_trans; eassumption);
      try (subst; cbn [negb andb] in *; congruence);
      try (destruct sa; destruct sb; destruct sc; cbn [negb andb] in *; congruence).
Qed.

Lemma exampleStart_reachable : reachable exampleStart.
Proof.
  apply (reach_setup exampleSetup exampleStart exampleStartOps).
  vm_compute. reflexivity.
Defined.

Lemma exampleFilled_RingInv : RingInv exampleFilled.
Proof. repeat split; vm_compute; try reflexivity; discriminate. Defined.

Example ring_after_three :
  readOrdered tempHistory false exampleFilled = Some ([1%Q; 2%Q; 3%Q], exampleFilled, []).
Proof. vm_compute. reflexivity. Qed.

Example ring_after_61 :
  exists g r,
    appendAll exampleSamples initialGlobals = Some (tt, g, []) /\
    historyIndex g = 1 /\ historyCount g = 60 /\
    readOrdered tempHistory false g = Some (r, g, []) /\
    head r = Some 2%Q /\ last r = Some 61%Q /\ length r = 60%nat.
Proof.
  eexists _, _. split; [vm_compute; reflexivity|].
  split; [reflexivity|]. split; [reflexivity|].
  split; [vm_compute; reflexivity|]. repeat split.
Qed.

Example scaler_flat : graphScale 20%Q 21%Q = (39 # 2, 43 # 2, 2%Q).
Proof. vm_compute. reflexivity. Qed.

Example scaler_wide : graphScale 20%Q 30%Q = (19.0%Q, 31.0%Q, 12.00%Q).
Proof. vm_compute. reflexivity. Qed.

Example key_h_screen_on :
  exists g' ops, loop exampleKeyH exampleStart = Some (tt, g', ops) /\
    currentPage g' = 2 /\ screenState g' = SCREEN_ON /\ length ops = 33%nat.
Proof. eexists _, _. split; [vm_compute; reflexivity|]. repeat split. Qed.

Example key_h_screen_off :
  exists g' ops,
    loop exampleKeyH (set_screenState SCREEN_OFF exampleStart) = Some (tt, g', ops) /\
    currentPage g' = 0 /\ screenState g' = SCREEN_ON /\ head ops = Some (setBrightness 80).
Proof. eexists _, _. split; [vm_compute; reflexivity|]. repeat split. Qed.

(** [setup] stores the first point and leaves [lastHistoryUpdate] at 0: the
    threshold of the first append made by [loop] is counted from 0, not
    from the end of [setup] (2600 on the clock here). *)
Example first_threshold_counted_from_zero :
  lastActivityTime exampleStart = 2600 /\
  lastHistoryUpdate exampleStart = 0 /\
  thresholdCrossed 59999 (lastHistoryUpdate exampleStart) = false /\
  thresholdCrossed 60000 (lastHistoryUpdate exampleStart) = true.
Proof. repeat split. Qed.

(** Brightness 80, cursor on brightness, the decrement key four times:
    60, 40, 20, 20. *)
Example brightness_clamps_at_20 :
  exists g',
    forM_ [","; ","; ","; ","]%char handleKey (set_currentPage 4 exampleStart) =
    Some (tt, g', [setBrightness 60; setBrightness 40; setBrightness 20; setBrightness 20]) /\
    normalBrightness g' = 20.
Proof. eexists. split; [vm_compute; reflexivity|reflexivity]. Qed.

(** Timeout option 10 s, no input: the screen is still on 9999 ms after the
    last activity and goes off at 10000 ms, once; the next key event turns
    it on again and requests a full redraw. *)
Example timeout_then_wake :
  let g := set_screenTimeoutOption 0 exampleStart in
  (exists g1 ops1,
     loop (exampleIdle 12599) g = Some (tt, g1, ops1) /\ screenState g1 = SCREEN_ON) /\
  exists g1 ops1 g2 ops2 g3,
    loop (exampleIdle 12600) g = Some (tt, g1, ops1) /\
    screenState g1 = SCREEN_OFF /\ head ops1 = Some (setBrightness 0) /\
    loop (exampleIdle 12700) g1 = Some (tt, g2, ops2) /\
    screenState g2 = SCREEN_OFF /\ ops2 = [] /\
    handleKeyboard exampleKeyH g2 = Some (tt, g3, [setBrightness 80]) /\
    screenState g3 = SCREEN_ON /\ needsFullRedraw g3 = true /\ currentPage g3 = 0.
Proof.
  cbv zeta. split.
  - eexists _, _. split; [vm_compute; reflexivity|reflexivity].
  - eexists _, _, _, _, _.
    split; [vm_compute; reflexivity|]. split; [reflexivity|]. split; [reflexivity|].
    split; [vm_compute; reflexivity|]. split; [reflexivity|]. split; [reflexivity|].
    split; [vm_compute; reflexivity|]. repeat split.
Qed.


Lemma fifo_overwrite_after_61_witness :
  length exampleSamples = 61%nat /\
  exists g r,
    appendAll exampleSamples initialGlobals = Some (tt, g, []) /\
    readOrdered tempHistory false g = Some (r, g, []) /\
    r = map s_temp (drop 1 exampleSamples) /\
    length r = 60%nat /\
    last r = s_temp <$> exampleSamples !! 60%nat /\
    (forall j, r !! j = s_temp <$> exampleSamples !! S j) /\
    (forall x, exampleSamples !! 0%nat = Some x ->
       ~ In (s_temp x) (map s_temp (drop 1 exampleSamples)) -> ~ In (s_temp x) r) /\
    readOrdered humidityHistory false g =
      Some (map s_humidity (drop 1 exampleSamples), g, []) /\
    readOrdered pressureHistory false g =
      Some (map s_pressure (drop 1 exampleSamples), g, []).
Proof.
  split; [reflexivity|].
  apply (fifo_overwrite_after_61 exampleSamples). reflexivity.
Defined.

Lemma exampleFlat32_RingInv : RingInv exampleFlat32.
Proof. repeat split; vm_compute; try reflexivity; discriminate. Defined.

Lemma exampleFlat_RingInv : RingInv exampleFlat.
Proof. repeat split; vm_compute; try reflexivity; discriminate. Defined.

(** The flat series of two readings of 15.3 degrees, in binary32 and on the
    rationals, where the bounds are exactly 2 apart. *)
Lemma graph_scaler_bounds_witness :
  (RingInv exampleFlat32 /\
   length (tempHistory exampleFlat32) = Z.to_nat historySize /\
   1 < historyCount exampleFlat32 /\
   exists lo hi rg,
     graphBounds tempHistory false exampleFlat32 =
       Some (Some (lo, hi, rg), exampleFlat32, []) /\
     (lo, hi, rg) =
       (let mid := fdiv (fadd (float32 (153 # 10)) (float32 (153 # 10))) (flit 2) in
        (fsub mid (flit 1), fadd mid (flit 1), flit 2))) /\
  (RingInv exampleFlat /\
   length (tempHistory exampleFlat) = Z.to_nat historySize /\
   1 < historyCount exampleFlat /\
   exists lo hi rg,
     graphBounds tempHistory false exampleFlat =
       Some (Some (lo, hi, rg), exampleFlat, []) /\
     (hi - lo == 2)%Q /\ ((hi + lo) / 2 == 15.3)%Q /\ (rg == 2)%Q).
Proof.
  split.
  - split; [exact exampleFlat32_RingInv|]. split; [reflexivity|]. split; [reflexivity|].
    destruct (graph_scaler_bounds tempHistory false exampleFlat32
                exampleFlat32_RingInv eq_refl eq_refl)
      as (xs & mn & mx & lo & hi & rg & Hread & _ & (Hmn & _) & (Hmx & _) & Hb & Hf & _).
    exists lo, hi, rg. split; [exact Hb|].
    assert (Hxs : xs = [float32 (153 # 10); float32 (153 # 10)]).
    { vm_compute in Hread. injection Hread as <-. reflexivity. }
    rewrite Hxs in Hmn, Hmx.
    assert (Emn : mn = float32 (153 # 10)).
    { destruct Hmn as [<-|[<-|[]]]; reflexivity. }
    assert (Emx : mx = float32 (153 # 10)).
    { destruct Hmx as [<-|[<-|[]]]; reflexivity. }
    rewrite Emn, Emx in Hf. rewrite Hf. reflexivity.
  - split; [exact exampleFlat_RingInv|]. split; [reflexivity|]. split; [reflexivity|].
    destruct (graph_scaler_bounds tempHistory false exampleFlat
                exampleFlat_RingInv eq_refl eq_refl)
      as (xs & mn & mx & lo & hi & rg & Hread & _ & (Hmn & _) & (Hmx & _) & Hb & _ & Hex).
    exists lo, hi, rg. split; [exact Hb|].
    assert (Hxs : xs = [15.3%Q; 15.3%Q]).
    { vm_compute in Hread. injection Hread as <-. reflexivity. }
    rewrite Hxs in Hmn, Hmx.
    assert (Emn : mn = 15.3%Q).
    { destruct Hmn as [<-|[<-|[]]]; reflexivity. }
    assert (Emx : mx = 15.3%Q).
    { destruct Hmx as [<-|[<-|[]]]; reflexivity. }
    destruct (Hex (fun q => q) Q_ExactArith) as (Hflat & _).
    rewrite Emn, Emx in Hflat.
    destruct (Hflat ltac:(reflexivity)) as (_ & _ & Hspan & Hmid & Hrg).
    split; [exact Hspan|]. split; [|exact Hrg].
    rewrite Hmid. reflexivity.
Defined.

Lemma key_wakes_before_it_is_interpreted_witness :
  keyEvent exampleKeyH = true /\
  (screenState exampleStart = SCREEN_OFF ->
     handleKeyboard exampleKeyH exampleStart =
     Some (tt, set_needsFullRedraw true (set_screenState SCREEN_ON
                 (set_lastActivityTime (in_millisWake exampleKeyH) exampleStart)),
           [setBrightness (normalBrightness exampleStart)])) /\
  (screenState exampleStart = SCREEN_ON ->
     handleKeyboard exampleKeyH exampleStart =
     forM_ (in_word exampleKeyH) handleKey
       (set_lastActivityTime (in_millisWake exampleKeyH) exampleStart)) /\
  (forall c, in_word exampleKeyH = [c] -> c = "h"%char \/ c = "H"%char ->
     currentPage exampleStart = 0 ->
     (screenState exampleStart = SCREEN_ON ->
        exists g', handleKeyboard exampleKeyH exampleStart = Some (tt, g', []) /\
          currentPage g' = 2 /\ needsFullRedraw g' = true /\ screenState g' = SCREEN_ON) /\
     (screenState exampleStart = SCREEN_OFF ->
        exists g', handleKeyboard exampleKeyH exampleStart =
                   Some (tt, g', [setBrightness (normalBrightness exampleStart)]) /\
          currentPage g' = 0 /\ needsFullRedraw g' = true /\ screenState g' = SCREEN_ON)).
Proof.
  split; [reflexivity|].
  apply (key_wakes_before_it_is_interpreted exampleKeyH exampleStart). reflexivity.
Defined.

Lemma always_on_never_turns_off_witness :
  reachable exampleStart /\
  (forall now (g0 : Globals Q), screenTimeoutOption g0 = 2 ->
     updateScreenTimeout now g0 = Some (tt, g0, [])) /\
  exists g' ops,
    loop exampleKeyH exampleStart = Some (tt, g', ops) /\
    (screenTimeoutOption g' = 2 ->
       screenState g' =
         (if keyEvent exampleKeyH then SCREEN_ON else screenState exampleStart) /\
       (screenState exampleStart = SCREEN_ON -> screenState g' = SCREEN_ON) /\
       ~ In (setBrightness 0) ops) /\
    (screenTimeoutOption exampleStart = 2 ->
     usub (in_millisTimeout exampleKeyH) (in_millisWake exampleKeyH) < 10000 ->
     screenState exampleStart = SCREEN_ON -> screenState g' = SCREEN_ON).
Proof.
  split; [exact exampleStart_reachable|].
  apply (always_on_never_turns_off exampleKeyH exampleStart).
  exact exampleStart_reachable.
Defined.

Lemma history_append_gated_by_time_witness :
  reachable exampleStart /\
  (exists ws ts,
     Recorded ws ts exampleStart /\
     Spaced (0 :: ts) /\
     lastHistoryUpdate exampleStart = default 0 (last (0 :: ts)) /\
     length ws = S (length ts) /\
     readOrdered tempHistory false exampleStart =
       Some (lastN 60 (map s_temp ws), exampleStart, [])) /\
  exists g' ops,
    loop exampleKeyH exampleStart = Some (tt, g', ops) /\
    temperature g' = in_cTemp exampleKeyH /\
    humidity g' = in_humidity exampleKeyH /\
    pressure g' = fdiv (in_qmpPressure exampleKeyH) (flit 100) /\
    if thresholdCrossed (in_millisHistory exampleKeyH) (lastHistoryUpdate exampleStart) then
      lastHistoryUpdate g' = in_millisHistory exampleKeyH /\
      tempHistory g' =
        <[Z.to_nat (historyIndex exampleStart) := in_cTemp exampleKeyH]>
          (tempHistory exampleStart) /\
      humidityHistory g' =
        <[Z.to_nat (historyIndex exampleStart) := in_humidity exampleKeyH]>
          (humidityHistory exampleStart) /\
      pressureHistory g' =
        <[Z.to_nat (historyIndex exampleStart) :=
            fdiv (in_qmpPressure exampleKeyH) (flit 100)]>
          (pressureHistory exampleStart) /\
      historyIndex g' = (historyIndex exampleStart + 1) mod historySize /\
      historyCount g' = Z.min (historyCount exampleStart + 1) historySize
    else
      lastHistoryUpdate g' = lastHistoryUpdate exampleStart /\
      tempHistory g' = tempHistory exampleStart /\
      humidityHistory g' = humidityHistory exampleStart /\
      pressureHistory g' = pressureHistory exampleStart /\
      historyIndex g' = historyIndex exampleStart /\
      historyCount g' = historyCount exampleStart.
Proof.
  split; [exact exampleStart_reachable|].
  apply (history_append_gated_by_time exampleKeyH exampleStart).
  exact exampleStart_reachable.
Defined.

Lemma settings_indices_stay_in_range_witness :
  reachable exampleStart /\
  exists g1 ops1,
    handleKeyboard exampleKeyH exampleStart = Some (tt, g1, ops1) /\
    0 <= settingsSelection g1 <= 2 /\
    0 <= screenTimeoutOption g1 <= 2 /\
    20 <= normalBrightness g1 <= 100 /\
    0 <= screenTimeoutOption g1 < Z.of_nat (length screenTimeoutValues) /\
    is_Some (aget screenTimeoutValues (screenTimeoutOption g1)) /\
    exists g2 ops2, updateScreenTimeout 5000 g1 = Some (tt, g2, ops2).
Proof.
  split; [exact exampleStart_reachable|].
  apply (settings_indices_stay_in_range exampleKeyH 5000 exampleStart).
  exact exampleStart_reachable.
Defined.

Lemma history_append_keeps_ring_invariant_witness :
  RingInv exampleFilled /\
  (exists g1, historyAppend exampleFilled = Some (tt, g1, []) /\
     RingInv g1 /\ 1 <= historyCount g1) /\
  exists g', updateHistory 60000 exampleFilled = Some (tt, g', []) /\
    RingInv g' /\ 1 <= historyCount g' /\
    forall i, 0 <= i < historyCount g' ->
      0 <= readIndex g' i < historySize /\
      is_Some (aget (tempHistory g') (readIndex g' i)) /\
      is_Some (aget (humidityHistory g') (readIndex g' i)) /\
      is_Some (aget (pressureHistory g') (readIndex g' i)).
Proof.
  split; [exact exampleFilled_RingInv|].
  apply (history_append_keeps_ring_invariant exampleFilled 60000).
  exact exampleFilled_RingInv.
Defined.

(* ================================================================== *)
(** * The further properties on concrete inputs *)

(** ** The scaler and the redraw threshold in binary32 *)

(** On the values of the two runs below, the operations between two
    [float]s give what the binary32 operations of [SpecFloat] give. *)
Example binary32_operations_agree :
  let a := float32 (51 # 1000) in
  let b := float32 (1 # 1000) in
  let x := float32 (153 # 10) in
  fsub a b = SpecFloat.SFsub 24 128 a b /\
  fsub x x = SpecFloat.SFsub 24 128 x x /\
  fadd x x = SpecFloat.SFadd 24 128 x x /\
  fsub x (flit 1) = SpecFloat.SFsub 24 128 x (float32 1) /\
  fadd x (flit 1) = SpecFloat.SFadd 24 128 x (float32 1).
Proof. cbv zeta. repeat split; vm_compute; reflexivity. Qed.

(** C3, counterexample.  Two stored readings of 15.3 degrees (the float
    15.30000019...): the smallest and the largest sample are equal, the
    flat case applies, and the bounds the code computes are 14.30000019...
    and 16.29999924...: [mid + 1.0] is half-way between two floats and is
    rounded down.  The bounds are 1.99999905 apart, not 2.0, and their
    midpoint is not the midpoint of the samples. *)
Lemma flat_series_span_is_not_two :
  exists lo hi rg,
    readOrdered tempHistory false exampleFlat32 =
      Some ([float32 (153 # 10); float32 (153 # 10)], exampleFlat32, []) /\
    graphBounds tempHistory false exampleFlat32 =
      Some (Some (lo, hi, rg), exampleFlat32, []) /\
    (SF2Q (float32 (153 # 10)) - SF2Q (float32 (153 # 10)) < 2)%Q /\
    (SF2Q lo == 14994637 # 1048576)%Q /\ (SF2Q hi == 8545894 # 524288)%Q /\
    (SF2Q hi - SF2Q lo == 2097151 # 1048576)%Q /\
    ~ (SF2Q hi - SF2Q lo == 2)%Q /\
    ~ ((SF2Q hi + SF2Q lo) / 2 ==
       (SF2Q (float32 (153 # 10)) + SF2Q (float32 (153 # 10))) / 2)%Q.
Proof.
  eexists _, _, _.
  split; [vm_compute; reflexivity|]. split; [vm_compute; reflexivity|].
  split; [reflexivity|]. split; [reflexivity|]. split; [reflexivity|].
  split; [reflexivity|]. split; intros E; vm_compute in E; discriminate E.
Qed.


Lemma exampleDrawn_reachable : reachable exampleDrawn.
Proof.
  apply (reach_loop (exampleIdle 3000) exampleStart exampleDrawn exampleDrawnOps
           exampleStart_reachable).
  vm_compute. reflexivity.
Defined.

Lemma exampleShown : Shown (exampleStartOps ++ exampleDrawnOps) exampleDrawn.
Proof.
  apply (shown_pass (exampleIdle 3000) exampleStart exampleDrawn).
  - apply (shown_setup exampleSetup). vm_compute. reflexivity.
  - vm_compute. reflexivity.
Defined.

Lemma exampleFilled_Inv : Inv exampleFilled.
Proof. repeat split; vm_compute; try reflexivity; discriminate. Defined.

Lemma exampleStart_SettingsInv : SettingsInv exampleStart.
Proof. repeat split; vm_compute; discriminate. Defined.

(** The timeout across the overflow of the clock: the last activity was
    5000 ms before 2^32; the screen is still on when the clock shows 4999
    and goes off when it shows 5000. *)
Example timeout_across_clock_wrap :
  updateScreenTimeout 4999 exampleNearWrap = Some (tt, exampleNearWrap, []) /\
  updateScreenTimeout 5000 exampleNearWrap =
    Some (tt, set_screenState SCREEN_OFF exampleNearWrap, [setBrightness 0]).
Proof. split; vm_compute; reflexivity. Qed.

(** A battery at 7 %: the symbol is cleared when the flash interval has
    passed, and drawn again, in red, one interval later. *)
Example low_battery_blink :
  exists g1 g2 rest,
    drawBattery false exampleLowPower exampleDrawn =
      Some (tt, g1, [fillRect 182 2 58 14 TFT_BLACK]) /\
    batteryFlashOn g1 = false /\
    drawBattery false {| pw_level := 7; pw_charging := false; pw_millis := 5500 |} g1 =
      Some (tt, g2, fillRect 182 2 58 14 TFT_BLACK :: drawRect 185 3 22 10 TFT_RED :: rest) /\
    batteryFlashOn g2 = true.
Proof.
  eexists _, _, _. split; [vm_compute; reflexivity|]. split; [reflexivity|].
  split; [vm_compute; reflexivity|reflexivity].
Qed.

Lemma exampleDark_reachable : reachable exampleDark.
Proof.
  apply (reach_loop (exampleIdle 15000) exampleConfigured exampleDark [setBrightness 0]).
  - apply (reach_loop exampleConfigure exampleStart exampleConfigured exampleConfiguredOps
             exampleStart_reachable).
    vm_compute. reflexivity.
  - vm_compute. reflexivity.
Defined.

Lemma exampleConfigured_reachable : reachable exampleConfigured.
Proof.
  apply (reach_loop exampleConfigure exampleStart exampleConfigured exampleConfiguredOps
           exampleStart_reachable).
  vm_compute. reflexivity.
Defined.

(** The pass that turns the screen off sends only [setBrightness 0]; the
    next pass without a key sends nothing and leaves the screen off; the
    pass in which a key arrives starts with the [setBrightness] of the
    wake-up. *)
Lemma no_drawing_while_screen_off_witness :
  (reachable exampleConfigured /\
   exists ops,
     loop (exampleIdle 15000) exampleConfigured = Some (tt, exampleDark, ops) /\
     screenState exampleDark = SCREEN_OFF /\
     Forall (fun op => is_setBrightness op = true) ops) /\
  (reachable exampleDark /\ screenState exampleDark = SCREEN_OFF /\
   keyEvent (exampleIdle 16000) = false /\
   exists g',
     loop (exampleIdle 16000) exampleDark = Some (tt, g', []) /\
     screenState g' = SCREEN_OFF) /\
  (keyEvent exampleWake = true /\
   exists g' rest,
     loop exampleWake exampleDark =
       Some (tt, g', setBrightness (normalBrightness exampleDark) :: rest) /\
     Forall (fun op => drawing op \/ op = setBrightness 0) rest).
Proof.
  split; [|split].
  - split; [exact exampleConfigured_reachable|].
    destruct (no_drawing_while_screen_off (exampleIdle 15000) exampleConfigured
                exampleConfigured_reachable) as (g' & ops & Hl & Hoff & _).
    assert (Hrun : loop (exampleIdle 15000) exampleConfigured =
                   Some (tt, exampleDark, [setBrightness 0]))
      by (vm_compute; reflexivity).
    rewrite Hrun in Hl. injection Hl as <- <-.
    exists [setBrightness 0]. split; [reflexivity|]. split; [reflexivity|].
    apply Hoff. reflexivity.
  - split; [exact exampleDark_reachable|]. split; [reflexivity|]. split; [reflexivity|].
    destruct (no_drawing_while_screen_off (exampleIdle 16000) exampleDark
                exampleDark_reachable) as (g' & ops & Hl & _ & Hidle & _).
    destruct (Hidle eq_refl eq_refl) as (Hs & Hops).
    exists g'. rewrite Hops in Hl. split; [exact Hl|exact Hs].
  - split; [reflexivity|].
    destruct (no_drawing_while_screen_off exampleWake exampleDark
                exampleDark_reachable) as (g' & ops & Hl & _ & _ & Hkey).
    destruct (Hkey eq_refl eq_refl) as (rest & Hops & Hrest).
    exists g', rest. rewrite Hops in Hl. split; [exact Hl|exact Hrest].
Defined.

(** The settings key sequence of [exampleConfigure] and ten idle seconds
    leave the settings page current, the timeout option at 10 s and the
    screen off; the key pressed then wakes the screen and repaints the
    settings page, and opens nothing. *)
Example dark_screen_then_wake :
  currentPage exampleDark = 4 /\ screenTimeoutOption exampleDark = 0 /\
  screenState exampleDark = SCREEN_OFF /\
  exists g' rest,
    loop exampleWake exampleDark =
      Some (tt, g', setBrightness 80 :: fillScreen TFT_BLACK :: rest) /\
    currentPage g' = 4 /\ screenState g' = SCREEN_ON.
Proof.
  do 3 (split; [reflexivity|]).
  eexists _, _. split; [vm_compute; reflexivity|]. split; reflexivity.
Qed.

(** After [setup] and one pass: page 0, brightness 80. *)
Lemma page_and_brightness_stay_valid_witness :
  (reachable exampleDrawn) /\
  (0 <= currentPage exampleDrawn <= 4 /\ In (normalBrightness exampleDrawn) [20; 40; 60; 80;
      100]).
Proof.
  assert (H1 : reachable exampleDrawn)
    by (exact exampleDrawn_reachable).
  exact (conj H1 (page_and_brightness_stay_valid exampleDrawn H1)).
Defined.

(** ['h'] and ['H'] on the main page after [setup]. *)
Lemma letter_keys_ignore_case_witness :
  (isLower "h"%char = true) /\
  (handleKey "h"%char exampleStart = handleKey (toUpper "h"%char) exampleStart).
Proof.
  assert (H1 : isLower "h"%char = true)
    by (reflexivity).
  exact (conj H1 (letter_keys_ignore_case "h"%char exampleStart H1)).
Defined.

(** The settings page after [setup]: cursor on row 0, brightness 80, timeout option 2. *)
Lemma settings_keys_edit_the_selected_row_witness :
  (currentPage exampleSettings = 4) /\
  (let sel := settingsSelection exampleSettings in
   let nb := normalBrightness exampleSettings in
   let opt := screenTimeoutOption exampleSettings in
   handleKey ";" exampleSettings =
     Some (tt, set_needsFullRedraw true (set_settingsSelection (Z.max 0 (sel - 1))
         exampleSettings), []) /\
   handleKey "." exampleSettings =
     Some (tt, set_needsFullRedraw true (set_settingsSelection (Z.min 2 (sel + 1))
         exampleSettings), []) /\
   (sel = 0 ->
      handleKey "," exampleSettings =
        Some (tt, set_needsFullRedraw true (set_normalBrightness (Z.max 20 (nb - 20))
            exampleSettings),
              [setBrightness (Z.max 20 (nb - 20))]) /\
      handleKey "/" exampleSettings =
        Some (tt, set_needsFullRedraw true (set_normalBrightness (Z.min 100 (nb + 20))
            exampleSettings),
              [setBrightness (Z.min 100 (nb + 20))])) /\
   (sel = 1 ->
      handleKey "," exampleSettings =
        Some (tt, set_needsFullRedraw true (set_dispTemp (flit (-999))
                    (set_useFahrenheit false exampleSettings)), []) /\
      handleKey "/" exampleSettings =
        Some (tt, set_needsFullRedraw true (set_dispTemp (flit (-999))
                    (set_useFahrenheit true exampleSettings)), [])) /\
   (sel = 2 ->
      handleKey "," exampleSettings =
        Some (tt, set_needsFullRedraw true (set_screenTimeoutOption (Z.max 0 (opt - 1))
            exampleSettings),
              []) /\
      handleKey "/" exampleSettings =
        Some (tt, set_needsFullRedraw true (set_screenTimeoutOption (Z.min 2 (opt + 1))
            exampleSettings),
              [])) /\
   (sel = 0 ->
      exists g2,
        forM_ ["/"; ","]%char handleKey exampleSettings =
          Some (tt, g2, [setBrightness (Z.min 100 (nb + 20));
                         setBrightness (Z.max 20 (Z.min 100 (nb + 20) - 20))]) /\
        settingsSelection g2 = 0 /\
        normalBrightness g2 = Z.max 20 (Z.min 100 (nb + 20) - 20) /\
        (20 <= nb <= 80 -> normalBrightness g2 = nb) /\
        (nb = 100 -> normalBrightness g2 = 80))).
Proof.
  assert (H1 : currentPage exampleSettings = 4)
    by (reflexivity).
  exact (conj H1 (settings_keys_edit_the_selected_row exampleSettings H1)).
Defined.

(** [setup] and one pass: the backlight is at 80. *)
Lemma backlight_tracks_screen_state_witness :
  (Shown (exampleStartOps ++ exampleDrawnOps) exampleDrawn) /\
  (forall b, backlight b (exampleStartOps ++ exampleDrawnOps) =
   match screenState exampleDrawn with SCREEN_ON => normalBrightness exampleDrawn | SCREEN_OFF =>
       0 end).
Proof.
  assert (H1 : Shown (exampleStartOps ++ exampleDrawnOps) exampleDrawn)
    by (exact exampleShown).
  exact (conj H1 (backlight_tracks_screen_state (exampleStartOps ++ exampleDrawnOps) exampleDrawn
      H1)).
Defined.

(** Ten seconds after a last activity 5 s before the clock overflows. *)
Lemma elapsed_time_survives_clock_wrap_witness :
  (0 <= 10000 < 2 ^ 32) /\
  ((0 <= lastActivityTime exampleNearWrap < 2 ^ 32 -> 0 <= screenTimeoutOption exampleNearWrap <=
      2 ->
    screenState exampleNearWrap = SCREEN_ON ->
      updateScreenTimeout ((lastActivityTime exampleNearWrap + 10000) mod 2 ^ 32) exampleNearWrap
          =
      if ((screenTimeoutOption exampleNearWrap =? 0) && (10000 <=? 10000))
         || ((screenTimeoutOption exampleNearWrap =? 1) && (30000 <=? 10000))
      then Some (tt, set_screenState SCREEN_OFF exampleNearWrap, [setBrightness 0])
      else Some (tt, exampleNearWrap, [])) /\
   (0 <= lastHistoryUpdate exampleNearWrap < 2 ^ 32 -> RingInv exampleNearWrap -> 1 <=
       historyCount exampleNearWrap ->
      updateHistory ((lastHistoryUpdate exampleNearWrap + 10000) mod 2 ^ 32) exampleNearWrap =
      if 60000 <=? 10000
      then Some (tt, appendedState
                       (set_lastHistoryUpdate ((lastHistoryUpdate exampleNearWrap + 10000) mod 2 ^
                           32) exampleNearWrap), [])
      else Some (tt, exampleNearWrap, []))).
Proof.
  assert (H1 : 0 <= 10000 < 2 ^ 32)
    by (lia).
  exact (conj H1 (elapsed_time_survives_clock_wrap exampleNearWrap 10000 H1)).
Defined.

(** A pass 100 ms after the main page has been drawn. *)
Lemma idle_pass_draws_nothing_witness :
  (reachable exampleDrawn) /\
  (keyEvent (exampleIdle 3100) = false) /\
  (needsFullRedraw exampleDrawn = false) /\
  (usub (in_millisLoop (exampleIdle 3100)) (lastDisplayUpdate exampleDrawn) < displayInterval) /\
  (loop (exampleIdle 3100) exampleDrawn =
   Some (tt, beforeRender (exampleIdle 3100) exampleDrawn,
         if timedOut (in_millisTimeout (exampleIdle 3100)) exampleDrawn then [setBrightness 0]
             else [])).
Proof.
  assert (H1 : reachable exampleDrawn)
    by (exact exampleDrawn_reachable).
  assert (H2 : keyEvent (exampleIdle 3100) = false)
    by (reflexivity).
  assert (H3 : needsFullRedraw exampleDrawn = false)
    by (reflexivity).
  assert (H4 : usub (in_millisLoop (exampleIdle 3100)) (lastDisplayUpdate exampleDrawn) <
      displayInterval)
    by (vm_compute; reflexivity).
  exact (conj H1 (conj H2 (conj H3 (conj H4 (idle_pass_draws_nothing (exampleIdle 3100)
      exampleDrawn H1 H2 H3 H4))))).
Defined.

(** The renderer on the buffer with three samples. *)
Lemma renderer_changes_only_its_caches_witness :
  (RingInv exampleFilled) /\
  (exists g' ops,
   render exampleKeyH 5001 true exampleFilled = Some (tt, g', ops) /\
   Forall drawing ops /\
   behindCaches g' =
   behindCaches (if needsFullRedraw exampleFilled
                 then set_lastDisplayUpdate 5001 (set_needsFullRedraw false exampleFilled)
                 else if true then set_lastDisplayUpdate 5001 exampleFilled else exampleFilled)).
Proof.
  assert (H1 : RingInv exampleFilled)
    by (exact exampleFilled_RingInv).
  exact (conj H1 (renderer_changes_only_its_caches exampleKeyH 5001 true exampleFilled H1)).
Defined.

(** The first pass after [setup], with ['h'] pressed. *)
Lemma pending_redraw_is_served_at_once_witness :
  (reachable exampleStart) /\
  (exists g1 o1 g' o4,
   handleKeyboard exampleKeyH exampleStart = Some (tt, g1, o1) /\
   loop exampleKeyH exampleStart =
     Some (tt, g', o1 ++ (if timedOut (in_millisTimeout exampleKeyH) g1
                          then [setBrightness 0] else []) ++ o4) /\
   (screenState g' = SCREEN_ON ->
      needsFullRedraw g' = false /\
      (needsFullRedraw g1 = true ->
         lastDisplayUpdate g' = in_millisLoop exampleKeyH /\
         exists rest, o4 = fillScreen TFT_BLACK :: rest)) /\
   (screenState g' = SCREEN_OFF ->
      o4 = [] /\ needsFullRedraw g' = needsFullRedraw g1)).
Proof.
  assert (H1 : reachable exampleStart)
    by (exact exampleStart_reachable).
  exact (conj H1 (pending_redraw_is_served_at_once exampleKeyH exampleStart H1)).
Defined.

(** A battery at 80 %, not charging, drawn twice. *)
Lemma battery_indicator_is_redrawn_on_change_only_witness :
  ((pw_level examplePower <=? 10) && negb (pw_charging examplePower) = false) /\
  (pw_level examplePower = pw_level examplePower) /\
  (pw_charging examplePower = pw_charging examplePower) /\
  (exists g1 o1,
   drawBattery true examplePower exampleStart = Some (tt, g1, o1) /\
   prevBatteryLevel g1 = pw_level examplePower /\ prevCharging g1 = pw_charging examplePower /\
   (true = false -> prevBatteryLevel exampleStart = pw_level examplePower ->
    prevCharging exampleStart = pw_charging examplePower -> o1 = []) /\
   drawBattery false examplePower g1 = Some (tt, g1, [])).
Proof.
  assert (H1 : (pw_level examplePower <=? 10) && negb (pw_charging examplePower) = false)
    by (reflexivity).
  assert (H2 : pw_level examplePower = pw_level examplePower)
    by (reflexivity).
  assert (H3 : pw_charging examplePower = pw_charging examplePower)
    by (reflexivity).
  exact (conj H1 (conj H2 (conj H3 (battery_indicator_is_redrawn_on_change_only true examplePower
      examplePower exampleStart H1 H2 H3)))).
Defined.

(** A battery at 80 %, on the 240 pixels wide display. *)
Lemma battery_symbol_stays_in_its_box_witness :
  (0 <= pw_level examplePower <= 100) /\
  (exists g' ops,
   drawBattery true examplePower exampleStart = Some (tt, g', ops) /\
   (ops = [] \/
    exists icon,
      ops = fillRect (screenW exampleStart - 58) 2 58 14 TFT_BLACK :: icon /\
      Forall (opWithin (screenW exampleStart - 55) 3 (screenW exampleStart - 31) 13) icon /\
      Forall (opWithin (screenW exampleStart - 58) 2 (screenW exampleStart) 16) ops)).
Proof.
  assert (H1 : 0 <= pw_level examplePower <= 100)
    by (vm_compute; split; discriminate).
  exact (conj H1 (battery_symbol_stays_in_its_box true examplePower exampleStart H1)).
Defined.

(** A battery at 7 %, five seconds after boot. *)
Lemma low_battery_indicator_blinks_witness :
  (pw_level exampleLowPower <= 10) /\
  (pw_charging exampleLowPower = false) /\
  (exists g' ops,
   drawBattery false exampleLowPower exampleDrawn = Some (tt, g', ops) /\
   (flashInterval <= usub (pw_millis exampleLowPower) (lastFlashTime exampleDrawn) ->
      batteryFlashOn g' = negb (batteryFlashOn exampleDrawn) /\
      lastFlashTime g' = pw_millis exampleLowPower /\
      prevBatteryLevel g' = pw_level exampleLowPower /\ prevCharging g' = false /\
      (batteryFlashOn exampleDrawn = true ->
         ops = [fillRect (screenW exampleDrawn - 58) 2 58 14 TFT_BLACK]) /\
      (batteryFlashOn exampleDrawn = false ->
         exists rest,
           ops = fillRect (screenW exampleDrawn - 58) 2 58 14 TFT_BLACK
                 :: drawRect (screenW exampleDrawn - 55) 3 22 10 TFT_RED :: rest)) /\
   (usub (pw_millis exampleLowPower) (lastFlashTime exampleDrawn) < flashInterval ->
      batteryFlashOn g' = batteryFlashOn exampleDrawn /\ lastFlashTime g' = lastFlashTime
          exampleDrawn)).
Proof.
  assert (H1 : pw_level exampleLowPower <= 10)
    by (vm_compute; discriminate).
  assert (H2 : pw_charging exampleLowPower = false)
    by (reflexivity).
  exact (conj H1 (conj H2 (low_battery_indicator_blinks false exampleLowPower exampleDrawn H1
      H2))).
Defined.

(** The temperature box showing 21.5 is redrawn for 22. *)
Lemma value_redraw_stays_inside_the_box_witness :
  (fltb (absDiff 22%Q (deref ref_dispTemp exampleCached)) (flit (5 # 100)) = false) /\
  (let vw := getTextWidth (fformat "%.1f"%string 22%Q) 2 in
   let uw := getTextWidth "C"%string 1 in
   exists xv xu,
     updateSingleBoxValue 6 22%Q ref_dispTemp COLOR_TEMP "%.1f"%string "C"%string exampleCached =
       Some (tt, assign ref_dispTemp 22%Q exampleCached,
             [fillRect (6 + 4) (boxY exampleCached + 43) 64 35 TFT_BLACK;
              setTextSize 2; setTextColor COLOR_TEMP;
              setCursor xv (boxY exampleCached + 45); print (fformat "%.1f"%string 22%Q);
              setTextSize 1; setTextColor COLOR_TEMP;
              setCursor xu (boxY exampleCached + 68); print "C"%string]) /\
     opWithin (6 + boxBorderWidth) (boxY exampleCached + boxBorderWidth)
              (6 + boxWidth - boxBorderWidth) (boxY exampleCached + boxHeight - boxBorderWidth)
              (fillRect (6 + 4) (boxY exampleCached + 43) 64 35 TFT_BLACK) /\
     (vw <= 64 -> 6 + 4 <= xv /\ xv + vw <= 6 + 4 + 64) /\
     (uw <= 64 -> 6 + 4 <= xu /\ xu + uw <= 6 + 4 + 64) /\
     boxY exampleCached + 43 <= boxY exampleCached + 45 /\ boxY exampleCached + 45 + 8 * 2 <= boxY
         exampleCached + 43 + 35 /\
     boxY exampleCached + 68 + 8 * 1 <= boxY exampleCached + 43 + 35).
Proof.
  assert (H1 : fltb (absDiff 22%Q (deref ref_dispTemp exampleCached)) (flit (5 # 100)) = false)
    by (reflexivity).
  exact (conj H1 (value_redraw_stays_inside_the_box 6 22%Q ref_dispTemp COLOR_TEMP "%.1f"%string
      "C"%string exampleCached H1)).
Defined.

(** A pass without a key event, ten seconds after [setup]. *)
Lemma screen_goes_off_exactly_on_timeout_witness :
  (reachable exampleDrawn) /\
  (exists g' ops T,
   loop (exampleIdle 12600) exampleDrawn = Some (tt, g', ops) /\
   aget screenTimeoutValues (screenTimeoutOption g') = Some T /\
   let last := if keyEvent (exampleIdle 12600) then in_millisWake (exampleIdle 12600) else
       lastActivityTime exampleDrawn in
   let expired := negb (T =? 0) && (T <=? usub (in_millisTimeout (exampleIdle 12600)) last) in
   let stayedOff := ScreenState_eqb (screenState exampleDrawn) SCREEN_OFF && negb (keyEvent
       (exampleIdle 12600)) in
   (screenState g' = SCREEN_OFF <-> stayedOff || expired = true) /\
   (stayedOff = false -> expired = true -> In (setBrightness 0) ops)).
Proof.
  assert (H1 : reachable exampleDrawn)
    by (exact exampleDrawn_reachable).
  exact (conj H1 (screen_goes_off_exactly_on_timeout (exampleIdle 12600) exampleDrawn H1)).
Defined.

(** The buffer with three samples. *)
Lemma history_is_converted_on_read_witness :
  (Inv exampleFilled) /\
  (length (tempHistory exampleFilled) = Z.to_nat historySize) /\
  (exists xs,
   readOrdered tempHistory false exampleFilled = Some (xs, exampleFilled, []) /\
   readOrdered tempHistory true exampleFilled = Some (map toFahrenheit xs, exampleFilled, []) /\
   length xs = Z.to_nat (historyCount exampleFilled) /\
   exists g' ops,
     handleKey "/"%char exampleFilled = Some (tt, g', ops) /\
     tempHistory g' = tempHistory exampleFilled /\ humidityHistory g' = humidityHistory
         exampleFilled /\
     pressureHistory g' = pressureHistory exampleFilled /\
     historyIndex g' = historyIndex exampleFilled /\ historyCount g' = historyCount
         exampleFilled).
Proof.
  assert (H1 : Inv exampleFilled)
    by (exact exampleFilled_Inv).
  assert (H2 : length (tempHistory exampleFilled) = Z.to_nat historySize)
    by (reflexivity).
  exact (conj H1 (conj H2 (history_is_converted_on_read tempHistory "/"%char exampleFilled H1
      H2))).
Defined.

(** The temperature graph of the buffer with three samples, on the 240 x 135 display. *)
Lemma graph_line_is_a_polyline_witness :
  (RingInv exampleFilled) /\
  (length (tempHistory exampleFilled) = Z.to_nat historySize) /\
  (let pt := graphPoint tempHistory false 30 18 205 90 0%Q 4%Q exampleFilled in
   drawGraphLine tempHistory false COLOR_TEMP 30 18 205 90 0%Q 4%Q exampleFilled =
     Some (tt, exampleFilled, polyline COLOR_TEMP None (map pt (upto (historyCount
         exampleFilled)))) /\
   length (map pt (upto (historyCount exampleFilled))) = Z.to_nat (historyCount exampleFilled) /\
   fst (pt 0) = 30 + 2 /\ fst (pt 59) = 30 + 205 - 2 /\
   (4 <= 205 ->
      (forall i, 0 <= i < historyCount exampleFilled -> 30 + 2 <= fst (pt i) <= 30 + 205 - 2) /\
      (forall i j, i <= j -> fst (pt i) <= fst (pt j))) /\
   (63 <= 205 ->
      (forall i j, 0 <= i < j -> fst (pt i) < fst (pt j)) /\
      (forall i, 0 <= i < 59 -> fst (pt i) < 30 + 205 - 2))).
Proof.
  assert (H1 : RingInv exampleFilled)
    by (exact exampleFilled_RingInv).
  assert (H2 : length (tempHistory exampleFilled) = Z.to_nat historySize)
    by (reflexivity).
  exact (conj H1 (conj H2 (graph_line_is_a_polyline tempHistory false COLOR_TEMP 30 18 205 90 0%Q
      4%Q exampleFilled H1 H2))).
Defined.

(** The settings page with the settings that [setup] leaves. *)
Lemma settings_page_shows_the_state_witness :
  (SettingsInv exampleStart) /\
  (let sel := settingsSelection exampleStart in
   let fillW := map_range (normalBrightness exampleStart) 20 100 0 96 in
   exists g' ops,
     drawSettingsPageStatic examplePower exampleStart = Some (tt, g', ops) /\
     Permutation (List.filter is_fillRoundRect ops)
       [fillRoundRect 10 (32 + 35 * sel) (screenW exampleStart - 20) 33 5 (RGB565 0x2104);
        fillRoundRect (if useFahrenheit exampleStart then 135 else 90) 72 40 14 3
          (if sel =? 1 then TFT_YELLOW else TFT_WHITE);
        fillRoundRect (90 + 35 * screenTimeoutOption exampleStart) 107 32 14 3
          (if sel =? 2 then TFT_YELLOW else TFT_WHITE)] /\
     In (fillRect 92 40 fillW 8 (if sel =? 0 then TFT_YELLOW else TFT_WHITE)) ops /\
     0 <= fillW <= 96).
Proof.
  assert (H1 : SettingsInv exampleStart)
    by (exact exampleStart_SettingsInv).
  exact (conj H1 (settings_page_shows_the_state examplePower exampleStart H1)).
Defined.

(** The first full redraw after [setup]: 21.5 degrees, 40 %, 1013.25 hPa. *)
Lemma full_redraw_shows_the_current_readings_witness :
  (needsFullRedraw exampleStart = true) /\
  (currentPage exampleStart = 0) /\
  (fltb (absDiff (convert (useFahrenheit exampleStart) (temperature exampleStart)) (flit (-999)))
   (flit (5 # 100)) = false) /\
  (fltb (absDiff (humidity exampleStart) (flit (-999))) (flit (5 # 100)) = false) /\
  (fltb (absDiff (pressure exampleStart) (flit (-999))) (flit (5 # 100)) = false) /\
  (exists g' ops,
   render exampleKeyH 5001 true exampleStart = Some (tt, g', ops) /\
   needsFullRedraw g' = false /\ lastDisplayUpdate g' = 5001 /\
   dispTemp g' = convert (useFahrenheit exampleStart) (temperature exampleStart) /\
   dispHumidity g' = humidity exampleStart /\ dispPressure g' = pressure exampleStart /\
   In (print (fformat "%.1f" (convert (useFahrenheit exampleStart) (temperature exampleStart))))
       ops /\
   In (print (if useFahrenheit exampleStart then "F" else "C")%string) ops /\
   In (print (fformat "%.0f" (humidity exampleStart))) ops /\ In (print "%") ops /\
   In (print (fformat "%.0f" (pressure exampleStart))) ops /\ In (print "hPa") ops).
Proof.
  assert (H1 : needsFullRedraw exampleStart = true)
    by (reflexivity).
  assert (H2 : currentPage exampleStart = 0)
    by (reflexivity).
  assert (H3 : fltb (absDiff (convert (useFahrenheit exampleStart) (temperature exampleStart))
      (flit (-999)))
               (flit (5 # 100)) = false)
    by (reflexivity).
  assert (H4 : fltb (absDiff (humidity exampleStart) (flit (-999))) (flit (5 # 100)) = false)
    by (reflexivity).
  assert (H5 : fltb (absDiff (pressure exampleStart) (flit (-999))) (flit (5 # 100)) = false)
    by (reflexivity).
  exact (conj H1 (conj H2 (conj H3 (conj H4 (conj H5 (full_redraw_shows_the_current_readings
      exampleKeyH 5001 true exampleStart H1 H2 H3 H4 H5)))))).
Defined.

(** The temperature graph of the buffer with three samples. *)
Lemma graph_page_draws_one_marker_per_sample_witness :
  (RingInv exampleFilled) /\
  (HistoryOf (@tempHistory Q)) /\
  (exists g' ops,
   drawGraphPageStatic "TEMPERATURE"%string (@tempHistory Q) COLOR_TEMP "C"%string 3%Q false
       examplePower exampleFilled = Some (tt, g', ops) /\
   graphDispValue g' = flit (-999) /\
   length (List.filter is_fillCircle ops) =
     Z.to_nat (if 1 <? historyCount exampleFilled then historyCount exampleFilled else 0) /\
   (historyCount exampleFilled <= 1 -> In (print "Collecting...") ops)).
Proof.
  assert (H1 : RingInv exampleFilled)
    by (exact exampleFilled_RingInv).
  assert (H2 : HistoryOf (@tempHistory Q))
    by (intros g0 HR0; exact (proj1 HR0)).
  exact (conj H1 (conj H2 (graph_page_draws_one_marker_per_sample "TEMPERATURE"%string
      (@tempHistory Q) COLOR_TEMP "C"%string 3%Q false examplePower exampleFilled H1 H2))).
Defined.

(** A full redraw of the temperature page with three stored samples. *)
Lemma full_redraw_shows_the_current_graph_value_witness :
  (needsFullRedraw exampleGraphPage = true) /\
  (RingInv exampleGraphPage) /\
  (1 <= currentPage exampleGraphPage <= 3) /\
  (fltb (absDiff (graphValue exampleGraphPage) (flit (-999))) (flit (5 # 100)) = false) /\
  (exists g' ops,
   render exampleKeyH 5001 true exampleGraphPage = Some (tt, g', ops) /\
   needsFullRedraw g' = false /\
   graphDispValue g' = graphValue exampleGraphPage /\
   In (print (fformat "%.1f" (graphValue exampleGraphPage) +:+ " " +:+ graphUnit
       exampleGraphPage)) ops).
Proof.
  assert (H1 : needsFullRedraw exampleGraphPage = true)
    by (reflexivity).
  assert (H2 : RingInv exampleGraphPage)
    by (exact exampleFilled_RingInv).
  assert (H3 : 1 <= currentPage exampleGraphPage <= 3)
    by (cbn; lia).
  assert (H4 : fltb (absDiff (graphValue exampleGraphPage) (flit (-999))) (flit (5 # 100)) =
      false)
    by (reflexivity).
  exact (conj H1 (conj H2 (conj H3 (conj H4 (full_redraw_shows_the_current_graph_value exampleKeyH
      5001 true exampleGraphPage H1 H2 H3 H4))))).
Defined.

(** A key pressed on the dark settings page. *)
Lemma wake_up_repaints_the_page_witness :
  (reachable exampleDark) /\
  (screenState exampleDark = SCREEN_OFF) /\
  (keyEvent exampleWake = true) /\
  (usub (in_millisTimeout exampleWake) (in_millisWake exampleWake) < 10000) /\
  (exists g' rest,
   loop exampleWake exampleDark =
     Some (tt, g', setBrightness (normalBrightness exampleDark) :: fillScreen TFT_BLACK :: rest)
         /\
   Forall drawing rest /\
   screenState g' = SCREEN_ON /\ needsFullRedraw g' = false /\
   lastActivityTime g' = in_millisWake exampleWake /\
   currentPage g' = currentPage exampleDark /\
   settingsSelection g' = settingsSelection exampleDark /\
   normalBrightness g' = normalBrightness exampleDark /\
   useFahrenheit g' = useFahrenheit exampleDark /\
   screenTimeoutOption g' = screenTimeoutOption exampleDark).
Proof.
  assert (H1 : reachable exampleDark)
    by (exact exampleDark_reachable).
  assert (H2 : screenState exampleDark = SCREEN_OFF)
    by (reflexivity).
  assert (H3 : keyEvent exampleWake = true)
    by (reflexivity).
  assert (H4 : usub (in_millisTimeout exampleWake) (in_millisWake exampleWake) < 10000)
    by (vm_compute; reflexivity).
  exact (conj H1 (conj H2 (conj H3 (conj H4 (wake_up_repaints_the_page exampleWake exampleDark H1
      H2 H3 H4))))).
Defined.
